(** * Picking-list generator: a shallow embedding and its properties

    The Python sources under [src/] (config.py, exceptions.py, models.py,
    utils.py, the four processors, main.py) are embedded function by function.

    - A Python [str] is a list of Unicode code points ([pystr]), so that
      [len] counts code points as Python does.
    - A pandas cell is a [cell]; a row ([pd.Series]) is a list of cells and
      the matrix ([pd.DataFrame] read with [header=None]) is a list of rows.
    - Code that can raise returns a [result]; [try ... except Exception]
      is [try_except].
    - Loops that append to a Python list are folds whose accumulator is the
      list built so far. *)

From Stdlib Require Import List ZArith NArith Bool Lia String Ascii.
From Stdlib Require Import QArith Qround DecimalString.
Import ListNotations.

Set Implicit Arguments.

Open Scope Z_scope.

(* ================================================================== *)
(** * Python strings *)
(* ================================================================== *)

Definition pystr : Type := list N.

(** An ASCII literal as a Python string. *)
Definition lit (s : string) : pystr :=
  map N_of_ascii (list_ascii_of_string s).

Fixpoint str_eqb (a b : pystr) : bool :=
  match a, b with
  | [], [] => true
  | x :: a', y :: b' => N.eqb x y && str_eqb a' b'
  | _, _ => false
  end.

(** [not s] for a Python string. *)
Definition is_empty (s : pystr) : bool :=
  match s with [] => true | _ :: _ => false end.

(** [len(s)] *)
Definition len (s : pystr) : Z := Z.of_nat (List.length s).

(** The code points Python's [str.strip()] removes
    (those for which [str.isspace] holds). *)
Definition isspace (c : N) : bool :=
  (((9 <=? c) && (c <=? 13)) || ((28 <=? c) && (c <=? 32))
   || (c =? 133) || (c =? 160) || (c =? 5760)
   || ((8192 <=? c) && (c <=? 8202))
   || (c =? 8232) || (c =? 8233) || (c =? 8239) || (c =? 8287)
   || (c =? 12288))%N.

Fixpoint lstrip (s : pystr) : pystr :=
  match s with
  | [] => []
  | c :: t => if isspace c then lstrip t else s
  end.

Fixpoint rstrip (s : pystr) : pystr :=
  match s with
  | [] => []
  | c :: t =>
      match rstrip t with
      | [] => if isspace c then [] else [c]
      | t' => c :: t'
      end
  end.

(** [s.strip()] *)
Definition strip (s : pystr) : pystr := lstrip (rstrip s).

(** [sep.join(parts)] *)
Fixpoint join (sep : pystr) (parts : list pystr) : pystr :=
  match parts with
  | [] => []
  | [p] => p
  | p :: rest => p ++ sep ++ join sep rest
  end.

(** [str(n)] for an integer. *)
Definition str_of_Z (n : Z) : pystr :=
  lit (NilZero.string_of_int (Z.to_int n)).

(** [s[:n]] *)
Definition prefix (n : nat) (s : pystr) : pystr := firstn n s.

(* ------------------------------------------------------------------ *)
(** ** The fragment of [re] the configuration uses

    Every configured pattern is [^] followed by literal characters and
    possibly [\d{6}]; it is applied with [re.match(p, s, re.IGNORECASE)],
    so it is a prefix match. *)

Inductive re_item : Type :=
| Lit (c : N)     (* a literal character of the pattern *)
| Digit.          (* \d *)

Definition regex : Type := list re_item.

Definition is_upper_ascii (c : N) : bool := ((65 <=? c) && (c <=? 90))%N.
Definition is_lower_ascii (c : N) : bool := ((97 <=? c) && (c <=? 122))%N.

(** Lower-case form of an ASCII pattern letter. *)
Definition ascii_lower (c : N) : N :=
  if is_upper_ascii c then (c + 32)%N else c.

(** [re.IGNORECASE] on a literal ASCII pattern character [p]: the subject
    character [c] matches when its simple lower-case mapping is the lower
    case of [p] or one of its listed equivalents.  For ASCII letters this
    is the two ASCII cases, plus U+017F for [s], U+212A for [k], and
    U+0130 / U+0131 for [i]. *)
Definition literal_ignorecase (p c : N) : bool :=
  let lo := ascii_lower p in
  if is_lower_ascii lo then
    ((c =? lo) || (c =? lo - 32)
     || ((lo =? 115) && (c =? 383))
     || ((lo =? 107) && (c =? 8490))
     || ((lo =? 105) && ((c =? 304) || (c =? 305))))%N
  else (c =? p)%N.

(** What the Python runtime supplies and the repository does not define. *)
Inductive conv : Type :=
| Converted (n : Z)    (* int(float(v)) succeeded *)
| Rejected             (* ValueError or TypeError *)
| Overflowed (msg : pystr).   (* OverflowError(msg) *)

Class PyRuntime : Type := {
  (** Unicode category Nd, what [\d] matches in a [str] pattern. *)
  unicode_decimal : N -> bool;
  (** [int(float(s))] for a [str] [s]. *)
  int_float_of_str : pystr -> conv
}.

Section Regex.
Context {rt : PyRuntime}.

Definition item_matches (it : re_item) (c : N) : bool :=
  match it with
  | Lit p => literal_ignorecase p c
  | Digit => unicode_decimal c
  end.

(** [re.match(pattern, s, re.IGNORECASE) is not None] *)
Fixpoint re_match (pattern : regex) (s : pystr) : bool :=
  match pattern with
  | [] => true
  | it :: pattern' =>
      match s with
      | [] => false
      | c :: s' => item_matches it c && re_match pattern' s'
      end
  end.
End Regex.

(** A pattern of literals only never consults the runtime. *)
Definition lits (s : string) : regex := map Lit (lit s).

(* ================================================================== *)
(** * exceptions.py *)
(* ================================================================== *)

Inductive exn_class : Type :=
| PickingSystemError
| FileNotFoundError
| InvalidFileFormatError
| ValidationError
| MasterDBError
| ProcessingError
| ReferenceDBError
| OutputError
(* built-in exceptions the modelled code can meet *)
| IndexError
| OverflowError.

(** The direct base class inside the modelled hierarchy; [None] stands
    for Python's own [Exception]. *)
Definition base_class (c : exn_class) : option exn_class :=
  match c with
  | PickingSystemError => None
  | FileNotFoundError | InvalidFileFormatError | ValidationError
  | MasterDBError | ProcessingError | ReferenceDBError | OutputError =>
      Some PickingSystemError
  | IndexError | OverflowError => None
  end.

(** [issubclass(c, PickingSystemError)] *)
Definition is_picking_system_error (c : exn_class) : bool :=
  match c with
  | PickingSystemError => true
  | _ => match base_class c with
         | Some PickingSystemError => true
         | _ => false
         end
  end.

(** A raised exception: its class and [str(e)]. *)
Record exn : Type := Exn { exn_cls : exn_class; exn_str : pystr }.

Inductive result (A : Type) : Type :=
| Ok (a : A)
| Raise (e : exn).
Arguments Ok {A} a.
Arguments Raise {A} e.

Definition bind {A B} (r : result A) (k : A -> result B) : result B :=
  match r with
  | Ok a => k a
  | Raise e => Raise e
  end.

Notation "x <- r ;; k" := (bind r (fun x => k))
  (at level 61, r at next level, right associativity).

(** [try: body  except Exception as e: handler(e)].  Every class of
    [exn_class] derives from [Exception]. *)
Definition try_except {A} (body : result A) (handler : exn -> result A)
  : result A :=
  match body with
  | Ok a => Ok a
  | Raise e => handler e
  end.

(** [for x in xs: s = step(s, x)], where [step] may raise. *)
Fixpoint for_each {A S} (step : S -> A -> result S) (xs : list A) (s : S)
  : result S :=
  match xs with
  | [] => Ok s
  | x :: xs' => s' <- step s x ;; for_each step xs' s'
  end.

(* ================================================================== *)
(** * pandas cells, rows and frames *)
(* ================================================================== *)

(** [int(float(n))] for an integer [n]: the conversion to a double rounds
    to 53 significant bits, ties to even, and raises [OverflowError] when
    the rounded value does not fit a double. *)
Definition int_float_of_int (n : Z) : conv :=
  let a := Z.abs n in
  let k := Z.log2 a - 52 in
  if k <=? 0 then Converted n
  else
    let q := Z.shiftr a k in
    let r := a - Z.shiftl q k in
    let half := Z.shiftl 1 (k - 1) in
    let q' := if (half <? r) || ((r =? half) && Z.odd q) then q + 1 else q in
    let v := Z.shiftl q' k in
    if 2 ^ 1024 <=? v
    then Overflowed (lit "int too large to convert to float")
    else Converted (Z.sgn n * v).

(** The value held by one cell of a frame.  [CNaN] is any value for which
    [pd.isna] holds (None, NaN, NaT).  [COther] is any other scalar (a
    float, a bool, a timestamp), known by its [str()] text and by the
    outcome of [int(float(.))] on it. *)
Inductive cell : Type :=
| CNaN
| CStr (s : pystr)
| CInt (n : Z)
| COther (text : pystr) (as_int : conv).

Definition Series : Type := list cell.
Definition DataFrame : Type := list Series.

(** [len(df.columns)]: every row of a frame has the same width. *)
Definition ncols (df : DataFrame) : nat :=
  match df with
  | [] => 0%nat
  | r :: _ => List.length r
  end.

Definition rectangular (df : DataFrame) : Prop :=
  Forall (fun r => List.length r = ncols df) df.

(** [row.iloc[i]] for a non-negative position. *)
Definition iloc (row : Series) (i : nat) : result cell :=
  match nth_error row i with
  | Some c => Ok c
  | None =>
      Raise (Exn IndexError (lit "single positional indexer is out-of-bounds"))
  end.

(** [df.iloc[r, c]] *)
Definition iloc2 (df : DataFrame) (r c : nat) : result cell :=
  match nth_error df r with
  | Some row => iloc row c
  | None =>
      Raise (Exn IndexError (lit "single positional indexer is out-of-bounds"))
  end.

(** [series == s] at one position, for a [str] [s]. *)
Definition cell_eq_str (c : cell) (s : pystr) : bool :=
  match c with
  | CStr t => str_eqb t s
  | _ => false
  end.

(* ================================================================== *)
(** * config.py *)
(* ================================================================== *)

Module MATRIX_COLUMNS.
Definition NO : nat := 0.
Definition START_PART : nat := 1.
Definition FACTORY : nat := 2.
Definition PART_NUMBER : nat := 4.
Definition PART_NAME : nat := 5.
Definition SPEC : nat := 6.
Definition COLOR_OUTSIDE : nat := 7.
Definition COLOR_INSIDE : nat := 8.
Definition QUANTITY : nat := 9.
Definition UNIT : nat := 10.
Definition FIRST_OPTION : nat := 11.
End MATRIX_COLUMNS.

Definition OPTION_START_COL : nat := 11.

(** [r'^CM\d{6}'], [r'^C-\d{6}'] *)
Definition CM_PART_PATTERNS : list regex :=
  [ lits "CM" ++ repeat Digit 6; lits "C-" ++ repeat Digit 6 ].

(** [r'^A\d{6}'], [r'^AP-\d{6}'] *)
Definition A_PARTS_PATTERNS : list regex :=
  [ lits "A" ++ repeat Digit 6; lits "AP-" ++ repeat Digit 6 ].

(** [r'^FRAME'], [r'^SET'], [r'^KIT'] *)
Definition EXCLUDE_PART_PATTERNS : list regex :=
  [ lits "FRAME"; lits "SET"; lits "KIT" ].

(* '起点部品番号' *)
Definition HDR_START_PART : pystr :=
  [36215; 28857; 37096; 21697; 30058; 21495]%N.
(* '工場' *)
Definition HDR_FACTORY : pystr := [24037; 22580]%N.
(* '部品番号' *)
Definition HDR_PART_NUMBER : pystr := [37096; 21697; 30058; 21495]%N.

Module VALIDATION.
(** A dict: iterated in insertion order. *)
Definition required_headers : list (nat * pystr) :=
  [ (0%nat, lit "No"); (1%nat, HDR_START_PART);
    (2%nat, HDR_FACTORY); (4%nat, HDR_PART_NUMBER) ].
Definition max_part_number_length : Z := 20.
Definition min_quantity : Z := 0.
Definition max_quantity : Z := 9999.
End VALIDATION.

(* ================================================================== *)
(** * models.py *)
(* ================================================================== *)

Inductive ProcessLine : Type := A_LINE | C_LINE.

Inductive PartType : Type := CM | A_PARTS | FRAME | OTHER.

Definition PartType_eqb (a b : PartType) : bool :=
  match a, b with
  | CM, CM | A_PARTS, A_PARTS | FRAME, FRAME | OTHER, OTHER => true
  | _, _ => false
  end.

Record ValidationResult : Type := {
  is_valid : bool;
  errors : list pystr;
  warnings : list pystr
}.

Record CMPickingRow : Type := {
  cmp_no : Z;
  cmp_start_part_number : pystr;
  cmp_factory : pystr;
  cmp_part_number : pystr;
  cmp_part_name : pystr;
  cmp_spec : pystr;
  cmp_quantity : Z;
  cmp_box_code : pystr;
  cmp_box_name : pystr;
  cmp_storage_location : pystr;
  cmp_options : pystr
}.

Record APartsPickingRow : Type := {
  ap_no : Z;
  ap_start_part_number : pystr;
  ap_factory : pystr;
  ap_part_number : pystr;
  ap_part_name : pystr;
  ap_quantity : Z;
  ap_storage_location : pystr;
  ap_rack : pystr;
  ap_quantity_per_box : Z;
  ap_required_boxes : Z;
  ap_options : pystr
}.

Record System720Row : Type := {
  slip_number : pystr;
  line_number : Z;
  part_number : pystr;
  quantity : Z;
  unit : pystr;
  delivery_date : pystr;
  remarks : pystr
}.

(** [PickingResult], without the output path and the elapsed time, which
    come from the clock and the file system. *)
Record PickingResult : Type := {
  success : bool;
  message : pystr;
  cm_picking_count : Z;
  a_parts_picking_count : Z;
  result_errors : list pystr;
  result_warnings : list pystr
}.

(* ================================================================== *)
(** * utils.py *)
(* ================================================================== *)

Section Utils.
Context {rt : PyRuntime}.

Definition is_valid_part_number (part_number : pystr) : bool :=
  if is_empty part_number then false
  else
    let part_number := strip part_number in
    if is_empty part_number then false
    else if (len part_number <? 6) || (20 <? len part_number) then false
    else if existsb (fun pattern => re_match pattern part_number)
                    EXCLUDE_PART_PATTERNS
    then false
    else true.

Definition identify_part_type (part_number : pystr) : PartType :=
  if is_empty part_number then OTHER
  else
    let part_number := strip part_number in
    if existsb (fun pattern => re_match pattern part_number)
               CM_PART_PATTERNS
    then CM
    else if existsb (fun pattern => re_match pattern part_number)
                    A_PARTS_PATTERNS
    then A_PARTS
    else if re_match (lits "FRAME") part_number then FRAME
    else OTHER.

Definition safe_str (value : cell) : pystr :=
  match value with
  | CNaN => []
  | CStr s => strip s
  | CInt n => strip (str_of_Z n)
  | COther text _ => strip text
  end.

Definition of_conv (default : Z) (c : conv) : result Z :=
  match c with
  | Converted n => Ok n
  | Rejected => Ok default
  | Overflowed msg => Raise (Exn OverflowError msg)
  end.

(** Only [ValueError] and [TypeError] are caught: an [OverflowError]
    leaves the function. *)
Definition safe_int (value : cell) : result Z :=
  match value with
  | CNaN => Ok 0
  | CStr s => of_conv 0 (int_float_of_str s)
  | CInt n => of_conv 0 (int_float_of_int n)
  | COther _ c => of_conv 0 c
  end.

(** [value and value not in ['', '-', 'nan']] *)
Definition keeps_option (value : pystr) : bool :=
  negb (is_empty value)
  && negb (existsb (str_eqb value) [lit ""; lit "-"; lit "nan"]).

(** The loop index stays below [len(row_data)], so [iloc] cannot raise. *)
Definition extract_options (row_data : Series) (option_start_col : nat)
  : list pystr :=
  fold_left
    (fun options col_idx =>
       let value := safe_str (nth col_idx row_data CNaN) in
       if keeps_option value then options ++ [value] else options)
    (seq option_start_col (List.length row_data - option_start_col))
    [].

Definition format_options (options : list pystr) : pystr :=
  match options with
  | [] => lit ""
  | _ => join (lit " / ") options
  end.

(** Python's [//] rounds towards minus infinity, as [Z.div] does. *)
Definition calculate_required_boxes (quantity quantity_per_box : Z) : Z :=
  if quantity_per_box <=? 0 then 0
  else (quantity + quantity_per_box - 1) / quantity_per_box.
End Utils.

(* ------------------------------------------------------------------ *)
(** ** Files and [safe_read_excel] *)

(** What is on disk at a path when the run reads it. *)
Inductive file_content (A : Type) : Type :=
| Missing                      (* the path does not exist *)
| Unreadable (err : pystr)     (* pd.read_excel raises, with this text *)
| Readable (content : A).
Arguments Missing {A}.
Arguments Unreadable {A} err.
Arguments Readable {A} content.

Record File (A : Type) : Type := {
  file_path : pystr;           (* str(path) *)
  file_stem : pystr;           (* path.stem *)
  file_on_disk : file_content A
}.

Definition file_exists {A} (f : File A) : bool :=
  match file_on_disk f with
  | Missing => false
  | _ => true
  end.

(* 'ファイルが存在しません: ' *)
Definition MSG_FILE_MISSING : pystr :=
  [12501; 12449; 12452; 12523; 12364; 23384; 22312; 12375; 12414; 12379;
   12435; 58; 32]%N.
(* 'Excelファイル読み込みエラー: ' *)
Definition MSG_READ_ERROR : pystr :=
  [69; 120; 99; 101; 108; 12501; 12449; 12452; 12523; 35501; 12415; 36796;
   12415; 12456; 12521; 12540; 58; 32]%N.

Definition safe_read_excel {A} (file : File A) : result A :=
  match file_on_disk file with
  | Missing =>
      Raise (Exn FileNotFoundError (MSG_FILE_MISSING ++ file_path file))
  | Unreadable err =>
      Raise (Exn InvalidFileFormatError (MSG_READ_ERROR ++ err))
  | Readable df => Ok df
  end.

(* ================================================================== *)
(** * processors/reference_db.py *)
(* ================================================================== *)

(** One row of the CM master sheet, by its configured column names. *)
Record CMMasterRow : Type := {
  cmm_part_number : cell;        (* 'CM品番' *)
  cmm_box_code : cell;           (* '箱コード' *)
  cmm_box_name : cell;           (* '箱名称' *)
  cmm_storage_location : cell    (* '格納場所' *)
}.

(** One row of the A-parts master sheet. *)
Record APartsMasterRow : Type := {
  apm_part_number : cell;        (* '部品番号' *)
  apm_part_name : cell;          (* '部品名称' *)
  apm_storage_location : cell;   (* '格納場所' *)
  apm_rack : cell;               (* '棚番' *)
  apm_quantity_per_box : cell    (* '箱入数' *)
}.

(** The dict [_find_cm_master] returns. *)
Record CMMasterInfo : Type := {
  cmi_box_code : pystr;
  cmi_box_name : pystr;
  cmi_storage_location : pystr
}.

(** The dict [_find_a_parts_master] returns. *)
Record APartsMasterInfo : Type := {
  api_part_name : pystr;
  api_storage_location : pystr;
  api_rack : pystr;
  api_quantity_per_box : Z
}.

(** One row of the CM reference table. *)
Record CMReferenceRow : Type := {
  cmr_No : Z;
  cmr_start_part_number : pystr;   (* '起点部品番号' *)
  cmr_factory : pystr;             (* '工場' *)
  cmr_part_number : pystr;         (* '部品番号' *)
  cmr_part_name : pystr;           (* '品名' *)
  cmr_spec : pystr;                (* '仕様' *)
  cmr_box_code : pystr;            (* '箱コード' *)
  cmr_box_name : pystr;            (* '箱名称' *)
  cmr_storage_location : pystr     (* '格納場所' *)
}.

(** One row of the A-parts reference table. *)
Record APartsReferenceRow : Type := {
  apr_No : Z;
  apr_start_part_number : pystr;
  apr_factory : pystr;
  apr_part_number : pystr;
  apr_part_name : pystr;           (* '品名' *)
  apr_storage_location : pystr;
  apr_rack : pystr;                (* '棚番' *)
  apr_quantity_per_box : Z         (* '箱入数' *)
}.

(* 'マスタDB読み込みエラー: ' *)
Definition MSG_MASTER_ERROR : pystr :=
  [12510; 12473; 12479; 68; 66; 35501; 12415; 36796; 12415; 12456; 12521;
   12540; 58; 32]%N.
(* '参照DB作成エラー: ' *)
Definition MSG_REFDB_ERROR : pystr :=
  [21442; 29031; 68; 66; 20316; 25104; 12456; 12521; 12540; 58; 32]%N.

Module ReferenceDBCreator.
Section WithRuntime.
Context {rt : PyRuntime}.

Definition _load_master_dbs
    (cm_file : File (list CMMasterRow))
    (a_file : File (list APartsMasterRow))
  : result (list CMMasterRow * list APartsMasterRow) :=
  try_except
    (df_cm_master <- safe_read_excel cm_file ;;
     df_a_parts_master <- safe_read_excel a_file ;;
     Ok (df_cm_master, df_a_parts_master))
    (fun e => Raise (Exn MasterDBError (MSG_MASTER_ERROR ++ exn_str e))).

(** [matched = df[df[part_col] == part_number]; matched.iloc[0]].  The
    masters have been loaded when the lookups run, so the guard on an
    unloaded master does not arise. *)
Definition _find_cm_master (df_cm_master : list CMMasterRow)
    (part_number : pystr) : option CMMasterInfo :=
  match filter (fun r => cell_eq_str (cmm_part_number r) part_number)
               df_cm_master with
  | [] => None
  | row :: _ =>
      Some {| cmi_box_code := safe_str (cmm_box_code row);
              cmi_box_name := safe_str (cmm_box_name row);
              cmi_storage_location := safe_str (cmm_storage_location row) |}
  end.

Definition _find_a_parts_master (df_a_parts_master : list APartsMasterRow)
    (part_number : pystr) : result (option APartsMasterInfo) :=
  match filter (fun r => cell_eq_str (apm_part_number r) part_number)
               df_a_parts_master with
  | [] => Ok None
  | row :: _ =>
      let part_name := safe_str (apm_part_name row) in
      let storage_location := safe_str (apm_storage_location row) in
      let rack := safe_str (apm_rack row) in
      quantity_per_box <- safe_int (apm_quantity_per_box row) ;;
      Ok (Some {| api_part_name := part_name;
                  api_storage_location := storage_location;
                  api_rack := rack;
                  api_quantity_per_box := quantity_per_box |})
  end.

(** The body of the loop of [_create_cm_reference_db] for one matrix
    row; [cm_reference_data] is the list built so far. *)
Definition cm_reference_step (df_cm_master : list CMMasterRow)
    (cm_reference_data : list CMReferenceRow) (row : Series)
  : result (list CMReferenceRow) :=
  c <- iloc row MATRIX_COLUMNS.PART_NUMBER ;;
  let part_number := safe_str c in
  if negb (is_valid_part_number part_number) then Ok cm_reference_data
  else if negb (PartType_eqb (identify_part_type part_number) CM)
  then Ok cm_reference_data
  else
    match _find_cm_master df_cm_master part_number with
    | None => Ok cm_reference_data
    | Some master_row =>
        start_part <- iloc row MATRIX_COLUMNS.START_PART ;;
        factory <- iloc row MATRIX_COLUMNS.FACTORY ;;
        part_name <- iloc row MATRIX_COLUMNS.PART_NAME ;;
        spec <- iloc row MATRIX_COLUMNS.SPEC ;;
        Ok (cm_reference_data ++
            [ {| cmr_No := Z.of_nat (List.length cm_reference_data) + 1;
                 cmr_start_part_number := safe_str start_part;
                 cmr_factory := safe_str factory;
                 cmr_part_number := part_number;
                 cmr_part_name := safe_str part_name;
                 cmr_spec := safe_str spec;
                 cmr_box_code := safe_str (CStr (cmi_box_code master_row));
                 cmr_box_name := safe_str (CStr (cmi_box_name master_row));
                 cmr_storage_location :=
                   safe_str (CStr (cmi_storage_location master_row)) |} ])
    end.

(** [for idx in range(1, len(self.df_matrix))] *)
Definition _create_cm_reference_db (df_matrix : DataFrame)
    (df_cm_master : list CMMasterRow) : result (list CMReferenceRow) :=
  for_each (cm_reference_step df_cm_master) (skipn 1 df_matrix) [].

Definition a_parts_reference_step (df_a_parts_master : list APartsMasterRow)
    (a_reference_data : list APartsReferenceRow) (row : Series)
  : result (list APartsReferenceRow) :=
  c <- iloc row MATRIX_COLUMNS.PART_NUMBER ;;
  let part_number := safe_str c in
  if negb (is_valid_part_number part_number) then Ok a_reference_data
  else if negb (PartType_eqb (identify_part_type part_number) A_PARTS)
  then Ok a_reference_data
  else
    found <- _find_a_parts_master df_a_parts_master part_number ;;
    match found with
    | None => Ok a_reference_data
    | Some master_row =>
        start_part <- iloc row MATRIX_COLUMNS.START_PART ;;
        factory <- iloc row MATRIX_COLUMNS.FACTORY ;;
        part_name <- iloc row MATRIX_COLUMNS.PART_NAME ;;
        quantity_per_box <-
          safe_int (CInt (api_quantity_per_box master_row)) ;;
        Ok (a_reference_data ++
            [ {| apr_No := Z.of_nat (List.length a_reference_data) + 1;
                 apr_start_part_number := safe_str start_part;
                 apr_factory := safe_str factory;
                 apr_part_number := part_number;
                 apr_part_name := safe_str part_name;
                 apr_storage_location :=
                   safe_str (CStr (api_storage_location master_row));
                 apr_rack := safe_str (CStr (api_rack master_row));
                 apr_quantity_per_box := quantity_per_box |} ])
    end.

Definition _create_a_parts_reference_db (df_matrix : DataFrame)
    (df_a_parts_master : list APartsMasterRow)
  : result (list APartsReferenceRow) :=
  for_each (a_parts_reference_step df_a_parts_master) (skipn 1 df_matrix) [].

Definition create_reference_dbs (df_matrix : DataFrame)
    (cm_file : File (list CMMasterRow))
    (a_file : File (list APartsMasterRow))
  : result (list CMReferenceRow * list APartsReferenceRow) :=
  try_except
    (masters <- _load_master_dbs cm_file a_file ;;
     df_cm_reference <- _create_cm_reference_db df_matrix (fst masters) ;;
     df_a_reference <-
       _create_a_parts_reference_db df_matrix (snd masters) ;;
     Ok (df_cm_reference, df_a_reference))
    (fun e => Raise (Exn ReferenceDBError (MSG_REFDB_ERROR ++ exn_str e))).
End WithRuntime.
End ReferenceDBCreator.

(* ================================================================== *)
(** * processors/cm_picking.py *)
(* ================================================================== *)

(* 'CMピッキング作成エラー: ' *)
Definition MSG_CM_PICKING_ERROR : pystr :=
  [67; 77; 12500; 12483; 12461; 12531; 12464; 20316; 25104; 12456; 12521;
   12540; 58; 32]%N.
(* 'A部品ピッキング作成エラー: ' *)
Definition MSG_A_PICKING_ERROR : pystr :=
  [65; 37096; 21697; 12500; 12483; 12461; 12531; 12464; 20316; 25104; 12456;
   12521; 12540; 58; 32]%N.

(** The linear scan both picking processors share: the first data row
    whose part-number cell, as [safe_str] gives it, equals [part_number]. *)
Fixpoint scan_matrix_rows (rows : list Series) (part_number : pystr)
  : result (option Series) :=
  match rows with
  | [] => Ok None
  | row :: rest =>
      c <- iloc row MATRIX_COLUMNS.PART_NUMBER ;;
      if str_eqb (safe_str c) part_number then Ok (Some row)
      else scan_matrix_rows rest part_number
  end.

Module CMPickingProcessor.
Section WithRuntime.
Context {rt : PyRuntime}.

Definition _find_matrix_row (df_matrix : DataFrame) (part_number : pystr)
  : result (option Series) :=
  scan_matrix_rows (skipn 1 df_matrix) part_number.

Definition _create_picking_row (ref_row : CMReferenceRow)
    (matrix_row : Series) (row_number : Z) : result CMPickingRow :=
  let start_part_number := safe_str (CStr (cmr_start_part_number ref_row)) in
  let factory := safe_str (CStr (cmr_factory ref_row)) in
  let part_number := safe_str (CStr (cmr_part_number ref_row)) in
  let part_name := safe_str (CStr (cmr_part_name ref_row)) in
  let spec := safe_str (CStr (cmr_spec ref_row)) in
  let box_code := safe_str (CStr (cmr_box_code ref_row)) in
  let box_name := safe_str (CStr (cmr_box_name ref_row)) in
  let storage_location := safe_str (CStr (cmr_storage_location ref_row)) in
  qc <- iloc matrix_row MATRIX_COLUMNS.QUANTITY ;;
  quantity <- safe_int qc ;;
  let options := extract_options matrix_row OPTION_START_COL in
  let options_str := format_options options in
  Ok {| cmp_no := row_number;
        cmp_start_part_number := start_part_number;
        cmp_factory := factory;
        cmp_part_number := part_number;
        cmp_part_name := part_name;
        cmp_spec := spec;
        cmp_quantity := quantity;
        cmp_box_code := box_code;
        cmp_box_name := box_name;
        cmp_storage_location := storage_location;
        cmp_options := options_str |}.

Definition picking_step (df_matrix : DataFrame)
    (cm_picking_rows : list CMPickingRow) (ref_row : CMReferenceRow)
  : result (list CMPickingRow) :=
  let part_number := safe_str (CStr (cmr_part_number ref_row)) in
  matrix_row <- _find_matrix_row df_matrix part_number ;;
  match matrix_row with
  | None => Ok cm_picking_rows
  | Some matrix_row =>
      picking_row <-
        _create_picking_row ref_row matrix_row
          (Z.of_nat (List.length cm_picking_rows) + 1) ;;
      Ok (cm_picking_rows ++ [picking_row])
  end.

Definition create_cm_picking (df_matrix : DataFrame)
    (df_cm_reference : list CMReferenceRow) : result (list CMPickingRow) :=
  try_except
    (for_each (picking_step df_matrix) df_cm_reference [])
    (fun e =>
       Raise (Exn ProcessingError (MSG_CM_PICKING_ERROR ++ exn_str e))).
End WithRuntime.
End CMPickingProcessor.

(* ================================================================== *)
(** * processors/a_parts_picking.py *)
(* ================================================================== *)

(** One row of the validation table. *)
Record ValidationRow : Type := {
  v_No : Z;
  v_part_number : pystr;          (* '部品番号' *)
  v_required_quantity : Z;        (* '必要数量' *)
  v_quantity_per_box : Z;         (* '箱入数' *)
  v_required_boxes : Z;           (* '必要箱数' *)
  v_actual_quantity : Z;          (* '実際の数量' *)
  v_difference : Z;               (* '過不足' *)
  v_verdict : pystr               (* '判定' *)
}.

Module APartsPickingProcessor.
Section WithRuntime.
Context {rt : PyRuntime}.

Definition _find_matrix_row (df_matrix : DataFrame) (part_number : pystr)
  : result (option Series) :=
  scan_matrix_rows (skipn 1 df_matrix) part_number.

Definition _create_picking_row (ref_row : APartsReferenceRow)
    (matrix_row : Series) (row_number : Z) : result APartsPickingRow :=
  let start_part_number := safe_str (CStr (apr_start_part_number ref_row)) in
  let factory := safe_str (CStr (apr_factory ref_row)) in
  let part_number := safe_str (CStr (apr_part_number ref_row)) in
  let part_name := safe_str (CStr (apr_part_name ref_row)) in
  let storage_location := safe_str (CStr (apr_storage_location ref_row)) in
  let rack := safe_str (CStr (apr_rack ref_row)) in
  quantity_per_box <- safe_int (CInt (apr_quantity_per_box ref_row)) ;;
  qc <- iloc matrix_row MATRIX_COLUMNS.QUANTITY ;;
  quantity <- safe_int qc ;;
  let required_boxes := calculate_required_boxes quantity quantity_per_box in
  let options := extract_options matrix_row OPTION_START_COL in
  let options_str := format_options options in
  Ok {| ap_no := row_number;
        ap_start_part_number := start_part_number;
        ap_factory := factory;
        ap_part_number := part_number;
        ap_part_name := part_name;
        ap_quantity := quantity;
        ap_storage_location := storage_location;
        ap_rack := rack;
        ap_quantity_per_box := quantity_per_box;
        ap_required_boxes := required_boxes;
        ap_options := options_str |}.

Definition _create_validation_row (picking_row : APartsPickingRow)
    (matrix_row : Series) : ValidationRow :=
  let calculated_quantity :=
    ap_required_boxes picking_row * ap_quantity_per_box picking_row in
  let original_quantity := ap_quantity picking_row in
  let difference := calculated_quantity - original_quantity in
  {| v_No := ap_no picking_row;
     v_part_number := ap_part_number picking_row;
     v_required_quantity := original_quantity;
     v_quantity_per_box := ap_quantity_per_box picking_row;
     v_required_boxes := ap_required_boxes picking_row;
     v_actual_quantity := calculated_quantity;
     v_difference := difference;
     v_verdict := if 0 <=? difference then lit "OK" else lit "NG" |}.

(** The loop state is the pair of lists [a_picking_rows],
    [validation_rows]. *)
Definition picking_step (df_matrix : DataFrame)
    (st : list APartsPickingRow * list ValidationRow)
    (ref_row : APartsReferenceRow)
  : result (list APartsPickingRow * list ValidationRow) :=
  let (a_picking_rows, validation_rows) := st in
  let part_number := safe_str (CStr (apr_part_number ref_row)) in
  matrix_row <- _find_matrix_row df_matrix part_number ;;
  match matrix_row with
  | None => Ok (a_picking_rows, validation_rows)
  | Some matrix_row =>
      picking_row <-
        _create_picking_row ref_row matrix_row
          (Z.of_nat (List.length a_picking_rows) + 1) ;;
      let validation_row := _create_validation_row picking_row matrix_row in
      Ok (a_picking_rows ++ [picking_row],
          validation_rows ++ [validation_row])
  end.

Definition create_a_parts_picking (df_matrix : DataFrame)
    (df_a_reference : list APartsReferenceRow)
  : result (list APartsPickingRow * list ValidationRow) :=
  try_except
    (for_each (picking_step df_matrix) df_a_reference ([], []))
    (fun e =>
       Raise (Exn ProcessingError (MSG_A_PICKING_ERROR ++ exn_str e))).
End WithRuntime.
End APartsPickingProcessor.

(* ================================================================== *)
(** * processors/system_720.py *)
(* ================================================================== *)

(* '720システム出力生成エラー: ' *)
Definition MSG_OUTPUT_ERROR : pystr :=
  [55; 50; 48; 12471; 12473; 12486; 12512; 20986; 21147; 29983; 25104;
   12456; 12521; 12540; 58; 32]%N.
(* '個' *)
Definition UNIT_KO : pystr := [20491]%N.
(* '720システム入力' *)
Definition SHEET_720 : pystr :=
  [55; 50; 48; 12471; 12473; 12486; 12512; 20837; 21147]%N.

(** [SYSTEM_720['columns']]:
    '伝票番号', '行番号', '品番', '数量', '単位', '納期', '備考' *)
Definition SYSTEM_720_columns : list pystr :=
  [ [20253; 31080; 30058; 21495]%N; [34892; 30058; 21495]%N;
    [21697; 30058]%N; [25968; 37327]%N; [21336; 20301]%N;
    [32013; 26399]%N; [20633; 32771]%N ].

(** The two readings of the wall clock the generator takes when it is
    constructed. *)
Record Clock : Type := {
  today_yyyymmdd : pystr;        (* now.strftime('%Y%m%d') *)
  in_seven_days : pystr          (* (now + 7 days).strftime('%Y-%m-%d') *)
}.

(** A cell value written to the workbook. *)
Inductive wcell : Type :=
| WStr (s : pystr)
| WInt (n : Z).

(** The workbook, without its styling: one sheet, its title and rows. *)
Record Workbook : Type := {
  sheet_title : pystr;
  sheet_rows : list (list wcell)
}.

Module System720Generator.
Section WithRuntime.
Context {rt : PyRuntime}.

Definition _generate_slip_number (clock : Clock) : pystr :=
  today_yyyymmdd clock ++ lit "-" ++ lit "001".

Definition _calculate_delivery_date (clock : Clock) : pystr :=
  in_seven_days clock.

Definition to_list (r : System720Row) : list wcell :=
  [ WStr (slip_number r); WInt (line_number r); WStr (part_number r);
    WInt (quantity r); WStr (unit r); WStr (delivery_date r);
    WStr (remarks r) ].

Definition _create_workbook (system_rows : list System720Row) : Workbook :=
  {| sheet_title := SHEET_720;
     sheet_rows := map WStr SYSTEM_720_columns :: map to_list system_rows |}.

(** The loop state is [(system_rows, line_number)]. *)
Definition cm_step (clock : Clock) (st : list System720Row * Z)
    (row : CMPickingRow) : result (list System720Row * Z) :=
  let (system_rows, line_number) := st in
  q <- safe_int (CInt (cmp_quantity row)) ;;
  let system_row :=
    {| slip_number := _generate_slip_number clock;
       line_number := line_number;
       part_number := safe_str (CStr (cmp_part_number row));
       quantity := q;
       unit := UNIT_KO;
       delivery_date := _calculate_delivery_date clock;
       remarks := safe_str (CStr (cmp_options row)) |} in
  Ok (system_rows ++ [system_row], line_number + 1).

Definition a_parts_step (clock : Clock) (st : list System720Row * Z)
    (row : APartsPickingRow) : result (list System720Row * Z) :=
  let (system_rows, line_number) := st in
  q <- safe_int (CInt (ap_quantity row)) ;;
  let system_row :=
    {| slip_number := _generate_slip_number clock;
       line_number := line_number;
       part_number := safe_str (CStr (ap_part_number row));
       quantity := q;
       unit := UNIT_KO;
       delivery_date := _calculate_delivery_date clock;
       remarks := safe_str (CStr (ap_options row)) |} in
  Ok (system_rows ++ [system_row], line_number + 1).

(** The list [system_rows] that [generate] hands to
    [_create_workbook]. *)
Definition collect_system_rows (clock : Clock)
    (df_cm_picking : list CMPickingRow)
    (df_a_parts_picking : option (list APartsPickingRow))
  : result (list System720Row) :=
  st <- for_each (cm_step clock) df_cm_picking ([], 1) ;;
  st <- match df_a_parts_picking with
        | Some ((_ :: _) as rows) => for_each (a_parts_step clock) rows st
        | _ => Ok st
        end ;;
  Ok (fst st).

Definition generate (clock : Clock)
    (df_cm_picking : list CMPickingRow)
    (df_a_parts_picking : option (list APartsPickingRow))
  : result Workbook :=
  try_except
    (system_rows <-
       collect_system_rows clock df_cm_picking df_a_parts_picking ;;
     Ok (_create_workbook system_rows))
    (fun e => Raise (Exn OutputError (MSG_OUTPUT_ERROR ++ exn_str e))).
End WithRuntime.
End System720Generator.

(* ================================================================== *)
(** * main.py *)
(* ================================================================== *)

(* 'データ行が存在しません' *)
Definition MSG_NO_DATA_ROWS : pystr :=
  [12487; 12540; 12479; 34892; 12364; 23384; 22312; 12375; 12414; 12379;
   12435]%N.
(* '列' *)
Definition MSG_COL : pystr := [21015]%N.
(* 'が存在しません' *)
Definition MSG_COL_MISSING : pystr :=
  [12364; 23384; 22312; 12375; 12414; 12379; 12435]%N.
(* "のヘッダーが不正です (期待値: '" *)
Definition MSG_HDR_BAD : pystr :=
  [12398; 12504; 12483; 12480; 12540; 12364; 19981; 27491; 12391; 12377; 32;
   40; 26399; 24453; 20516; 58; 32; 39]%N.
(* "', 実際: '" *)
Definition MSG_HDR_ACTUAL : pystr :=
  [39; 44; 32; 23455; 38555; 58; 32; 39]%N.
(* "')" *)
Definition MSG_HDR_END : pystr := [39; 41]%N.
(* 'フレーム品番が取得できません' *)
Definition MSG_NO_FRAME : pystr :=
  [12501; 12524; 12540; 12512; 21697; 30058; 12364; 21462; 24471; 12391;
   12365; 12414; 12379; 12435]%N.
(* 'ファイル検証エラー: ' *)
Definition MSG_VALIDATE_ERROR : pystr :=
  [12501; 12449; 12452; 12523; 26908; 35388; 12456; 12521; 12540; 58; 32]%N.
(* "ファイル名とフレーム品番が一致しません (ファイル: '" *)
Definition MSG_NAME_MISMATCH : pystr :=
  [12501; 12449; 12452; 12523; 21517; 12392; 12501; 12524; 12540; 12512;
   21697; 30058; 12364; 19968; 33268; 12375; 12414; 12379; 12435; 32; 40;
   12501; 12449; 12452; 12523; 58; 32; 39]%N.
(* "', フレーム: '" *)
Definition MSG_NAME_FRAME : pystr :=
  [39; 44; 32; 12501; 12524; 12540; 12512; 58; 32; 39]%N.
(* '入力ファイル検証エラー' *)
Definition MSG_INPUT_INVALID : pystr :=
  [20837; 21147; 12501; 12449; 12452; 12523; 26908; 35388; 12456; 12521;
   12540]%N.
(* 'エラー: ' *)
Definition MSG_ERROR : pystr := [12456; 12521; 12540; 58; 32]%N.
(* '予期しないエラー: ' *)
Definition MSG_UNEXPECTED : pystr :=
  [20104; 26399; 12375; 12394; 12356; 12456; 12521; 12540; 58; 32]%N.
(* '処理が正常に完了しました' *)
Definition MSG_DONE : pystr :=
  [20966; 29702; 12364; 27491; 24120; 12395; 23436; 20102; 12375; 12414;
   12375; 12383]%N.

(** What [_validate_input_file] leaves behind: its return value and the
    two attributes it assigns on the way. *)
Record Validated : Type := {
  validation : ValidationResult;
  df_matrix : option DataFrame;
  frame_part_number : option pystr
}.

(** The sheets [_save_results] writes, in order. *)
Record SavedWorkbook : Type := {
  saved_matrix : DataFrame;
  saved_cm_reference : list CMReferenceRow;
  saved_cm_picking : list CMPickingRow;
  saved_a_reference : option (list APartsReferenceRow);
  saved_a_picking : option (list APartsPickingRow);
  saved_a_validation : option (list ValidationRow);
  saved_720 : option (list (list wcell))
}.

(** Everything a run reads from outside. *)
Record Env : Type := {
  input_file : File DataFrame;
  cm_master_file : File (list CMMasterRow);
  a_parts_master_file : File (list APartsMasterRow);
  clock : Clock
}.

Module PickingSystemMain.
Section WithRuntime.
Context {rt : PyRuntime}.

(** f"列{col_idx + 1}が存在しません" *)
Definition missing_column_error (col_idx : nat) : pystr :=
  MSG_COL ++ str_of_Z (Z.of_nat col_idx + 1) ++ MSG_COL_MISSING.

(** f"列{col_idx + 1}のヘッダーが不正です (期待値: '...', 実際: '...')" *)
Definition bad_header_error (col_idx : nat) (expected_value actual_value : pystr)
  : pystr :=
  MSG_COL ++ str_of_Z (Z.of_nat col_idx + 1) ++ MSG_HDR_BAD
    ++ expected_value ++ MSG_HDR_ACTUAL ++ actual_value ++ MSG_HDR_END.

(** The header loop.  [errors] is a list mutated in place, so what was
    appended before an exception is still there when it is caught: the
    loop returns the list together with the exception, if any. *)
Fixpoint check_headers (df : DataFrame) (expected_headers : list (nat * pystr))
    (errors : list pystr) : list pystr * option exn :=
  match expected_headers with
  | [] => (errors, None)
  | (col_idx, expected_value) :: rest =>
      if (ncols df <=? col_idx)%nat
      then check_headers df rest (errors ++ [missing_column_error col_idx])
      else
        match iloc2 df 0 col_idx with
        | Raise e => (errors, Some e)
        | Ok c =>
            let actual_value := safe_str c in
            if negb (str_eqb actual_value expected_value)
            then check_headers df rest
                   (errors ++
                    [bad_header_error col_idx expected_value actual_value])
            else check_headers df rest errors
        end
  end.

(** The [except Exception] clause of [_validate_input_file]. *)
Definition validation_failed (errors warnings : list pystr) (e : exn)
    (df : option DataFrame) (frame : option pystr) : Validated :=
  {| validation :=
       {| is_valid := false;
          errors := errors ++ [MSG_VALIDATE_ERROR ++ exn_str e];
          warnings := warnings |};
     df_matrix := df;
     frame_part_number := frame |}.

Definition _validate_input_file (input : File DataFrame) : Validated :=
  let errors := [] in
  let warnings := [] in
  if negb (file_exists input)
  then {| validation :=
            {| is_valid := false;
               errors := errors ++ [MSG_FILE_MISSING ++ file_path input];
               warnings := warnings |};
          df_matrix := None;
          frame_part_number := None |}
  else
    match safe_read_excel input with
    | Raise e => validation_failed errors warnings e None None
    | Ok df =>
        if (List.length df <? 2)%nat
        then {| validation :=
                  {| is_valid := false;
                     errors := errors ++ [MSG_NO_DATA_ROWS];
                     warnings := warnings |};
                df_matrix := Some df;
                frame_part_number := None |}
        else
          match check_headers df VALIDATION.required_headers errors with
          | (errors, Some e) =>
              validation_failed errors warnings e (Some df) None
          | (errors, None) =>
              if negb (match errors with [] => true | _ => false end)
              then {| validation :=
                        {| is_valid := false;
                           errors := errors;
                           warnings := warnings |};
                      df_matrix := Some df;
                      frame_part_number := None |}
              else
                match iloc2 df 1 MATRIX_COLUMNS.PART_NUMBER with
                | Raise e =>
                    validation_failed errors warnings e (Some df) None
                | Ok c =>
                    let frame := safe_str c in
                    if is_empty frame
                    then {| validation :=
                              {| is_valid := false;
                                 errors := errors ++ [MSG_NO_FRAME];
                                 warnings := warnings |};
                            df_matrix := Some df;
                            frame_part_number := Some frame |}
                    else
                      let stem := file_stem input in
                      let file_prefix :=
                        if 10 <=? len stem then prefix 10 stem else stem in
                      let frame_prefix :=
                        if 10 <=? len frame then prefix 10 frame
                        else frame in
                      let warnings :=
                        if negb (str_eqb file_prefix frame_prefix)
                        then warnings ++
                             [MSG_NAME_MISMATCH ++ file_prefix
                                ++ MSG_NAME_FRAME ++ frame_prefix
                                ++ MSG_HDR_END]
                        else warnings in
                      {| validation :=
                           {| is_valid := true;
                              errors := errors;
                              warnings := warnings |};
                         df_matrix := Some df;
                         frame_part_number := Some frame |}
                end
          end
    end.

(** [if df is not None and not df.empty] *)
Definition if_not_empty {A} (df : option (list A)) : option (list A) :=
  match df with
  | Some ((_ :: _) as rows) => Some rows
  | _ => None
  end.

Definition _save_results (process_line : ProcessLine)
    (df_matrix : DataFrame)
    (df_cm_reference : list CMReferenceRow)
    (df_cm_picking : list CMPickingRow)
    (df_a_reference : list APartsReferenceRow)
    (df_a_picking : option (list APartsPickingRow))
    (df_a_validation : option (list ValidationRow))
    (wb_720 : Workbook) : SavedWorkbook :=
  let a_line :=
    match process_line with A_LINE => true | C_LINE => false end in
  {| saved_matrix := df_matrix;
     saved_cm_reference := df_cm_reference;
     saved_cm_picking := df_cm_picking;
     saved_a_reference :=
       if a_line then if_not_empty (Some df_a_reference) else None;
     saved_a_picking := if a_line then if_not_empty df_a_picking else None;
     saved_a_validation :=
       if a_line then if_not_empty df_a_validation else None;
     saved_720 := if_not_empty (Some (sheet_rows wb_720)) |}.

(** The stages of [run] after validation, inside its [try]. *)
Definition stages (env : Env) (process_line : ProcessLine)
    (df_matrix : DataFrame)
  : result (PickingResult * SavedWorkbook) :=
  refs <- ReferenceDBCreator.create_reference_dbs df_matrix
            (cm_master_file env) (a_parts_master_file env) ;;
  let (df_cm_reference, df_a_reference) := refs in
  df_cm_picking <-
    CMPickingProcessor.create_cm_picking df_matrix df_cm_reference ;;
  a <- match process_line with
       | A_LINE =>
           r <- APartsPickingProcessor.create_a_parts_picking
                  df_matrix df_a_reference ;;
           Ok (Some (fst r), Some (snd r))
       | C_LINE => Ok (None, None)
       end ;;
  let (df_a_picking, df_a_validation) := a in
  wb_720 <- System720Generator.generate (clock env)
              df_cm_picking df_a_picking ;;
  let saved :=
    _save_results process_line df_matrix df_cm_reference df_cm_picking
      df_a_reference df_a_picking df_a_validation wb_720 in
  Ok ({| success := true;
         message := MSG_DONE;
         cm_picking_count := Z.of_nat (List.length df_cm_picking);
         a_parts_picking_count :=
           match df_a_picking with
           | Some rows => Z.of_nat (List.length rows)
           | None => 0
           end;
         result_errors := [];
         result_warnings := [] |},
      saved).

(** [run]: the result object, and the workbook written when the run
    succeeds.  A valid result always comes with [df_matrix] assigned
    (lemma [valid_has_matrix]), so the [None] branch below is never
    taken. *)
Definition run (env : Env) (process_line : ProcessLine)
  : PickingResult * option SavedWorkbook :=
  let v := _validate_input_file (input_file env) in
  if negb (is_valid (validation v))
  then ({| success := false;
           message := MSG_INPUT_INVALID;
           cm_picking_count := 0;
           a_parts_picking_count := 0;
           result_errors := errors (validation v);
           result_warnings := warnings (validation v) |}, None)
  else
    match df_matrix v with
    | None => ({| success := false; message := MSG_INPUT_INVALID;
                  cm_picking_count := 0; a_parts_picking_count := 0;
                  result_errors := []; result_warnings := [] |}, None)
    | Some df =>
        match stages env process_line df with
        | Ok (res, saved) => (res, Some saved)
        | Raise e =>
            let label :=
              if is_picking_system_error (exn_cls e) then MSG_ERROR
              else MSG_UNEXPECTED in
            ({| success := false;
                message := label ++ exn_str e;
                cm_picking_count := 0;
                a_parts_picking_count := 0;
                result_errors := [exn_str e];
                result_warnings := [] |}, None)
        end
    end.
End WithRuntime.
End PickingSystemMain.

(* ================================================================== *)
(** * Tables with named columns (models.py, the builders' frames) *)
(* ================================================================== *)

(** A Python dict with string keys, in insertion order.  The dicts built
    here have distinct keys. *)
Definition pydict : Type := list (pystr * cell).

Fixpoint dict_get (d : pydict) (key : pystr) : option cell :=
  match d with
  | [] => None
  | (k, v) :: d' => if str_eqb k key then Some v else dict_get d' key
  end.

(** A frame with named columns. *)
Record NamedFrame : Type := {
  nf_columns : list pystr;
  nf_rows : list (list cell)
}.

(** The columns after one more dict: its new keys are appended. *)
Definition add_keys (columns : list pystr) (d : pydict) : list pystr :=
  fold_left
    (fun cols kv =>
       if existsb (str_eqb (fst kv)) cols then cols else cols ++ [fst kv])
    d columns.

(** [pd.DataFrame(data)] for a list of dicts: the columns are the keys in
    order of first appearance, and a dict without a key gives NaN. *)
Definition DataFrame_of_dicts (data : list pydict) : NamedFrame :=
  let columns := fold_left add_keys data [] in
  {| nf_columns := columns;
     nf_rows :=
       map (fun d =>
              map (fun k => match dict_get d k with
                            | Some v => v
                            | None => CNaN
                            end) columns)
           data |}.

(** [pd.DataFrame(columns=columns)] *)
Definition empty_frame (columns : list pystr) : NamedFrame :=
  {| nf_columns := columns; nf_rows := [] |}.

Fixpoint index_of (key : pystr) (l : list pystr) : option nat :=
  match l with
  | [] => None
  | k :: l' =>
      if str_eqb k key then Some 0%nat
      else match index_of key l' with
           | Some i => Some (S i)
           | None => None
           end
  end.

(** [row[column]] for the row at position [i] that [iterrows] yields;
    [None] where Python raises KeyError or the row does not exist. *)
Definition frame_get (f : NamedFrame) (i : nat) (column : pystr)
  : option cell :=
  match nth_error (nf_rows f) i, index_of column (nf_columns f) with
  | Some row, Some j => nth_error row j
  | _, _ => None
  end.

(* 'No' *)
Definition COL_NO : pystr := [78; 111]%N.
(* '品名' *)
Definition COL_PART_NAME : pystr := [21697; 21517]%N.
(* '仕様' *)
Definition COL_SPEC : pystr := [20181; 27096]%N.
(* '数量' *)
Definition COL_QUANTITY : pystr := [25968; 37327]%N.
(* '箱コード' *)
Definition COL_BOX_CODE : pystr := [31665; 12467; 12540; 12489]%N.
(* '箱名称' *)
Definition COL_BOX_NAME : pystr := [31665; 21517; 31216]%N.
(* '格納場所' *)
Definition COL_STORAGE : pystr := [26684; 32013; 22580; 25152]%N.
(* 'オプション' *)
Definition COL_OPTIONS : pystr := [12458; 12503; 12471; 12519; 12531]%N.
(* '棚番' *)
Definition COL_RACK : pystr := [26842; 30058]%N.
(* '箱入数' *)
Definition COL_PER_BOX : pystr := [31665; 20837; 25968]%N.
(* '必要箱数' *)
Definition COL_BOXES : pystr := [24517; 35201; 31665; 25968]%N.
(* '必要数量' *)
Definition COL_REQUIRED_QTY : pystr := [24517; 35201; 25968; 37327]%N.
(* '実際の数量' *)
Definition COL_ACTUAL_QTY : pystr := [23455; 38555; 12398; 25968; 37327]%N.
(* '過不足' *)
Definition COL_DIFFERENCE : pystr := [36942; 19981; 36275]%N.
(* '判定' *)
Definition COL_VERDICT : pystr := [21028; 23450]%N.

(** [CMPickingRow.to_dict] *)
Definition CMPickingRow_to_dict (r : CMPickingRow) : pydict :=
  [ (COL_NO, CInt (cmp_no r));
    (HDR_START_PART, CStr (cmp_start_part_number r));
    (HDR_FACTORY, CStr (cmp_factory r));
    (HDR_PART_NUMBER, CStr (cmp_part_number r));
    (COL_PART_NAME, CStr (cmp_part_name r));
    (COL_SPEC, CStr (cmp_spec r));
    (COL_QUANTITY, CInt (cmp_quantity r));
    (COL_BOX_CODE, CStr (cmp_box_code r));
    (COL_BOX_NAME, CStr (cmp_box_name r));
    (COL_STORAGE, CStr (cmp_storage_location r));
    (COL_OPTIONS, CStr (cmp_options r)) ].

(** [APartsPickingRow.to_dict] *)
Definition APartsPickingRow_to_dict (r : APartsPickingRow) : pydict :=
  [ (COL_NO, CInt (ap_no r));
    (HDR_START_PART, CStr (ap_start_part_number r));
    (HDR_FACTORY, CStr (ap_factory r));
    (HDR_PART_NUMBER, CStr (ap_part_number r));
    (COL_PART_NAME, CStr (ap_part_name r));
    (COL_QUANTITY, CInt (ap_quantity r));
    (COL_STORAGE, CStr (ap_storage_location r));
    (COL_RACK, CStr (ap_rack r));
    (COL_PER_BOX, CInt (ap_quantity_per_box r));
    (COL_BOXES, CInt (ap_required_boxes r));
    (COL_OPTIONS, CStr (ap_options r)) ].

(** The dict [_create_validation_row] returns, of which [ValidationRow]
    is the record form. *)
Definition validation_row_dict (v : ValidationRow) : pydict :=
  [ (COL_NO, CInt (v_No v));
    (HDR_PART_NUMBER, CStr (v_part_number v));
    (COL_REQUIRED_QTY, CInt (v_required_quantity v));
    (COL_PER_BOX, CInt (v_quantity_per_box v));
    (COL_BOXES, CInt (v_required_boxes v));
    (COL_ACTUAL_QTY, CInt (v_actual_quantity v));
    (COL_DIFFERENCE, CInt (v_difference v));
    (COL_VERDICT, CStr (v_verdict v)) ].

(** The column lists of the empty frames. *)
Definition CM_PICKING_COLUMNS : list pystr :=
  [ COL_NO; HDR_START_PART; HDR_FACTORY; HDR_PART_NUMBER; COL_PART_NAME;
    COL_SPEC; COL_QUANTITY; COL_BOX_CODE; COL_BOX_NAME; COL_STORAGE;
    COL_OPTIONS ].

Definition A_PARTS_PICKING_COLUMNS : list pystr :=
  [ COL_NO; HDR_START_PART; HDR_FACTORY; HDR_PART_NUMBER; COL_PART_NAME;
    COL_QUANTITY; COL_STORAGE; COL_RACK; COL_PER_BOX; COL_BOXES;
    COL_OPTIONS ].

Definition VALIDATION_COLUMNS : list pystr :=
  [ COL_NO; HDR_PART_NUMBER; COL_REQUIRED_QTY; COL_PER_BOX; COL_BOXES;
    COL_ACTUAL_QTY; COL_DIFFERENCE; COL_VERDICT ].

(** [CMPickingProcessor._rows_to_dataframe] *)
Definition CMPickingProcessor_rows_to_dataframe (rows : list CMPickingRow)
  : NamedFrame :=
  match rows with
  | [] => empty_frame CM_PICKING_COLUMNS
  | _ => DataFrame_of_dicts (map CMPickingRow_to_dict rows)
  end.

(** [APartsPickingProcessor._rows_to_dataframe] *)
Definition APartsPickingProcessor_rows_to_dataframe
    (rows : list APartsPickingRow) : NamedFrame :=
  match rows with
  | [] => empty_frame A_PARTS_PICKING_COLUMNS
  | _ => DataFrame_of_dicts (map APartsPickingRow_to_dict rows)
  end.

(** [APartsPickingProcessor._validation_to_dataframe] *)
Definition APartsPickingProcessor_validation_to_dataframe
    (rows : list ValidationRow) : NamedFrame :=
  match rows with
  | [] => empty_frame VALIDATION_COLUMNS
  | _ => DataFrame_of_dicts (map validation_row_dict rows)
  end.

(** [ValidationResult.add_error], [add_warning], [has_errors] and
    [has_warnings]; the object is mutated in place, so each method is a
    function from the old state to the new one. *)
Definition add_error (v : ValidationResult) (message : pystr)
  : ValidationResult :=
  {| is_valid := false;
     errors := errors v ++ [message];
     warnings := warnings v |}.

Definition add_warning (v : ValidationResult) (message : pystr)
  : ValidationResult :=
  {| is_valid := is_valid v;
     errors := errors v;
     warnings := warnings v ++ [message] |}.

Definition has_errors (v : ValidationResult) : bool :=
  (0 <? List.length (errors v))%nat.

Definition has_warnings (v : ValidationResult) : bool :=
  (0 <? List.length (warnings v))%nat.

(** A call of one of the two mutating methods. *)
Inductive report : Type :=
| AddError (message : pystr)
| AddWarning (message : pystr).

Definition apply_report (v : ValidationResult) (r : report)
  : ValidationResult :=
  match r with
  | AddError m => add_error v m
  | AddWarning m => add_warning v m
  end.

(** The messages of each kind among a sequence of calls, in order. *)
Definition reported_errors (rs : list report) : list pystr :=
  flat_map (fun r => match r with AddError m => [m] | _ => [] end) rs.

(** No call of [add_error] in the sequence. *)
Definition no_error_reported (rs : list report) : bool :=
  forallb (fun r => match r with AddError _ => false | _ => true end) rs.

Definition reported_warnings (rs : list report) : list pystr :=
  flat_map (fun r => match r with AddWarning m => [m] | _ => [] end) rs.

(* ================================================================== *)
(** * A runtime and inputs to run the embedding on *)
(* ================================================================== *)

Definition ascii_digit (c : N) : bool := ((48 <=? c) && (c <=? 57))%N.

Fixpoint digits_value (acc : Z) (s : pystr) : option Z :=
  match s with
  | [] => Some acc
  | c :: s' =>
      if ascii_digit c
      then digits_value (10 * acc + Z.of_N (c - 48)) s'
      else None
  end.

(** A runtime whose [\d] is the ASCII digits and whose [float()] reads
    plain digit strings; on ASCII inputs of that shape it agrees with
    CPython. *)
Definition ascii_runtime : PyRuntime :=
  {| unicode_decimal := ascii_digit;
     int_float_of_str := fun s =>
       match s with
       | [] => Rejected
       | _ => match digits_value 0 s with
              | Some n => int_float_of_int n
              | None => Rejected
              end
       end |}.

(** A matrix row with the given cells at the fixed positions and the given
    option cells from column 11 on. *)
Definition matrix_row (no start factory part_number name spec quantity : cell)
    (options : list cell) : Series :=
  [ no; start; factory; CNaN; part_number; name; spec; CNaN; CNaN;
    quantity; CStr (lit "pcs") ] ++ options.

Definition header_row : Series :=
  [ CStr (lit "No"); CStr HDR_START_PART; CStr HDR_FACTORY; CNaN;
    CStr HDR_PART_NUMBER; CStr (lit "name"); CStr (lit "spec"); CNaN; CNaN;
    CStr (lit "qty"); CStr (lit "unit"); CStr (lit "opt1");
    CStr (lit "opt2"); CStr (lit "opt3"); CStr (lit "opt4");
    CStr (lit "opt5") ].

(** A header row, a frame row, a CM part, a part of length 5, an A part,
    a CM part that no catalog lists, and a second A part. *)
Definition sample_matrix : DataFrame :=
  [ header_row;
    matrix_row (CInt 1) (CStr (lit "S1")) (CStr (lit "F1"))
      (CStr (lit "FRAME-0001")) (CStr (lit "frame")) CNaN (CInt 1)
      (repeat CNaN 5);
    matrix_row (CInt 2) (CStr (lit "S1")) (CStr (lit "F1"))
      (CStr (lit " CM123456 ")) (CStr (lit "panel")) (CStr (lit "t=2"))
      (CInt 3)
      [CStr (lit "red"); CStr (lit "-"); CStr (lit ""); CStr (lit "nan");
       CStr (lit "wide")];
    matrix_row (CInt 3) (CStr (lit "S1")) (CStr (lit "F1"))
      (CStr (lit "A1234")) (CStr (lit "short")) CNaN (CInt 1)
      (repeat CNaN 5);
    matrix_row (CInt 4) (CStr (lit "S2")) (CStr (lit "F1"))
      (CStr (lit "A123456")) (CStr (lit "bolt")) CNaN (CInt 25)
      [CNaN; CStr (lit " long "); CNaN; CNaN; CNaN];
    matrix_row (CInt 5) (CStr (lit "S2")) (CStr (lit "F1"))
      (CStr (lit "CM999999")) (CStr (lit "ghost")) CNaN (CInt 1)
      (repeat CNaN 5);
    matrix_row (CInt 6) (CStr (lit "S2")) (CStr (lit "F2"))
      (CStr (lit "AP-000777")) (CStr (lit "nut")) CNaN (CInt 7)
      (repeat CNaN 5) ].

Definition sample_cm_master : list CMMasterRow :=
  [ {| cmm_part_number := CStr (lit "CM123456");
       cmm_box_code := CStr (lit "B01");
       cmm_box_name := CStr (lit "box one");
       cmm_storage_location := CStr (lit "L1") |} ].

Definition sample_a_parts_master : list APartsMasterRow :=
  [ {| apm_part_number := CStr (lit "A123456");
       apm_part_name := CStr (lit "catalog bolt");
       apm_storage_location := CStr (lit "L2");
       apm_rack := CStr (lit "R7");
       apm_quantity_per_box := CInt 10 |};
    {| apm_part_number := CStr (lit "AP-000777");
       apm_part_name := CNaN;
       apm_storage_location := CStr (lit "L3");
       apm_rack := CStr (lit "R8");
       apm_quantity_per_box := CInt 0 |} ].

(** The same catalog with other part names. *)
Definition sample_a_parts_master_renamed : list APartsMasterRow :=
  [ {| apm_part_number := CStr (lit "A123456");
       apm_part_name := CStr (lit "something else");
       apm_storage_location := CStr (lit "L2");
       apm_rack := CStr (lit "R7");
       apm_quantity_per_box := CInt 10 |};
    {| apm_part_number := CStr (lit "AP-000777");
       apm_part_name := CInt 42;
       apm_storage_location := CStr (lit "L3");
       apm_rack := CStr (lit "R8");
       apm_quantity_per_box := CInt 0 |} ].

Definition sample_clock : Clock :=
  {| today_yyyymmdd := lit "20240102"; in_seven_days := lit "2024-01-09" |}.

Definition file_of {A} (name : string) (content : file_content A) : File A :=
  {| file_path := lit name ++ lit ".xlsx";
     file_stem := lit name;
     file_on_disk := content |}.

Definition sample_env : Env :=
  {| input_file := file_of "FRAME-0001" (Readable sample_matrix);
     cm_master_file := file_of "cm" (Readable sample_cm_master);
     a_parts_master_file := file_of "a" (Readable sample_a_parts_master);
     clock := sample_clock |}.

(** The tables the sample run builds on the way. *)
Definition sample_cm_reference : list CMReferenceRow :=
  Eval vm_compute in
    match @ReferenceDBCreator._create_cm_reference_db ascii_runtime
            sample_matrix sample_cm_master with
    | Ok t => t
    | Raise _ => []
    end.

Definition sample_a_reference : list APartsReferenceRow :=
  Eval vm_compute in
    match @ReferenceDBCreator._create_a_parts_reference_db ascii_runtime
            sample_matrix sample_a_parts_master with
    | Ok t => t
    | Raise _ => []
    end.

Definition sample_cm_picking : list CMPickingRow :=
  Eval vm_compute in
    match @CMPickingProcessor.create_cm_picking ascii_runtime
            sample_matrix sample_cm_reference with
    | Ok t => t
    | Raise _ => []
    end.

Definition sample_a_picking : list APartsPickingRow * list ValidationRow :=
  Eval vm_compute in
    match @APartsPickingProcessor.create_a_parts_picking ascii_runtime
            sample_matrix sample_a_reference with
    | Ok t => t
    | Raise _ => ([], [])
    end.

(** The same run with the A-parts master file gone. *)
Definition sample_env_no_a_master : Env :=
  {| input_file := file_of "FRAME-0001" (Readable sample_matrix);
     cm_master_file := file_of "cm" (Readable sample_cm_master);
     a_parts_master_file := file_of "a" Missing;
     clock := sample_clock |}.

(* ================================================================== *)
(** * What the specification says, in its own words *)
(* ================================================================== *)

(** ceiling(quantity / quantity-per-box), over the rationals. *)
Definition ceiling_of_quotient (quantity quantity_per_box : Z) : Z :=
  Qceiling (inject_Z quantity / inject_Z quantity_per_box).

(** The values the formatting drops: the empty string, a lone hyphen
    and the text nan. *)
Definition is_placeholder (value : pystr) : bool :=
  existsb (str_eqb value) [lit ""; lit "-"; lit "nan"].

(** The cells from the fixed option-start column to the end of the row,
    trimmed, placeholders dropped, joined with space-slash-space. *)
Definition formatted_options_of_row (row : Series) : pystr :=
  join (lit " / ")
       (filter (fun value => negb (is_placeholder value))
               (map safe_str (skipn 11 row))).

(** Case-insensitive prefix match with a fixed word. *)
Definition has_prefix_ignorecase (word : string) (s : pystr) : Prop :=
  exists head rest,
    s = head ++ rest
    /\ Forall2 (fun p c => literal_ignorecase p c = true) (lit word) head.

(** Trimmed non-empty, length in [6,20], and no exclusion pattern
    (FRAME, SET, KIT as case-insensitive prefixes) matches. *)
Definition passes_screen (trimmed : pystr) : Prop :=
  trimmed <> []
  /\ 6 <= len trimmed <= 20
  /\ ~ (has_prefix_ignorecase "FRAME" trimmed
        \/ has_prefix_ignorecase "SET" trimmed
        \/ has_prefix_ignorecase "KIT" trimmed).

(** The contiguous 1-based sequence 1..k. *)
Definition one_to (k : nat) : list Z := map Z.of_nat (seq 1 k).

(* ================================================================== *)
(** * Vocabulary of the statements *)
(* ================================================================== *)

(** The trimmed part-number cell of a matrix row. *)
Definition part_number_of (row : Series) : pystr :=
  match nth_error row MATRIX_COLUMNS.PART_NUMBER with
  | Some c => safe_str c
  | None => []
  end.

(** Column [i] of the data rows of a sheet (all rows but the header). *)
Definition data_column (i : nat) (wb : Workbook) : list wcell :=
  map (fun r => nth i r (WStr [])) (tl (sheet_rows wb)).

(** A quantity small enough to pass through a double unchanged. *)
Definition exact_in_double (q : Z) : Prop := Z.abs q < 2 ^ 53.

(** The rows of an optional table. *)
Definition rows_of {A} (df : option (list A)) : list A :=
  match df with
  | Some rows => rows
  | None => []
  end.

(** A catalog row with its part-name cell blanked. *)
Definition without_part_name (r : APartsMasterRow) : APartsMasterRow :=
  {| apm_part_number := apm_part_number r;
     apm_part_name := CNaN;
     apm_storage_location := apm_storage_location r;
     apm_rack := apm_rack r;
     apm_quantity_per_box := apm_quantity_per_box r |}.

(** Two catalogs that differ at most in part-name cells. *)
Definition differ_only_in_part_name (a1 a2 : list APartsMasterRow) : Prop :=
  map without_part_name a1 = map without_part_name a2.

(** The environment [env] with the rows [a] in its A-parts master sheet. *)
Definition with_a_parts_master (env : Env) (a : list APartsMasterRow) : Env :=
  {| input_file := input_file env;
     cm_master_file := cm_master_file env;
     a_parts_master_file :=
       {| file_path := file_path (a_parts_master_file env);
          file_stem := file_stem (a_parts_master_file env);
          file_on_disk := Readable a |};
     clock := clock env |}.

(** Whether the header cell an entry of [required_headers] names is
    there and, trimmed, equals the expected label exactly. *)
Definition header_ok (df : DataFrame) (entry : nat * pystr) : bool :=
  match nth_error (hd [] df) (fst entry) with
  | Some c => str_eqb (safe_str c) (snd entry)
  | None => false
  end.

(** The error reported for an entry whose header cell is not as
    expected. *)
Definition header_error_for (df : DataFrame) (entry : nat * pystr) : pystr :=
  if (ncols df <=? fst entry)%nat
  then PickingSystemMain.missing_column_error (fst entry)
  else PickingSystemMain.bad_header_error (fst entry) (snd entry)
         (safe_str (nth (fst entry) (hd [] df) CNaN)).

(** One error per required header that is missing or mismatched, in the
    order of [required_headers]. *)
Definition header_errors (df : DataFrame) : list pystr :=
  map (header_error_for df)
      (filter (fun entry => negb (header_ok df entry))
              VALIDATION.required_headers).

(** The claim's count of verified header cells. *)
Definition verifies_five_header_cells : Prop :=
  List.length VALIDATION.required_headers = 5%nat.

(** A sheet whose every header cell is wrong. *)
Definition all_wrong_matrix : DataFrame :=
  [ repeat (CStr (lit "x")) 16;
    matrix_row (CInt 1) (CStr (lit "S1")) (CStr (lit "F1"))
      (CStr (lit "FRAME-0001")) (CStr (lit "frame")) CNaN (CInt 1)
      (repeat CNaN 5) ].

(** The sample sheet with its frame part-number cell emptied. *)
Definition no_frame_matrix : DataFrame :=
  [ header_row;
    matrix_row (CInt 1) (CStr (lit "S1")) (CStr (lit "F1"))
      CNaN (CStr (lit "frame")) CNaN (CInt 1) (repeat CNaN 5) ].

(** The file is missing or [pd.read_excel] fails on it. *)
Definition unreadable {A} (f : File A) : Prop :=
  match file_on_disk f with
  | Readable _ => False
  | _ => True
  end.

Section Vocabulary.
Context {rt : PyRuntime}.

(** The rows the CM pass keeps: valid part number, classified CM,
    listed in the CM catalog. *)
Definition cm_qualifies (df_cm_master : list CMMasterRow) (row : Series)
  : bool :=
  is_valid_part_number (part_number_of row)
  && PartType_eqb (identify_part_type (part_number_of row)) CM
  && match ReferenceDBCreator._find_cm_master df_cm_master
             (part_number_of row) with
     | Some _ => true
     | None => false
     end.

(** The rows the A-parts pass keeps. *)
Definition a_parts_qualifies (df_a_parts_master : list APartsMasterRow)
    (row : Series) : bool :=
  is_valid_part_number (part_number_of row)
  && PartType_eqb (identify_part_type (part_number_of row)) A_PARTS
  && match ReferenceDBCreator._find_a_parts_master df_a_parts_master
             (part_number_of row) with
     | Ok (Some _) => true
     | _ => false
     end.

(** What ties a picking row to the validation row emitted with it. *)
Definition paired (p : APartsPickingRow) (v : ValidationRow) : Prop :=
  ap_required_boxes p
    = calculate_required_boxes (ap_quantity p) (ap_quantity_per_box p)
  /\ exists matrix_row,
       v = APartsPickingProcessor._create_validation_row p matrix_row.

(** The part number and the quantity a picking row contributes. *)
Definition cm_line_part (row : CMPickingRow) : pystr :=
  safe_str (CStr (cmp_part_number row)).

Definition a_parts_line_part (row : APartsPickingRow) : pystr :=
  safe_str (CStr (ap_part_number row)).

(** The lookup result with its part-name entry blanked. *)
Definition forget_name (r : result (option APartsMasterInfo))
  : result (option APartsMasterInfo) :=
  match r with
  | Ok (Some i) =>
      Ok (Some {| api_part_name := [];
                  api_storage_location := api_storage_location i;
                  api_rack := api_rack i;
                  api_quantity_per_box := api_quantity_per_box i |})
  | other => other
  end.

(** Where the part name of an emitted A-parts reference row comes
    from. *)
Definition named_by_matrix (df : DataFrame) (r : APartsReferenceRow)
  : Prop :=
  exists row c,
    In row (skipn 1 df)
    /\ nth_error row MATRIX_COLUMNS.PART_NAME = Some c
    /\ apr_part_name r = safe_str c
    /\ apr_part_number r = part_number_of row.

End Vocabulary.

(* ================================================================== *)
(** * Vocabulary of the further properties *)
(* ================================================================== *)

(** No whitespace at either end. *)
Definition no_outer_whitespace (s : pystr) : Prop :=
  match s with
  | [] => True
  | c :: _ => isspace c = false /\ isspace (last s c) = false
  end.


(** A cell holding a string that is already trimmed: the only kind of
    catalog key a trimmed part number can equal. *)
Definition trimmed_string_cell (c : cell) : Prop :=
  match c with
  | CStr s => strip s = s
  | _ => False
  end.

(** Every text field of a CM reference row is trimmed. *)
Definition cm_reference_row_trimmed (r : CMReferenceRow) : Prop :=
  strip (cmr_start_part_number r) = cmr_start_part_number r
  /\ strip (cmr_factory r) = cmr_factory r
  /\ strip (cmr_part_number r) = cmr_part_number r
  /\ strip (cmr_part_name r) = cmr_part_name r
  /\ strip (cmr_spec r) = cmr_spec r
  /\ strip (cmr_box_code r) = cmr_box_code r
  /\ strip (cmr_box_name r) = cmr_box_name r
  /\ strip (cmr_storage_location r) = cmr_storage_location r.

(** Every text field of an A-parts reference row is trimmed, and its box
    quantity is an integer a double holds. *)
Definition a_parts_reference_row_trimmed (r : APartsReferenceRow) : Prop :=
  strip (apr_start_part_number r) = apr_start_part_number r
  /\ strip (apr_factory r) = apr_factory r
  /\ strip (apr_part_number r) = apr_part_number r
  /\ strip (apr_part_name r) = apr_part_name r
  /\ strip (apr_storage_location r) = apr_storage_location r
  /\ strip (apr_rack r) = apr_rack r
  /\ int_float_of_int (apr_quantity_per_box r)
     = Converted (apr_quantity_per_box r).

(** Some data row of the matrix carries the part number. *)
Definition in_matrix (df : DataFrame) (part_number : pystr) : bool :=
  existsb (fun row => str_eqb (part_number_of row) part_number)
          (skipn 1 df).

(** [row] is the first of [rows] whose part number is [part_number]. *)
Definition first_row_with (rows : list Series) (part_number : pystr)
    (row : Series) : Prop :=
  exists before after,
    rows = before ++ row :: after
    /\ part_number_of row = part_number
    /\ Forall (fun r => part_number_of r <> part_number) before.

(** A CM picking row copies its reference row field for field. *)
Definition cm_picking_mirrors (r : CMReferenceRow) (p : CMPickingRow)
  : Prop :=
  cmp_no p = cmr_No r
  /\ cmp_start_part_number p = cmr_start_part_number r
  /\ cmp_factory p = cmr_factory r
  /\ cmp_part_number p = cmr_part_number r
  /\ cmp_part_name p = cmr_part_name r
  /\ cmp_spec p = cmr_spec r
  /\ cmp_box_code p = cmr_box_code r
  /\ cmp_box_name p = cmr_box_name r
  /\ cmp_storage_location p = cmr_storage_location r.

(** An A-parts picking row copies its reference row field for field. *)
Definition a_parts_picking_mirrors (r : APartsReferenceRow)
    (p : APartsPickingRow) : Prop :=
  ap_no p = apr_No r
  /\ ap_start_part_number p = apr_start_part_number r
  /\ ap_factory p = apr_factory r
  /\ ap_part_number p = apr_part_number r
  /\ ap_part_name p = apr_part_name r
  /\ ap_storage_location p = apr_storage_location r
  /\ ap_rack p = apr_rack r
  /\ ap_quantity_per_box p = apr_quantity_per_box r.

(** The fields every line of one sheet shares. *)
Definition shared_fields (clock : Clock) (r : System720Row) : Prop :=
  slip_number r = today_yyyymmdd clock ++ lit "-001"
  /\ unit r = UNIT_KO
  /\ delivery_date r = in_seven_days clock.

Section FurtherVocabulary.
Context {rt : PyRuntime}.

(** What a CM reference row owes to the catalog: a valid part number
    classified CM, listed in the catalog, with the box fields of the
    entry the lookup returns. *)
Definition cm_reference_row_ok (df_cm_master : list CMMasterRow)
    (r : CMReferenceRow) : Prop :=
  is_valid_part_number (cmr_part_number r) = true
  /\ identify_part_type (cmr_part_number r) = CM
  /\ exists info,
       ReferenceDBCreator._find_cm_master df_cm_master (cmr_part_number r)
         = Some info
       /\ cmr_box_code r = cmi_box_code info
       /\ cmr_box_name r = cmi_box_name info
       /\ cmr_storage_location r = cmi_storage_location info.

(** The same for an A-parts reference row. *)
Definition a_parts_reference_row_ok (df_a_parts_master : list APartsMasterRow)
    (r : APartsReferenceRow) : Prop :=
  is_valid_part_number (apr_part_number r) = true
  /\ identify_part_type (apr_part_number r) = A_PARTS
  /\ exists info,
       ReferenceDBCreator._find_a_parts_master df_a_parts_master
         (apr_part_number r) = Ok (Some info)
       /\ apr_storage_location r = api_storage_location info
       /\ apr_rack r = api_rack info.

(** How a CM picking row is made from a reference row: the text fields
    are the reference fields, trimmed; quantity and options are read
    from the first data row of the matrix carrying the part number. *)
Definition cm_picking_row_from (df : DataFrame) (ref : CMReferenceRow)
    (p : CMPickingRow) : Prop :=
  exists row c,
    first_row_with (skipn 1 df) (strip (cmr_part_number ref)) row
    /\ nth_error row MATRIX_COLUMNS.QUANTITY = Some c
    /\ safe_int c = Ok (cmp_quantity p)
    /\ cmp_options p = formatted_options_of_row row
    /\ cmp_start_part_number p = strip (cmr_start_part_number ref)
    /\ cmp_factory p = strip (cmr_factory ref)
    /\ cmp_part_number p = strip (cmr_part_number ref)
    /\ cmp_part_name p = strip (cmr_part_name ref)
    /\ cmp_spec p = strip (cmr_spec ref)
    /\ cmp_box_code p = strip (cmr_box_code ref)
    /\ cmp_box_name p = strip (cmr_box_name ref)
    /\ cmp_storage_location p = strip (cmr_storage_location ref).

(** The same for an A-parts picking row, with its box arithmetic. *)
Definition a_parts_picking_row_from (df : DataFrame)
    (ref : APartsReferenceRow) (p : APartsPickingRow) : Prop :=
  exists row c,
    first_row_with (skipn 1 df) (strip (apr_part_number ref)) row
    /\ nth_error row MATRIX_COLUMNS.QUANTITY = Some c
    /\ safe_int c = Ok (ap_quantity p)
    /\ safe_int (CInt (apr_quantity_per_box ref)) = Ok (ap_quantity_per_box p)
    /\ ap_required_boxes p
       = calculate_required_boxes (ap_quantity p) (ap_quantity_per_box p)
    /\ ap_options p = formatted_options_of_row row
    /\ ap_start_part_number p = strip (apr_start_part_number ref)
    /\ ap_factory p = strip (apr_factory ref)
    /\ ap_part_number p = strip (apr_part_number ref)
    /\ ap_part_name p = strip (apr_part_name ref)
    /\ ap_storage_location p = strip (apr_storage_location ref)
    /\ ap_rack p = strip (apr_rack ref).

End FurtherVocabulary.

(** A CM catalog row for the part the sample catalog lacks, a copy of the
    sample row whose key is padded with spaces, and the CM reference table
    built with the first of them added to the catalog. *)
Definition sample_cm_master_ghost : CMMasterRow :=
  {| cmm_part_number := CStr (lit "CM999999");
     cmm_box_code := CStr (lit "B02");
     cmm_box_name := CStr (lit "box two");
     cmm_storage_location := CStr (lit "L9") |}.

Definition sample_cm_master_padded : CMMasterRow :=
  {| cmm_part_number := CStr (lit " CM123456 ");
     cmm_box_code := CStr (lit "B03");
     cmm_box_name := CStr (lit "box three");
     cmm_storage_location := CStr (lit "L5") |}.

Definition sample_cm_reference_with_ghost : list CMReferenceRow :=
  Eval vm_compute in
    match @ReferenceDBCreator._create_cm_reference_db ascii_runtime
            sample_matrix (sample_cm_master ++ [sample_cm_master_ghost]) with
    | Ok t => t
    | Raise _ => []
    end.

(* ================================================================== *)
(** * Lemmas on strings *)
(* ================================================================== *)

Lemma str_eqb_eq (a b : pystr) : str_eqb a b = true <-> a = b.
Proof.
  revert b; induction a as [|x a IH]; intros [|y b]; simpl;
    try (split; [discriminate | congruence]); try tauto.
  rewrite andb_true_iff, N.eqb_eq, IH. split.
  - intros [-> ->]; reflexivity.
  - intros E; injection E; auto.
Qed.

Lemma str_eqb_refl (a : pystr) : str_eqb a a = true.
Proof. apply str_eqb_eq; reflexivity. Qed.

Lemma str_eqb_neq (a b : pystr) : str_eqb a b = false <-> a <> b.
Proof.
  rewrite <- str_eqb_eq. destruct (str_eqb a b); split; congruence.
Qed.

Lemma is_empty_nil (s : pystr) : is_empty s = true <-> s = [].
Proof. destruct s; simpl; split; congruence. Qed.

Lemma lstrip_fixed (s : pystr) :
  match s with [] => True | c :: _ => isspace c = false end -> lstrip s = s.
Proof. destruct s as [|c t]; simpl; [reflexivity | intros ->; reflexivity]. Qed.

Lemma lstrip_head (s : pystr) :
  match lstrip s with [] => True | c :: _ => isspace c = false end.
Proof.
  induction s as [|c t IH]; simpl; [exact I|].
  destruct (isspace c) eqn:E; [exact IH | exact E].
Qed.

Lemma lstrip_idem (s : pystr) : lstrip (lstrip s) = lstrip s.
Proof. apply lstrip_fixed, lstrip_head. Qed.

Lemma rstrip_cons (c : N) (t : pystr) :
  rstrip (c :: t) =
  match rstrip t with
  | [] => if isspace c then [] else [c]
  | _ :: _ => c :: rstrip t
  end.
Proof. simpl. destruct (rstrip t); reflexivity. Qed.

Lemma rstrip_idem (s : pystr) : rstrip (rstrip s) = rstrip s.
Proof.
  induction s as [|c t IH]; [reflexivity|].
  rewrite rstrip_cons. destruct (rstrip t) as [|d u] eqn:E.
  - destruct (isspace c) eqn:Ec; [reflexivity|].
    simpl. rewrite Ec. reflexivity.
  - rewrite rstrip_cons, IH. reflexivity.
Qed.

Lemma rstrip_lstrip (s : pystr) : rstrip (lstrip s) = lstrip (rstrip s).
Proof.
  induction s as [|c t IH]; [reflexivity|].
  rewrite rstrip_cons. simpl lstrip at 1.
  destruct (isspace c) eqn:Ec.
  - rewrite IH. destruct (rstrip t) as [|d u] eqn:E; [reflexivity|].
    simpl. rewrite Ec. reflexivity.
  - rewrite rstrip_cons.
    destruct (rstrip t) as [|d u]; rewrite ?Ec; simpl; rewrite Ec; reflexivity.
Qed.

Lemma strip_idem (s : pystr) : strip (strip s) = strip s.
Proof.
  unfold strip. rewrite rstrip_lstrip, rstrip_idem, lstrip_idem. reflexivity.
Qed.

Lemma strip_nil_of_nil (s : pystr) : s = [] -> strip s = [].
Proof. intros ->; reflexivity. Qed.

Lemma safe_str_stripped (value : cell) : strip (safe_str value) = safe_str value.
Proof. destruct value; simpl; auto using strip_idem. Qed.

Lemma int_float_of_int_exact (n : Z) :
  Z.abs n < 2 ^ 53 -> int_float_of_int n = Converted n.
Proof.
  intros H. unfold int_float_of_int.
  destruct (Z.leb_spec (Z.log2 (Z.abs n) - 52) 0) as [_|L]; [reflexivity|].
  exfalso.
  destruct (Z.eq_dec (Z.abs n) 0) as [E|E].
  - rewrite E in L. simpl in L. lia.
  - assert (Z.log2 (Z.abs n) < 53) by (apply Z.log2_lt_pow2; lia). lia.
Qed.

(* ================================================================== *)
(** * The embedding on small inputs *)
(* ================================================================== *)

Example sample_matrix_rectangular :
  rectangular sample_matrix /\ rectangular all_wrong_matrix
  /\ rectangular no_frame_matrix.
Proof. repeat split; repeat constructor. Qed.

Example str_of_Z_examples :
  str_of_Z 0 = lit "0" /\ str_of_Z (-12) = lit "-12"
  /\ str_of_Z 345 = lit "345".
Proof. repeat split. Qed.

Example strip_examples :
  strip (lit "  CM123456 ") = lit "CM123456"
  /\ strip (lit " a b ") = lit "a b"
  /\ strip (lit "   ") = lit "".
Proof. repeat split. Qed.

Example int_float_of_int_examples :
  int_float_of_int (2 ^ 53 + 1) = Converted (2 ^ 53)
  /\ int_float_of_int (2 ^ 53 + 3) = Converted (2 ^ 53 + 4)
  /\ int_float_of_int (- (2 ^ 60 + 2 ^ 7 + 1)) = Converted (- (2 ^ 60 + 2 ^ 8))
  /\ int_float_of_int (10 ^ 30) = Converted 1000000000000000019884624838656
  /\ int_float_of_int (2 ^ 1024 - 2 ^ 970 - 1)
      = Converted (2 ^ 1024 - 2 ^ 971)
  /\ int_float_of_int (2 ^ 1024 - 2 ^ 970)
      = Overflowed (lit "int too large to convert to float").
Proof. repeat split; vm_compute; reflexivity. Qed.

Example calculate_required_boxes_examples :
  calculate_required_boxes 25 10 = 3
  /\ calculate_required_boxes 30 10 = 3
  /\ calculate_required_boxes 0 10 = 0
  /\ calculate_required_boxes (-7) 3 = -2
  /\ calculate_required_boxes 7 0 = 0
  /\ calculate_required_boxes 7 (-3) = 0.
Proof. repeat split. Qed.

Example screen_examples :
  @is_valid_part_number ascii_runtime (lit "CM123456") = true
  /\ @is_valid_part_number ascii_runtime (lit "frame-0001") = false
  /\ @is_valid_part_number ascii_runtime (lit "Kit-00001") = false
  /\ @is_valid_part_number ascii_runtime (lit "SETTING-1") = false
  /\ @is_valid_part_number ascii_runtime (lit "A12345") = true
  /\ @is_valid_part_number ascii_runtime (lit "123456789012345678901") = false
  /\ @identify_part_type ascii_runtime (lit "cm123456") = CM
  /\ @identify_part_type ascii_runtime (lit "AP-000777") = A_PARTS
  /\ @identify_part_type ascii_runtime (lit "A12345") = OTHER.
Proof. repeat split. Qed.

(** The header comparison trims the cell and is case-sensitive. *)
Example header_ok_examples :
  header_ok [[CStr (lit " No ")]] (0%nat, lit "No") = true
  /\ header_ok [[CStr (lit "NO")]] (0%nat, lit "No") = false
  /\ header_ok [[CNaN]] (0%nat, lit "No") = false
  /\ header_ok [[CStr (lit "No")]] (1%nat, HDR_START_PART) = false.
Proof. repeat split. Qed.

(* ================================================================== *)
(** * Required boxes (utils.calculate_required_boxes) *)
(* ================================================================== *)

Lemma floor_form_of_ceiling (q p : Z) :
  0 < p -> (q + p - 1) / p = - ((- q) / p).
Proof.
  intros Hp.
  pose proof (Z.div_mod (q + p - 1) p ltac:(lia)) as E1.
  pose proof (Z.mod_pos_bound (q + p - 1) p Hp) as B1.
  pose proof (Z.div_mod (- q) p ltac:(lia)) as E2.
  pose proof (Z.mod_pos_bound (- q) p Hp) as B2.
  nia.
Qed.

Lemma required_boxes_bounds (q p : Z) :
  0 < p ->
  (calculate_required_boxes q p - 1) * p < q <= calculate_required_boxes q p * p.
Proof.
  intros Hp. unfold calculate_required_boxes.
  destruct (Z.leb_spec p 0) as [H|_]; [lia|].
  pose proof (Z.div_mod (q + p - 1) p ltac:(lia)) as E1.
  pose proof (Z.mod_pos_bound (q + p - 1) p Hp) as B1.
  nia.
Qed.

(** C7. For all integers quantity and quantityPerBox, the required-boxes
    computation returns 0 when quantityPerBox <= 0, and otherwise the
    ceiling of the rational quantity / quantityPerBox: the code's
    (quantity + quantityPerBox - 1) // quantityPerBox is that ceiling. *)
Theorem calculate_required_boxes_is_ceiling (quantity quantity_per_box : Z) :
  calculate_required_boxes quantity quantity_per_box =
  if quantity_per_box <=? 0 then 0
  else ceiling_of_quotient quantity quantity_per_box.
Proof.
  unfold calculate_required_boxes, ceiling_of_quotient.
  destruct (Z.leb_spec quantity_per_box 0) as [H|H]; [reflexivity|].
  rewrite floor_form_of_ceiling by lia.
  destruct quantity_per_box as [|p|p]; try lia.
  unfold Qceiling, Qfloor, Qdiv, Qmult, Qinv, Qopp, inject_Z; simpl.
  rewrite Z.mul_1_r. reflexivity.
Qed.

(* ================================================================== *)
(** * Option formatting (utils.extract_options, utils.format_options) *)
(* ================================================================== *)

Lemma nth_over_seq (d : cell) (l pre : list cell) :
  map (fun i => nth i (pre ++ l) d) (seq (List.length pre) (List.length l)) = l.
Proof.
  revert pre; induction l as [|a l IH]; intros pre; [reflexivity|].
  simpl. rewrite nth_middle. f_equal.
  specialize (IH (pre ++ [a])).
  rewrite <- app_assoc, length_app, Nat.add_1_r in IH. exact IH.
Qed.

Lemma cells_from (d : cell) (row : Series) (start : nat) :
  map (fun i => nth i row d) (seq start (List.length row - start))
  = skipn start row.
Proof.
  destruct (Nat.le_gt_cases start (List.length row)) as [H|H].
  - pose proof (nth_over_seq d (skipn start row) (firstn start row)) as E.
    rewrite firstn_skipn, length_firstn, length_skipn, Nat.min_l in E by exact H.
    exact E.
  - replace (List.length row - start)%nat with 0%nat by lia.
    rewrite skipn_all2 by lia. reflexivity.
Qed.

Lemma append_loop_is_filter {A B} (f : A -> B) (keep : B -> bool)
    (l : list A) (acc : list B) :
  fold_left (fun out x => if keep (f x) then out ++ [f x] else out) l acc
  = acc ++ filter keep (map f l).
Proof.
  revert acc; induction l as [|x l IH]; intros acc; simpl.
  - rewrite app_nil_r; reflexivity.
  - rewrite IH. destruct (keep (f x)); [rewrite <- app_assoc|]; reflexivity.
Qed.

Lemma keeps_option_not_placeholder (value : pystr) :
  keeps_option value = negb (is_placeholder value).
Proof. destruct value; reflexivity. Qed.

Lemma extract_options_filter (row : Series) (start : nat) :
  extract_options row start
  = filter (fun value => negb (is_placeholder value))
           (map safe_str (skipn start row)).
Proof.
  unfold extract_options.
  rewrite (append_loop_is_filter (fun i => safe_str (nth i row CNaN))
             keeps_option).
  simpl. rewrite <- (cells_from CNaN row start), map_map.
  apply filter_ext. intros v; apply keeps_option_not_placeholder.
Qed.

Lemma format_options_join (options : list pystr) :
  format_options options = join (lit " / ") options.
Proof. destruct options; reflexivity. Qed.

Lemma skipn_leading {A} (l1 l2 : list A) (n : nat) :
  List.length l1 = n -> skipn n (l1 ++ l2) = l2.
Proof.
  intros <-. induction l1 as [|a l1 IH]; [reflexivity | exact IH].
Qed.

(** C8. For every matrix row, the formatted option string is: the cells
    from column 11 to the end of the row, each trimmed, every value equal
    to the empty string, a hyphen or nan dropped, the rest joined with
    space-slash-space.  The option cells red, -, empty, nan, wide give
    exactly the string red / wide. *)
Theorem format_options_of_row (row : Series) :
  format_options (extract_options row OPTION_START_COL)
  = formatted_options_of_row row
  /\ (forall value,
        is_placeholder value = true
        <-> value = lit "" \/ value = lit "-" \/ value = lit "nan")
  /\ (forall leading : list cell,
        List.length leading = 11%nat ->
        format_options
          (extract_options
             (leading ++
              map CStr [lit "red"; lit "-"; lit ""; lit "nan"; lit "wide"])
             OPTION_START_COL)
        = lit "red / wide").
Proof.
  split; [|split].
  - rewrite format_options_join, extract_options_filter. reflexivity.
  - intros value. unfold is_placeholder. simpl existsb.
    rewrite !orb_true_iff, !str_eqb_eq. intuition discriminate.
  - intros leading H.
    rewrite format_options_join, extract_options_filter.
    unfold OPTION_START_COL. rewrite skipn_leading by exact H. reflexivity.
Qed.

(* ================================================================== *)
(** * The validity screen (utils.is_valid_part_number) *)
(* ================================================================== *)

Section Screen.
Context {rt : PyRuntime}.

Lemma re_match_literals (ps : list N) (s : pystr) :
  re_match (map Lit ps) s = true
  <-> exists head rest,
        s = head ++ rest
        /\ Forall2 (fun p c => literal_ignorecase p c = true) ps head.
Proof.
  revert s; induction ps as [|p ps IH]; intros s; simpl.
  - split; [|reflexivity]. intros _. exists [], s. split; [reflexivity|constructor].
  - destruct s as [|c s].
    + split; [discriminate|].
      intros (head & rest & E & F). inversion F; subst. discriminate.
    + rewrite andb_true_iff, IH. split.
      * intros (Hc & head & rest & -> & F).
        exists (c :: head), rest. split; [reflexivity|]. constructor; assumption.
      * intros (head & rest & E & F). inversion F; subst.
        injection E as -> ->. split; [assumption|]. eauto.
Qed.

Lemma re_match_word (word : string) (s : pystr) :
  re_match (lits word) s = true <-> has_prefix_ignorecase word s.
Proof. apply re_match_literals. Qed.

Lemma is_valid_part_number_iff (part_number : pystr) :
  is_valid_part_number part_number = true
  <-> passes_screen (strip part_number).
Proof.
  unfold is_valid_part_number, passes_screen.
  destruct (is_empty part_number) eqn:E0.
  { apply is_empty_nil in E0. subst.
    split; [discriminate | intros [H _]; exfalso; apply H; reflexivity]. }
  destruct (is_empty (strip part_number)) eqn:E1.
  { apply is_empty_nil in E1. rewrite E1.
    split; [discriminate | intros [H _]; exfalso; apply H; reflexivity]. }
  assert (N1 : strip part_number <> []).
  { intros H. apply is_empty_nil in H. congruence. }
  destruct (Z.ltb_spec (len (strip part_number)) 6) as [L|L]; cbn [orb].
  { split; [discriminate | intros (_ & H & _); lia]. }
  destruct (Z.ltb_spec 20 (len (strip part_number))) as [U|U].
  { split; [discriminate | intros (_ & H & _); lia]. }
  unfold EXCLUDE_PART_PATTERNS. cbn [existsb].
  pose proof (re_match_word "FRAME" (strip part_number)) as PF.
  pose proof (re_match_word "SET" (strip part_number)) as PS.
  pose proof (re_match_word "KIT" (strip part_number)) as PK.
  destruct (re_match (lits "FRAME") (strip part_number));
    destruct (re_match (lits "SET") (strip part_number));
    destruct (re_match (lits "KIT") (strip part_number));
    cbn [orb]; intuition (auto; try discriminate; try lia).
Qed.

Lemma length_five_is_invalid (part_number : pystr) :
  len (strip part_number) = 5 -> is_valid_part_number part_number = false.
Proof.
  intros H. destruct (is_valid_part_number part_number) eqn:E; [|reflexivity].
  apply is_valid_part_number_iff in E. destruct E as (_ & E & _). lia.
Qed.

(** C6. For every part-number cell value, the validity screen accepts it
    if and only if its trimmed string is non-empty, has length in
    [6,20] and matches none of the exclusion prefixes FRAME, SET, KIT
    (case-insensitive).  Every part number of trimmed length 5, such as
    A1234, is rejected, and the row carrying it is skipped by both
    reference passes before classification is consulted. *)
Theorem is_valid_part_number_screen (value : cell) :
  let part_number := safe_str value in
  (is_valid_part_number part_number = true <-> passes_screen part_number)
  /\ (len part_number = 5 ->
      is_valid_part_number part_number = false
      /\ forall (row : Series) cm_master a_master cm_rows a_rows,
           iloc row MATRIX_COLUMNS.PART_NUMBER = Ok value ->
           ReferenceDBCreator.cm_reference_step cm_master cm_rows row
             = Ok cm_rows
           /\ ReferenceDBCreator.a_parts_reference_step a_master a_rows row
             = Ok a_rows)
  /\ is_valid_part_number (lit "A1234") = false.
Proof.
  intros part_number. split; [|split].
  - rewrite is_valid_part_number_iff. subst part_number.
    rewrite safe_str_stripped. reflexivity.
  - intros H5.
    assert (V : is_valid_part_number part_number = false).
    { apply length_five_is_invalid. subst part_number.
      rewrite safe_str_stripped. exact H5. }
    split; [exact V|].
    intros row cm_master a_master cm_rows a_rows Hrow.
    unfold ReferenceDBCreator.cm_reference_step,
      ReferenceDBCreator.a_parts_reference_step.
    rewrite Hrow. simpl bind. fold part_number. rewrite V. split; reflexivity.
  - apply length_five_is_invalid. reflexivity.
Qed.
End Screen.

(* ================================================================== *)
(** * Numbering of the reference tables (processors/reference_db.py) *)
(* ================================================================== *)

Lemma one_to_succ (k : nat) : one_to (S k) = one_to k ++ [Z.of_nat k + 1].
Proof.
  unfold one_to. rewrite seq_S, map_app. simpl. do 2 f_equal. lia.
Qed.

Lemma numbered_snoc {A} (No : A -> Z) (acc : list A) (r : A) :
  map No acc = one_to (List.length acc) ->
  No r = Z.of_nat (List.length acc) + 1 ->
  map No (acc ++ [r]) = one_to (List.length (acc ++ [r])).
Proof.
  intros H E. rewrite map_app, length_app, Nat.add_1_r, one_to_succ, H.
  simpl. rewrite E. reflexivity.
Qed.

(** Unfold the next [iloc] of the goal and split on whether the position
    exists. *)
Ltac next_iloc :=
  match goal with
  | |- context [iloc ?r ?i] =>
      unfold iloc at 1;
      let c := fresh "c" in
      let E := fresh "E" in
      destruct (nth_error r i) as [c|] eqn:E; cbn [bind]; [|try discriminate]
  end.

Section References.
Context {rt : PyRuntime}.

Lemma cm_reference_step_shape df_cm_master acc row acc' :
  ReferenceDBCreator.cm_reference_step df_cm_master acc row = Ok acc' ->
  if cm_qualifies df_cm_master row
  then exists r, acc' = acc ++ [r]
                 /\ cmr_No r = Z.of_nat (List.length acc) + 1
                 /\ cmr_part_number r = part_number_of row
  else acc' = acc.
Proof.
  unfold ReferenceDBCreator.cm_reference_step, cm_qualifies, part_number_of.
  next_iloc.
  destruct (is_valid_part_number (safe_str c)); cbn [negb andb];
    [|intros H; injection H; auto].
  destruct (PartType_eqb (identify_part_type (safe_str c)) CM);
    cbn [negb andb]; [|intros H; injection H; auto].
  destruct (ReferenceDBCreator._find_cm_master df_cm_master (safe_str c));
    [|intros H; injection H; auto].
  do 4 next_iloc.
  intros H; injection H as <-. eexists. split; [reflexivity|]. split; reflexivity.
Qed.

Lemma a_parts_reference_step_shape df_a_parts_master acc row acc' :
  ReferenceDBCreator.a_parts_reference_step df_a_parts_master acc row
    = Ok acc' ->
  if a_parts_qualifies df_a_parts_master row
  then exists r, acc' = acc ++ [r]
                 /\ apr_No r = Z.of_nat (List.length acc) + 1
                 /\ apr_part_number r = part_number_of row
  else acc' = acc.
Proof.
  unfold ReferenceDBCreator.a_parts_reference_step, a_parts_qualifies,
    part_number_of.
  next_iloc.
  destruct (is_valid_part_number (safe_str c)); cbn [negb andb];
    [|intros H; injection H; auto].
  destruct (PartType_eqb (identify_part_type (safe_str c)) A_PARTS);
    cbn [negb andb]; [|intros H; injection H; auto].
  destruct (ReferenceDBCreator._find_a_parts_master df_a_parts_master
              (safe_str c)) as [[info|]|e];
    cbn [bind]; [|intros H; injection H; auto|discriminate].
  do 3 next_iloc.
  destruct (safe_int (CInt (api_quantity_per_box info))); cbn [bind];
    [|discriminate].
  intros H; injection H as <-. eexists. split; [reflexivity|]. split; reflexivity.
Qed.

(** A loop whose every step either leaves the list alone or appends one
    row numbered [len + 1] keeps the list numbered 1..k, and the rows it
    appends are those of the qualifying inputs, in order. *)
Lemma numbering_loop {R} (No : R -> Z) (pn : R -> pystr)
    (step : list R -> Series -> result (list R)) (qualifies : Series -> bool) :
  (forall acc row acc',
      step acc row = Ok acc' ->
      if qualifies row
      then exists r, acc' = acc ++ [r]
                     /\ No r = Z.of_nat (List.length acc) + 1
                     /\ pn r = part_number_of row
      else acc' = acc) ->
  forall rows acc t,
    for_each step rows acc = Ok t ->
    map No acc = one_to (List.length acc) ->
    map No t = one_to (List.length t)
    /\ map pn t = map pn acc ++ map part_number_of (filter qualifies rows).
Proof.
  intros Hstep rows; induction rows as [|row rows IH]; intros acc t; simpl.
  - intros H; injection H as <-. rewrite app_nil_r. auto.
  - destruct (step acc row) as [acc'|e] eqn:E; cbn [bind]; [|discriminate].
    intros Ht Hacc. apply Hstep in E.
    destruct (qualifies row).
    + destruct E as (r & -> & ENo & Epn).
      assert (Hnum : map No (acc ++ [r])
                     = one_to (List.length (acc ++ [r])))
        by (apply numbered_snoc; assumption).
      destruct (IH _ _ Ht Hnum) as [H1 H2].
      split; [exact H1|].
      rewrite H2, map_app, <- app_assoc. simpl. rewrite Epn. reflexivity.
    + subst acc'. exact (IH _ _ Ht Hacc).
Qed.

(** C4. For every input matrix and master catalogs, the No column of
    each emitted reference table (CM and A-parts alike) is exactly
    1..k for its k rows; the rows of the table are those of the
    qualifying data rows, in order, so a skipped row emits nothing and
    consumes no number. *)
Theorem reference_numbers_contiguous (df_matrix : DataFrame)
    (df_cm_master : list CMMasterRow)
    (df_a_parts_master : list APartsMasterRow) :
  (forall t,
      ReferenceDBCreator._create_cm_reference_db df_matrix df_cm_master
        = Ok t ->
      map cmr_No t = one_to (List.length t)
      /\ map cmr_part_number t
         = map part_number_of
             (filter (cm_qualifies df_cm_master) (skipn 1 df_matrix)))
  /\ (forall t,
      ReferenceDBCreator._create_a_parts_reference_db df_matrix
        df_a_parts_master = Ok t ->
      map apr_No t = one_to (List.length t)
      /\ map apr_part_number t
         = map part_number_of
             (filter (a_parts_qualifies df_a_parts_master)
                     (skipn 1 df_matrix))).
Proof.
  split; intros t Ht.
  - exact (@numbering_loop _ cmr_No cmr_part_number _ _
             (@cm_reference_step_shape df_cm_master) _ _ _ Ht eq_refl).
  - exact (@numbering_loop _ apr_No apr_part_number _ _
             (@a_parts_reference_step_shape df_a_parts_master)
             _ _ _ Ht eq_refl).
Qed.

(** The CM pass returns a table as soon as every data row reaches the
    specification column. *)
Lemma cm_reference_db_returns (df_matrix : DataFrame)
    (df_cm_master : list CMMasterRow) :
  Forall (fun row => (MATRIX_COLUMNS.SPEC < List.length row)%nat)
         (skipn 1 df_matrix) ->
  exists t,
    ReferenceDBCreator._create_cm_reference_db df_matrix df_cm_master = Ok t.
Proof.
  unfold ReferenceDBCreator._create_cm_reference_db.
  generalize (@nil CMReferenceRow) as acc.
  induction (skipn 1 df_matrix) as [|row rows IH]; intros acc H; simpl.
  - eauto.
  - inversion H as [|? ? Hrow Hrows]; subst.
    assert (S : exists acc',
               ReferenceDBCreator.cm_reference_step df_cm_master acc row
               = Ok acc').
    { unfold ReferenceDBCreator.cm_reference_step, iloc,
        MATRIX_COLUMNS.PART_NUMBER, MATRIX_COLUMNS.START_PART,
        MATRIX_COLUMNS.FACTORY, MATRIX_COLUMNS.PART_NAME, MATRIX_COLUMNS.SPEC
        in *.
      destruct row as [|c0 [|c1 [|c2 [|c3 [|c4 [|c5 [|c6 row]]]]]]];
        simpl in Hrow; try lia.
      cbn [nth_error bind].
      destruct (is_valid_part_number (safe_str c4)); cbn [negb]; eauto.
      destruct (PartType_eqb (identify_part_type (safe_str c4)) CM);
        cbn [negb]; eauto.
      destruct (ReferenceDBCreator._find_cm_master df_cm_master
                  (safe_str c4)); eauto. }
    destruct S as [acc' ->]. cbn [bind]. apply IH. exact Hrows.
Qed.
(** The A-parts pass returns a table as soon as every data row reaches
    the name column and every box quantity of the catalog converts to an
    integer a double holds exactly. *)
Lemma a_parts_reference_db_returns (df_matrix : DataFrame)
    (df_a_parts_master : list APartsMasterRow) :
  Forall (fun row => (MATRIX_COLUMNS.PART_NAME < List.length row)%nat)
         (skipn 1 df_matrix) ->
  Forall (fun r => exists q, safe_int (apm_quantity_per_box r) = Ok q
                             /\ exact_in_double q)
         df_a_parts_master ->
  exists t,
    ReferenceDBCreator._create_a_parts_reference_db df_matrix
      df_a_parts_master = Ok t.
Proof.
  intros Hrows Hcat.
  unfold ReferenceDBCreator._create_a_parts_reference_db.
  generalize (@nil APartsReferenceRow) as acc.
  induction Hrows as [|row rows Hrow _ IH]; intros acc; cbn [for_each].
  - eauto.
  - assert (S : exists acc',
               ReferenceDBCreator.a_parts_reference_step df_a_parts_master
                 acc row = Ok acc').
    { unfold ReferenceDBCreator.a_parts_reference_step, iloc,
        MATRIX_COLUMNS.PART_NUMBER, MATRIX_COLUMNS.START_PART,
        MATRIX_COLUMNS.FACTORY, MATRIX_COLUMNS.PART_NAME in *.
      destruct row as [|c0 [|c1 [|c2 [|c3 [|c4 [|c5 row]]]]]];
        simpl in Hrow; try lia.
      cbn [nth_error bind].
      destruct (is_valid_part_number (safe_str c4)); cbn [negb]; eauto.
      destruct (PartType_eqb (identify_part_type (safe_str c4)) A_PARTS);
        cbn [negb]; eauto.
      unfold ReferenceDBCreator._find_a_parts_master.
      destruct (filter _ df_a_parts_master) as [|r l] eqn:F; cbn [bind];
        eauto.
      assert (Hin : In r df_a_parts_master).
      { eapply proj1. eapply filter_In. rewrite F. left. reflexivity. }
      rewrite Forall_forall in Hcat.
      destruct (Hcat r Hin) as (q & -> & Hq). cbn [bind safe_int].
      cbn [api_quantity_per_box].
      rewrite int_float_of_int_exact by exact Hq. cbn [of_conv bind]. eauto. }
    destruct S as [acc' ->]. cbn [bind]. apply IH.
Qed.

End References.

(* ================================================================== *)
(** * A-parts picking and its validation table *)
(* ================================================================== *)

Section APartsPicking.
Context {rt : PyRuntime}.

Lemma create_picking_row_boxes ref_row matrix_row n p :
  APartsPickingProcessor._create_picking_row ref_row matrix_row n = Ok p ->
  ap_required_boxes p
    = calculate_required_boxes (ap_quantity p) (ap_quantity_per_box p).
Proof.
  unfold APartsPickingProcessor._create_picking_row.
  destruct (safe_int (CInt (apr_quantity_per_box ref_row))); cbn [bind];
    [|discriminate].
  next_iloc.
  destruct (safe_int c); cbn [bind]; [|discriminate].
  intros H; injection H as <-. reflexivity.
Qed.

Lemma picking_step_paired df_matrix ps vs ref_row ps' vs' :
  APartsPickingProcessor.picking_step df_matrix (ps, vs) ref_row
    = Ok (ps', vs') ->
  Forall2 paired ps vs -> Forall2 paired ps' vs'.
Proof.
  unfold APartsPickingProcessor.picking_step.
  destruct (APartsPickingProcessor._find_matrix_row df_matrix _)
    as [[matrix_row|]|e]; cbn [bind]; [| |discriminate].
  - destruct (APartsPickingProcessor._create_picking_row ref_row matrix_row _)
      as [p|e] eqn:E; cbn [bind]; [|discriminate].
    intros H; injection H as <- <-. intros F.
    apply Forall2_app; [exact F|]. constructor; [|constructor].
    split; [eapply create_picking_row_boxes; exact E | eauto].
  - intros H; injection H as <- <-. auto.
Qed.

Lemma picking_loop_paired df_matrix refs :
  forall ps vs ps' vs',
    for_each (APartsPickingProcessor.picking_step df_matrix) refs (ps, vs)
      = Ok (ps', vs') ->
    Forall2 paired ps vs -> Forall2 paired ps' vs'.
Proof.
  induction refs as [|ref_row refs IH]; intros ps vs ps' vs'; cbn [for_each].
  - intros H; injection H as <- <-. auto.
  - destruct (APartsPickingProcessor.picking_step df_matrix (ps, vs) ref_row)
      as [[ps1 vs1]|e] eqn:E; cbn [bind]; [|discriminate].
    intros H F. eapply IH; [exact H|].
    eapply picking_step_paired; [exact E | exact F].
Qed.

(** C3. For every emitted A-parts picking row with quantityPerBox > 0,
    requiredBoxes * quantityPerBox >= quantity; the validation row at
    the same index records requiredBoxes * quantityPerBox and its
    difference to the required quantity, and its verdict is OK exactly
    when that difference is >= 0 and NG exactly when it is negative. *)
Theorem a_parts_validation_verdict (df_matrix : DataFrame)
    (df_a_reference : list APartsReferenceRow)
    (picking : list APartsPickingRow) (validation_rows : list ValidationRow) :
  APartsPickingProcessor.create_a_parts_picking df_matrix df_a_reference
    = Ok (picking, validation_rows) ->
  Forall2
    (fun p v =>
       let recomputed := ap_required_boxes p * ap_quantity_per_box p in
       (0 < ap_quantity_per_box p -> recomputed >= ap_quantity p)
       /\ v_No v = ap_no p
       /\ v_actual_quantity v = recomputed
       /\ v_difference v = recomputed - ap_quantity p
       /\ (v_verdict v = lit "OK" <-> recomputed - ap_quantity p >= 0)
       /\ (v_verdict v = lit "NG" <-> recomputed - ap_quantity p < 0))
    picking validation_rows.
Proof.
  unfold APartsPickingProcessor.create_a_parts_picking, try_except.
  destruct (for_each _ df_a_reference ([], [])) as [[ps vs]|e] eqn:E;
    [|discriminate].
  intros H; injection H as <- <-.
  assert (F : Forall2 paired ps vs)
    by (eapply picking_loop_paired; [exact E | constructor]).
  revert F. apply Forall2_impl. intros p v [Hb [row ->]].
  cbn zeta. split.
  - intros Hq. rewrite Hb.
    pose proof (@required_boxes_bounds (ap_quantity p) _ Hq). lia.
  - unfold APartsPickingProcessor._create_validation_row.
    cbn [v_No v_actual_quantity v_difference v_verdict].
    repeat split; try reflexivity;
      destruct (Z.leb_spec 0
                  (ap_required_boxes p * ap_quantity_per_box p
                   - ap_quantity p));
      try lia; try discriminate; reflexivity.
Qed.
End APartsPicking.

(* ================================================================== *)
(** * Line numbers of the legacy sheet (processors/system_720.py) *)
(* ================================================================== *)

Lemma one_to_app (m n : nat) :
  one_to (m + n) = one_to m ++ map (fun i => Z.of_nat m + i) (one_to n).
Proof.
  unfold one_to. rewrite seq_app, map_app, map_map. f_equal.
  change (1 + m)%nat with (1 + m)%nat. generalize 1%nat as s.
  induction n as [|k IH]; intros s; [reflexivity|].
  cbn [seq map]. f_equal; [lia|]. apply (IH (S s)).
Qed.

Section LegacyRows.
Context {rt : PyRuntime}.


Lemma cm_loop clock (rows : list CMPickingRow) :
  forall acc (s : nat) acc' n',
    for_each (System720Generator.cm_step clock) rows (acc, Z.of_nat s)
      = Ok (acc', n') ->
    n' = Z.of_nat (s + List.length rows)
    /\ map line_number acc'
       = map line_number acc ++ map Z.of_nat (seq s (List.length rows))
    /\ map part_number acc'
       = map part_number acc ++ map cm_line_part rows.
Proof.
  induction rows as [|row rows IH]; intros acc s acc' n'; cbn [for_each].
  - intros H; injection H as <- <-.
    rewrite Nat.add_0_r, !app_nil_r. auto.
  - unfold System720Generator.cm_step at 1.
    destruct (safe_int (CInt (cmp_quantity row))); cbn [bind]; [|discriminate].
    replace (Z.of_nat s + 1) with (Z.of_nat (S s)) by lia.
    intros H. apply IH in H. destruct H as (-> & H1 & H2).
    rewrite H1, H2, !map_app. cbn [map List.length seq line_number part_number].
    rewrite <- !app_assoc. repeat split; try reflexivity. f_equal; lia.
Qed.

Lemma a_parts_loop clock (rows : list APartsPickingRow) :
  forall acc (s : nat) acc' n',
    for_each (System720Generator.a_parts_step clock) rows (acc, Z.of_nat s)
      = Ok (acc', n') ->
    n' = Z.of_nat (s + List.length rows)
    /\ map line_number acc'
       = map line_number acc ++ map Z.of_nat (seq s (List.length rows))
    /\ map part_number acc'
       = map part_number acc ++ map a_parts_line_part rows.
Proof.
  induction rows as [|row rows IH]; intros acc s acc' n'; cbn [for_each].
  - intros H; injection H as <- <-.
    rewrite Nat.add_0_r, !app_nil_r. auto.
  - unfold System720Generator.a_parts_step at 1.
    destruct (safe_int (CInt (ap_quantity row))); cbn [bind]; [|discriminate].
    replace (Z.of_nat s + 1) with (Z.of_nat (S s)) by lia.
    intros H. apply IH in H. destruct H as (-> & H1 & H2).
    rewrite H1, H2, !map_app. cbn [map List.length seq line_number part_number].
    rewrite <- !app_assoc. repeat split; try reflexivity. f_equal; lia.
Qed.

Lemma collect_system_rows_numbers clock cm a rows :
  System720Generator.collect_system_rows clock cm a = Ok rows ->
  map line_number rows
    = one_to (List.length cm + List.length (rows_of a))
  /\ map part_number rows
     = map cm_line_part cm ++ map a_parts_line_part (rows_of a).
Proof.
  unfold System720Generator.collect_system_rows.
  destruct (for_each (System720Generator.cm_step clock) cm ([], 1))
    as [[acc n]|e] eqn:E; cbn [bind]; [|discriminate].
  apply (@cm_loop clock cm [] 1%nat) in E. destruct E as (-> & L1 & P1).
  simpl in L1, P1.
  destruct a as [[|r a]|]; cbn [bind rows_of fst].
  - intros H; injection H as <-. rewrite Nat.add_0_r, app_nil_r. auto.
  - destruct (for_each (System720Generator.a_parts_step clock) (r :: a) _)
      as [[acc2 n2]|e] eqn:E2; cbn [bind]; [|discriminate].
    apply a_parts_loop in E2. destruct E2 as (_ & L2 & P2).
    intros H; injection H as <-. cbn [fst].
    rewrite L2, P2, L1, P1. split; [|reflexivity].
    unfold one_to. rewrite seq_app, map_app. reflexivity.
  - intros H; injection H as <-. rewrite Nat.add_0_r, app_nil_r. auto.
Qed.

Lemma cm_loop_returns clock (rows : list CMPickingRow) :
  Forall (fun r => exact_in_double (cmp_quantity r)) rows ->
  forall st, exists st',
    for_each (System720Generator.cm_step clock) rows st = Ok st'.
Proof.
  induction 1 as [|row rows Hq _ IH]; intros [acc n]; cbn [for_each]; eauto.
  unfold System720Generator.cm_step at 1. cbn [safe_int].
  rewrite int_float_of_int_exact by exact Hq. cbn [of_conv bind]. apply IH.
Qed.

Lemma a_parts_loop_returns clock (rows : list APartsPickingRow) :
  Forall (fun r => exact_in_double (ap_quantity r)) rows ->
  forall st, exists st',
    for_each (System720Generator.a_parts_step clock) rows st = Ok st'.
Proof.
  induction 1 as [|row rows Hq _ IH]; intros [acc n]; cbn [for_each]; eauto.
  unfold System720Generator.a_parts_step at 1. cbn [safe_int].
  rewrite int_float_of_int_exact by exact Hq. cbn [of_conv bind]. apply IH.
Qed.

(** C5. For every pair of picking tables, the sheet the generator
    returns lists all CM picking rows first, in table order, then all
    A-parts picking rows when that table is present; its line numbers
    are exactly 1..m+n, the CM rows holding 1..m and the A-parts rows
    m+1..m+n.  The generator returns a sheet whenever every quantity
    fits a double exactly. *)
Theorem legacy_line_numbers_contiguous (clock : Clock)
    (df_cm_picking : list CMPickingRow)
    (df_a_parts_picking : option (list APartsPickingRow)) :
  let m := List.length df_cm_picking in
  let n := List.length (rows_of df_a_parts_picking) in
  (forall wb,
      System720Generator.generate clock df_cm_picking df_a_parts_picking
        = Ok wb ->
      data_column 1 wb = map WInt (one_to (m + n))
      /\ firstn m (data_column 1 wb) = map WInt (one_to m)
      /\ skipn m (data_column 1 wb)
         = map (fun i => WInt (Z.of_nat m + i)) (one_to n)
      /\ data_column 2 wb
         = map (fun r => WStr (cm_line_part r)) df_cm_picking
           ++ map (fun r => WStr (a_parts_line_part r))
                  (rows_of df_a_parts_picking))
  /\ (Forall (fun r => exact_in_double (cmp_quantity r)) df_cm_picking ->
      Forall (fun r => exact_in_double (ap_quantity r))
             (rows_of df_a_parts_picking) ->
      exists wb,
        System720Generator.generate clock df_cm_picking df_a_parts_picking
          = Ok wb).
Proof.
  intros m n. split.
  - intros wb. unfold System720Generator.generate, try_except.
    destruct (System720Generator.collect_system_rows clock df_cm_picking
                df_a_parts_picking) as [rows|e] eqn:E; cbn [bind];
      [|discriminate].
    intros H; injection H as <-.
    apply collect_system_rows_numbers in E. destruct E as [L P].
    assert (C1 : data_column 1 (System720Generator._create_workbook rows)
                 = map WInt (map line_number rows)).
    { unfold data_column. cbn [System720Generator._create_workbook
                                 sheet_rows tl].
      rewrite !map_map. reflexivity. }
    assert (C2 : data_column 2 (System720Generator._create_workbook rows)
                 = map WStr (map part_number rows)).
    { unfold data_column. cbn [System720Generator._create_workbook
                                 sheet_rows tl].
      rewrite !map_map. reflexivity. }
    rewrite C1, C2, L, P. fold m n.
    pose proof (one_to_app m n) as S.
    assert (Lm : List.length (map WInt (one_to m)) = m).
    { unfold one_to. rewrite !length_map, length_seq. reflexivity. }
    repeat split.
    + rewrite S, map_app, firstn_app, Lm, Nat.sub_diag, firstn_O, app_nil_r.
      rewrite <- Lm at 1. apply firstn_all.
    + rewrite S, map_app, skipn_app, Lm, Nat.sub_diag, skipn_O.
      rewrite <- Lm at 1. rewrite skipn_all. rewrite map_map. reflexivity.
    + rewrite map_app, !map_map. reflexivity.
  - intros Hcm Ha.
    unfold System720Generator.generate, try_except,
      System720Generator.collect_system_rows.
    destruct (@cm_loop_returns clock _ Hcm ([], 1)) as [st ->]. cbn [bind].
    destruct df_a_parts_picking as [[|r a]|]; cbn [bind rows_of] in *; eauto.
    destruct (@a_parts_loop_returns clock _ Ha st) as [st' ->]. cbn [bind].
    eauto.
Qed.
End LegacyRows.

(* ================================================================== *)
(** * The part-name column of the A-parts catalog *)
(* ================================================================== *)

Lemma for_each_ext {A S} (f g : S -> A -> result S) :
  (forall s x, f s x = g s x) ->
  forall xs s, for_each f xs s = for_each g xs s.
Proof.
  intros H xs; induction xs as [|x xs IH]; intros s; cbn [for_each];
    [reflexivity|].
  rewrite H. destruct (g s x); cbn [bind]; auto.
Qed.

Section PartName.
Context {rt : PyRuntime}.

Lemma matching_rows_differ_only_in_part_name a1 a2 part_number :
  differ_only_in_part_name a1 a2 ->
  differ_only_in_part_name
    (filter (fun r => cell_eq_str (apm_part_number r) part_number) a1)
    (filter (fun r => cell_eq_str (apm_part_number r) part_number) a2).
Proof.
  unfold differ_only_in_part_name.
  revert a2; induction a1 as [|r1 a1 IH]; intros [|r2 a2] H;
    try discriminate; [reflexivity|].
  assert (Hr : without_part_name r1 = without_part_name r2)
    by (cbn [map] in H; congruence).
  assert (Ha : map without_part_name a1 = map without_part_name a2)
    by (cbn [map] in H; congruence).
  pose proof (f_equal apm_part_number Hr) as Hn. cbn in Hn.
  simpl filter. rewrite Hn.
  destruct (cell_eq_str (apm_part_number r2) part_number); cbn [map];
    [rewrite Hr; f_equal|]; apply IH; exact Ha.
Qed.

Lemma find_a_parts_master_name_blind a1 a2 part_number :
  differ_only_in_part_name a1 a2 ->
  forget_name (ReferenceDBCreator._find_a_parts_master a1 part_number)
  = forget_name (ReferenceDBCreator._find_a_parts_master a2 part_number).
Proof.
  intros H.
  apply (@matching_rows_differ_only_in_part_name _ _ part_number) in H.
  unfold differ_only_in_part_name in H.
  unfold ReferenceDBCreator._find_a_parts_master.
  destruct (filter _ a1) as [|r1 l1]; destruct (filter _ a2) as [|r2 l2];
    try discriminate; [reflexivity|].
  assert (Hr : without_part_name r1 = without_part_name r2)
    by (cbn [map] in H; congruence).
  pose proof (f_equal apm_storage_location Hr) as Hs.
  pose proof (f_equal apm_rack Hr) as Hk.
  pose proof (f_equal apm_quantity_per_box Hr) as Hq.
  cbn in Hs, Hk, Hq. rewrite Hs, Hk, Hq.
  destruct (safe_int (apm_quantity_per_box r2)); reflexivity.
Qed.

Lemma a_parts_reference_step_name_blind a1 a2 :
  differ_only_in_part_name a1 a2 ->
  forall acc row,
    ReferenceDBCreator.a_parts_reference_step a1 acc row
    = ReferenceDBCreator.a_parts_reference_step a2 acc row.
Proof.
  intros H acc row. unfold ReferenceDBCreator.a_parts_reference_step.
  destruct (iloc row MATRIX_COLUMNS.PART_NUMBER) as [c|e]; cbn [bind];
    [|reflexivity].
  destruct (negb (is_valid_part_number (safe_str c))); [reflexivity|].
  destruct (negb (PartType_eqb (identify_part_type (safe_str c)) A_PARTS));
    [reflexivity|].
  pose proof (@find_a_parts_master_name_blind _ _ (safe_str c) H) as F.
  destruct (ReferenceDBCreator._find_a_parts_master a1 (safe_str c))
    as [[i1|]|e1];
    destruct (ReferenceDBCreator._find_a_parts_master a2 (safe_str c))
      as [[i2|]|e2];
    cbn [forget_name] in F; try discriminate; try (injection F as ->);
    cbn [bind]; try reflexivity.
  injection F as Hs Hk Hq. rewrite Hs, Hk, Hq. reflexivity.
Qed.

Lemma create_a_parts_reference_db_name_blind df a1 a2 :
  differ_only_in_part_name a1 a2 ->
  ReferenceDBCreator._create_a_parts_reference_db df a1
  = ReferenceDBCreator._create_a_parts_reference_db df a2.
Proof.
  intros H. unfold ReferenceDBCreator._create_a_parts_reference_db.
  apply for_each_ext. apply a_parts_reference_step_name_blind. exact H.
Qed.

Lemma a_parts_reference_step_name a acc row acc' :
  ReferenceDBCreator.a_parts_reference_step a acc row = Ok acc' ->
  acc' = acc
  \/ exists r c,
       acc' = acc ++ [r]
       /\ nth_error row MATRIX_COLUMNS.PART_NAME = Some c
       /\ apr_part_name r = safe_str c
       /\ apr_part_number r = part_number_of row.
Proof.
  unfold ReferenceDBCreator.a_parts_reference_step, part_number_of.
  next_iloc.
  destruct (negb (is_valid_part_number (safe_str c)));
    [intros H; injection H; auto|].
  destruct (negb (PartType_eqb (identify_part_type (safe_str c)) A_PARTS));
    [intros H; injection H; auto|].
  destruct (ReferenceDBCreator._find_a_parts_master a (safe_str c))
    as [[info|]|e]; cbn [bind]; [|intros H; injection H; auto|discriminate].
  do 3 next_iloc.
  destruct (safe_int (CInt (api_quantity_per_box info))); cbn [bind];
    [|discriminate].
  intros H; injection H as <-. right. do 2 eexists.
  repeat split; reflexivity.
Qed.

Lemma a_parts_reference_loop_names df a :
  forall rows acc t,
    (forall row, In row rows -> In row (skipn 1 df)) ->
    for_each (ReferenceDBCreator.a_parts_reference_step a) rows acc = Ok t ->
    Forall (named_by_matrix df) acc -> Forall (named_by_matrix df) t.
Proof.
  induction rows as [|row rows IH]; intros acc t Hin; cbn [for_each].
  - intros H; injection H as <-. auto.
  - destruct (ReferenceDBCreator.a_parts_reference_step a acc row)
      as [acc'|e] eqn:E; cbn [bind]; [|discriminate].
    intros Ht Hacc. eapply IH; [|exact Ht|].
    + intros r Hr. apply Hin. right. exact Hr.
    + apply a_parts_reference_step_name in E.
      destruct E as [->|(r & c & -> & Hc & Hn & Hp)]; [exact Hacc|].
      apply Forall_app. split; [exact Hacc|]. constructor; [|constructor].
      exists row, c. repeat split; try assumption. apply Hin. left. reflexivity.
Qed.

(** C9. The part-name column of the A-parts master catalog never
    influences any output: the part-name field of every A-parts
    reference row is the name cell of a matrix data row carrying that
    part number, and two runs whose catalogs differ only in part-name
    cells return the same result and write the same reference, picking,
    validation and legacy tables. *)
Theorem catalog_part_name_is_unused (env : Env) (process_line : ProcessLine)
    (a1 a2 : list APartsMasterRow) :
  differ_only_in_part_name a1 a2 ->
  PickingSystemMain.run (with_a_parts_master env a1) process_line
  = PickingSystemMain.run (with_a_parts_master env a2) process_line
  /\ forall df t,
       ReferenceDBCreator._create_a_parts_reference_db df a1 = Ok t ->
       Forall (named_by_matrix df) t.
Proof.
  intros H. split.
  - unfold PickingSystemMain.run. cbn [with_a_parts_master input_file].
    destruct (negb (is_valid (validation
               (PickingSystemMain._validate_input_file (input_file env)))));
      [reflexivity|].
    destruct (df_matrix (PickingSystemMain._validate_input_file
                           (input_file env))) as [df|]; [|reflexivity].
    assert (E : PickingSystemMain.stages (with_a_parts_master env a1)
                  process_line df
                = PickingSystemMain.stages (with_a_parts_master env a2)
                    process_line df).
    { unfold PickingSystemMain.stages,
        ReferenceDBCreator.create_reference_dbs,
        ReferenceDBCreator._load_master_dbs, try_except.
      cbn [with_a_parts_master cm_master_file a_parts_master_file clock].
      destruct (safe_read_excel (cm_master_file env)) as [cm|e];
        cbn [bind safe_read_excel file_on_disk fst snd]; [|reflexivity].
      rewrite (@create_a_parts_reference_db_name_blind df _ _ H).
      reflexivity. }
    rewrite E. reflexivity.
  - intros df t Ht.
    unfold ReferenceDBCreator._create_a_parts_reference_db in Ht.
    eapply a_parts_reference_loop_names; [|exact Ht|constructor]. auto.
Qed.
End PartName.

(* ================================================================== *)
(** * Input validation (main._validate_input_file) *)
(* ================================================================== *)

Section Validation.

Lemma check_headers_errors (row0 : Series) (rest : DataFrame)
    (hs : list (nat * pystr)) :
  forall errs,
    PickingSystemMain.check_headers (row0 :: rest) hs errs
    = (errs ++ map (header_error_for (row0 :: rest))
                   (filter (fun entry => negb (header_ok (row0 :: rest) entry))
                           hs),
       None).
Proof.
  induction hs as [|[col expected] hs IH]; intros errs;
    cbn [PickingSystemMain.check_headers filter map].
  - rewrite app_nil_r. reflexivity.
  - unfold header_ok at 1. cbn [fst snd hd ncols iloc2 nth_error].
    destruct (Nat.leb_spec (List.length row0) col) as [L|L].
    + assert (N : nth_error row0 col = None) by (apply nth_error_None; lia).
      rewrite N. cbn [negb map]. rewrite IH, <- app_assoc.
      unfold header_error_for. cbn [fst snd app ncols].
      destruct (Nat.leb_spec (List.length row0) col); [reflexivity|lia].
    + unfold iloc.
      destruct (nth_error row0 col) as [c|] eqn:N.
      * destruct (str_eqb (safe_str c) expected); cbn [negb map];
          rewrite IH; [reflexivity|].
        rewrite <- app_assoc.
        unfold header_error_for. cbn [fst snd app ncols hd].
        rewrite (nth_error_nth _ _ CNaN N).
        destruct (Nat.leb_spec (List.length row0) col); [lia|reflexivity].
      * apply nth_error_None in N. lia.
Qed.

(** What [_validate_input_file] returns on a readable sheet with at
    least two rows. *)
Lemma validate_readable (input : File DataFrame) (df : DataFrame) :
  file_on_disk input = Readable df ->
  (2 <= List.length df)%nat ->
  let v := PickingSystemMain._validate_input_file input in
  match header_errors df with
  | _ :: _ =>
      validation v = {| is_valid := false; errors := header_errors df;
                        warnings := [] |}
  | [] =>
      match iloc2 df 1 MATRIX_COLUMNS.PART_NUMBER with
      | Ok c =>
          if is_empty (safe_str c)
          then validation v = {| is_valid := false;
                                 errors := [MSG_NO_FRAME];
                                 warnings := [] |}
          else is_valid (validation v) = true
               /\ errors (validation v) = []
               /\ frame_part_number v = Some (safe_str c)
               /\ df_matrix v = Some df
      | Raise e =>
          validation v = {| is_valid := false;
                            errors := [MSG_VALIDATE_ERROR ++ exn_str e];
                            warnings := [] |}
      end
  end.
Proof.
  intros Hf Hlen v. subst v.
  unfold PickingSystemMain._validate_input_file, file_exists, safe_read_excel.
  rewrite Hf. cbn [negb].
  destruct (Nat.ltb_spec (List.length df) 2) as [L|_]; [lia|].
  destruct df as [|row0 rest]; [simpl in Hlen; lia|].
  rewrite check_headers_errors. cbn [app]. fold (header_errors (row0 :: rest)).
  destruct (header_errors (row0 :: rest)) as [|e es]; cbn [negb];
    [|reflexivity].
  destruct (iloc2 (row0 :: rest) 1 MATRIX_COLUMNS.PART_NUMBER) as [c|e];
    [|reflexivity].
  destruct (is_empty (safe_str c)); [reflexivity|].
  cbn [validation is_valid errors frame_part_number df_matrix]. auto.
Qed.

Lemma valid_has_matrix (input : File DataFrame) :
  is_valid (validation (PickingSystemMain._validate_input_file input)) = true ->
  exists df,
    df_matrix (PickingSystemMain._validate_input_file input) = Some df
    /\ file_on_disk input = Readable df.
Proof.
  unfold PickingSystemMain._validate_input_file,
    PickingSystemMain.validation_failed, file_exists, safe_read_excel.
  destruct (file_on_disk input) as [|err|df]; cbn [negb]; try discriminate.
  destruct (List.length df <? 2)%nat; [discriminate|].
  destruct (PickingSystemMain.check_headers _ _ _) as [errs [e|]];
    [discriminate|].
  destruct (negb match errs with [] => true | _ => false end);
    [discriminate|].
  destruct (iloc2 df 1 MATRIX_COLUMNS.PART_NUMBER) as [c|e];
    [|discriminate].
  destruct (is_empty (safe_str c)); [discriminate|].
  intros _. exists df. split; reflexivity.
Qed.

(** C10. Even when every required header cell matches and the table has
    at least 2 rows, validation fails with an error, and no warning,
    whenever the part-number cell of row 1 is empty or NaN; a valid
    matrix always yields a non-empty frame part number. *)
Theorem empty_frame_part_number_is_an_error (input : File DataFrame) :
  let v := PickingSystemMain._validate_input_file input in
  (forall df c,
      file_on_disk input = Readable df ->
      (2 <= List.length df)%nat ->
      Forall (fun entry => header_ok df entry = true)
             VALIDATION.required_headers ->
      iloc2 df 1 MATRIX_COLUMNS.PART_NUMBER = Ok c ->
      c = CNaN \/ c = CStr (lit "") \/ safe_str c = [] ->
      validation v = {| is_valid := false;
                        errors := [MSG_NO_FRAME];
                        warnings := [] |})
  /\ (is_valid (validation v) = true ->
      exists frame, frame_part_number v = Some frame /\ frame <> []).
Proof.
  intros v. split.
  - intros df c Hf Hlen Hok Hc Hempty.
    pose proof (@validate_readable input df Hf Hlen) as V. cbn zeta in V. fold v in V.
    assert (E : header_errors df = []).
    { unfold header_errors.
      replace (filter _ VALIDATION.required_headers) with (@nil (nat * pystr));
        [reflexivity|].
      symmetry. induction Hok as [|entry l H _ IH]; [reflexivity|].
      cbn [filter]. rewrite H. exact IH. }
    rewrite E, Hc in V.
    assert (S : safe_str c = [])
      by (destruct Hempty as [->|[->|H]]; [reflexivity|reflexivity|exact H]).
    rewrite S in V. exact V.
  - subst v. unfold PickingSystemMain._validate_input_file,
      PickingSystemMain.validation_failed.
    destruct (negb (file_exists input)); [discriminate|].
    destruct (safe_read_excel input) as [df|e]; [|discriminate].
    destruct (List.length df <? 2)%nat; [discriminate|].
    destruct (PickingSystemMain.check_headers _ _ _) as [errs [e|]];
      [discriminate|].
    destruct (negb match errs with [] => true | _ => false end);
      [discriminate|].
    destruct (iloc2 df 1 MATRIX_COLUMNS.PART_NUMBER) as [c|e];
      [|discriminate].
    destruct (is_empty (safe_str c)) eqn:E; [discriminate|].
    intros _. exists (safe_str c). split; [reflexivity|].
    intros H. apply is_empty_nil in H. congruence.
Qed.

(** C1, as the code has it.  For every input matrix, the validator
    checks that it has at least 2 rows and verifies exactly four fixed
    header cells of row 0 (positions 0, 1, 2 and 4) against their
    labels, trimmed and case-sensitive; it reports one error per
    mismatched header cell, not only the first, and one per missing
    column, and it succeeds only if there is no header error. *)
Theorem validator_checks_four_header_cells (input : File DataFrame)
    (df : DataFrame) :
  file_on_disk input = Readable df ->
  let v := validation (PickingSystemMain._validate_input_file input) in
  map fst VALIDATION.required_headers = [0; 1; 2; 4]%nat
  /\ ((List.length df < 2)%nat ->
      is_valid v = false /\ errors v = [MSG_NO_DATA_ROWS])
  /\ ((2 <= List.length df)%nat ->
      (header_errors df <> [] ->
       is_valid v = false /\ errors v = header_errors df)
      /\ (is_valid v = true -> header_errors df = [])
      /\ List.length (header_errors df)
         = List.length (filter (fun entry => negb (header_ok df entry))
                               VALIDATION.required_headers)).
Proof.
  intros Hf v. split; [reflexivity|]. split.
  - intros L. subst v.
    unfold PickingSystemMain._validate_input_file, file_exists,
      safe_read_excel.
    rewrite Hf. cbn [negb].
    destruct (Nat.ltb_spec (List.length df) 2); [|lia]. split; reflexivity.
  - intros Hlen.
    pose proof (@validate_readable input df Hf Hlen) as V. cbn zeta in V. fold v in V.
    repeat split.
    + destruct (header_errors df); [congruence|]. rewrite V. reflexivity.
    + destruct (header_errors df); [congruence|]. rewrite V. reflexivity.
    + destruct (header_errors df); [reflexivity|].
      rewrite V. discriminate.
    + unfold header_errors. apply length_map.
Qed.

(** The claim counts five verified header cells: the configuration has
    four, and a sheet whose every header cell is wrong is reported with
    four errors. *)
Lemma five_header_cells_counterexample :
  ~ verifies_five_header_cells
  /\ List.length
       (errors (validation
          (PickingSystemMain._validate_input_file
             (file_of "FRAME-0001" (Readable all_wrong_matrix)))))
     = 4%nat.
Proof. split; [discriminate | reflexivity]. Qed.
End Validation.

(* ================================================================== *)
(** * A master catalog that cannot be read *)
(* ================================================================== *)

Section MasterFailure.
Context {rt : PyRuntime}.

Lemma unreadable_raises {A} (f : File A) :
  unreadable f ->
  exists e, safe_read_excel f = Raise e
            /\ (exn_cls e = FileNotFoundError
                \/ exn_cls e = InvalidFileFormatError).
Proof.
  unfold unreadable, safe_read_excel.
  destruct (file_on_disk f); intros H; [eauto|eauto|contradiction].
Qed.

Lemma load_master_dbs_raises cm_file a_file :
  unreadable cm_file \/ unreadable a_file ->
  exists inner,
    ReferenceDBCreator._load_master_dbs cm_file a_file = Raise inner
    /\ exn_cls inner = MasterDBError.
Proof.
  unfold ReferenceDBCreator._load_master_dbs, try_except.
  intros [H|H].
  - destruct (@unreadable_raises _ cm_file H) as (e & -> & _).
    cbn [bind]. eauto.
  - destruct (safe_read_excel cm_file); cbn [bind]; [|eauto].
    destruct (@unreadable_raises _ a_file H) as (e & -> & _).
    cbn [bind]. eauto.
Qed.

(** C2, as the code has it.  If reading a master catalog file fails
    (missing or unreadable), the loader raises MasterDBError; the stage
    catches it and raises ReferenceDBError, whose text embeds the
    loader's, and that is the error leaving the Reference Resolver.  It
    belongs to the PickingSystemError family, and the run ends as a
    failed result that carries its text and writes nothing. *)
Theorem master_failure_leaves_as_reference_error (df : DataFrame)
    (cm_file : File (list CMMasterRow))
    (a_file : File (list APartsMasterRow)) :
  unreadable cm_file \/ unreadable a_file ->
  exists inner,
    ReferenceDBCreator._load_master_dbs cm_file a_file = Raise inner
    /\ exn_cls inner = MasterDBError
    /\ ReferenceDBCreator.create_reference_dbs df cm_file a_file
       = Raise (Exn ReferenceDBError (MSG_REFDB_ERROR ++ exn_str inner))
    /\ is_picking_system_error ReferenceDBError = true
    /\ forall env process_line,
         cm_master_file env = cm_file ->
         a_parts_master_file env = a_file ->
         is_valid (validation
           (PickingSystemMain._validate_input_file (input_file env))) = true ->
         df_matrix (PickingSystemMain._validate_input_file (input_file env))
           = Some df ->
         PickingSystemMain.run env process_line
         = ({| success := false;
               message := MSG_ERROR ++ MSG_REFDB_ERROR ++ exn_str inner;
               cm_picking_count := 0;
               a_parts_picking_count := 0;
               result_errors := [MSG_REFDB_ERROR ++ exn_str inner];
               result_warnings := [] |}, None).
Proof.
  intros H.
  destruct (@load_master_dbs_raises cm_file a_file H) as (inner & L & K).
  exists inner.
  assert (R : ReferenceDBCreator.create_reference_dbs df cm_file a_file
              = Raise (Exn ReferenceDBError
                         (MSG_REFDB_ERROR ++ exn_str inner))).
  { unfold ReferenceDBCreator.create_reference_dbs, try_except.
    rewrite L. reflexivity. }
  repeat split; try assumption.
  intros env process_line <- <- V D.
  unfold PickingSystemMain.run. rewrite V, D. cbn [negb].
  unfold PickingSystemMain.stages. rewrite R. reflexivity.
Qed.
End MasterFailure.

(* ================================================================== *)
(** * The properties on the sample run *)
(* ================================================================== *)

(** With the A-parts master file missing, the error that leaves the
    Reference Resolver is a ReferenceDBError, not a MasterDBError. *)
Lemma master_error_kind_counterexample :
  exists e,
    @ReferenceDBCreator.create_reference_dbs ascii_runtime sample_matrix
      (cm_master_file sample_env_no_a_master)
      (a_parts_master_file sample_env_no_a_master) = Raise e
    /\ exn_cls e = ReferenceDBError
    /\ exn_cls e <> MasterDBError.
Proof.
  eexists. split; [reflexivity|]. split; [reflexivity | discriminate].
Qed.

Lemma master_failure_leaves_as_reference_error_witness :
  fst (@PickingSystemMain.run ascii_runtime sample_env_no_a_master A_LINE)
  = {| success := false;
       message := MSG_ERROR ++ MSG_REFDB_ERROR ++ MSG_MASTER_ERROR
                    ++ MSG_FILE_MISSING ++ lit "a.xlsx";
       cm_picking_count := 0;
       a_parts_picking_count := 0;
       result_errors := [MSG_REFDB_ERROR ++ MSG_MASTER_ERROR
                           ++ MSG_FILE_MISSING ++ lit "a.xlsx"];
       result_warnings := [] |}.
Proof.
  destruct (@master_failure_leaves_as_reference_error ascii_runtime
              sample_matrix
              (cm_master_file sample_env_no_a_master)
              (a_parts_master_file sample_env_no_a_master)
              (or_intror I))
    as (inner & L & _ & _ & _ & R).
  rewrite (R sample_env_no_a_master A_LINE eq_refl eq_refl eq_refl eq_refl).
  injection L as <-. reflexivity.
Defined.

Lemma validator_checks_four_header_cells_witness :
  let v := validation (PickingSystemMain._validate_input_file
                         (file_of "FRAME-0001" (Readable all_wrong_matrix))) in
  is_valid v = false /\ errors v = header_errors all_wrong_matrix.
Proof.
  destruct (@validator_checks_four_header_cells
              (file_of "FRAME-0001" (Readable all_wrong_matrix))
              all_wrong_matrix eq_refl) as (_ & _ & H).
  destruct (H (le_n 2)) as (H1 & _ & _).
  apply H1. discriminate.
Defined.

Lemma a_parts_validation_verdict_witness :
  match sample_a_picking with
  | (p0 :: _, v0 :: v1 :: _) =>
      ap_required_boxes p0 * ap_quantity_per_box p0 >= ap_quantity p0
      /\ v_verdict v0 = lit "OK"
      /\ v_verdict v1 = lit "NG"
  | _ => False
  end.
Proof.
  pose proof (@a_parts_validation_verdict ascii_runtime sample_matrix
                sample_a_reference (fst sample_a_picking)
                (snd sample_a_picking) eq_refl) as F.
  unfold sample_a_picking in *. cbn [fst snd] in F.
  inversion F as [|p0 v0 ps vs H0 F1]; subst.
  inversion F1 as [|p1 v1 ps1 vs1 H1 _]; subst.
  destruct H0 as (B & _ & _ & _ & OK & _).
  destruct H1 as (_ & _ & _ & _ & _ & NG).
  split; [apply B; reflexivity|].
  split; [apply OK; discriminate | apply NG; reflexivity].
Defined.

Lemma reference_numbers_contiguous_witness :
  map cmr_No sample_cm_reference = one_to 1
  /\ map apr_No sample_a_reference = one_to 2.
Proof.
  destruct (@reference_numbers_contiguous ascii_runtime sample_matrix
              sample_cm_master sample_a_parts_master) as [Hc Ha].
  split; [exact (proj1 (Hc _ eq_refl)) | exact (proj1 (Ha _ eq_refl))].
Defined.

Lemma legacy_line_numbers_contiguous_witness :
  exists wb,
    @System720Generator.generate ascii_runtime sample_clock sample_cm_picking
      (Some (fst sample_a_picking)) = Ok wb
    /\ data_column 1 wb = [WInt 1; WInt 2; WInt 3].
Proof.
  destruct (@legacy_line_numbers_contiguous ascii_runtime sample_clock
              sample_cm_picking (Some (fst sample_a_picking))) as [H T].
  destruct T as [wb E].
  - repeat constructor.
  - repeat constructor.
  - exists wb. split; [exact E | exact (proj1 (H wb E))].
Defined.

Lemma is_valid_part_number_screen_witness :
  @is_valid_part_number ascii_runtime (lit "A1234") = false
  /\ @ReferenceDBCreator.cm_reference_step ascii_runtime sample_cm_master []
       (nth 3 sample_matrix []) = Ok []
  /\ @ReferenceDBCreator.a_parts_reference_step ascii_runtime
       sample_a_parts_master [] (nth 3 sample_matrix []) = Ok [].
Proof.
  destruct (@is_valid_part_number_screen ascii_runtime (CStr (lit "A1234")))
    as (_ & H & _).
  destruct (H eq_refl) as [V S].
  split; [exact V|].
  exact (S (nth 3 sample_matrix []) sample_cm_master sample_a_parts_master
           [] [] eq_refl).
Defined.

Lemma format_options_of_row_witness :
  format_options (extract_options (nth 2 sample_matrix []) OPTION_START_COL)
  = lit "red / wide".
Proof.
  exact (proj2 (proj2 (format_options_of_row []))
           (firstn 11 (nth 2 sample_matrix [])) eq_refl).
Defined.

Lemma catalog_part_name_is_unused_witness :
  @PickingSystemMain.run ascii_runtime
     (with_a_parts_master sample_env sample_a_parts_master) A_LINE
  = @PickingSystemMain.run ascii_runtime
      (with_a_parts_master sample_env sample_a_parts_master_renamed) A_LINE
  /\ Forall (named_by_matrix sample_matrix) sample_a_reference.
Proof.
  destruct (@catalog_part_name_is_unused ascii_runtime sample_env A_LINE
              sample_a_parts_master sample_a_parts_master_renamed eq_refl)
    as [R N].
  split; [exact R | exact (N sample_matrix _ eq_refl)].
Defined.

Lemma empty_frame_part_number_is_an_error_witness :
  validation (PickingSystemMain._validate_input_file
                (file_of "FRAME-0001" (Readable no_frame_matrix)))
  = {| is_valid := false; errors := [MSG_NO_FRAME]; warnings := [] |}
  /\ exists frame,
       frame_part_number
         (PickingSystemMain._validate_input_file (input_file sample_env))
       = Some frame
       /\ frame <> [].
Proof.
  split.
  - destruct (@empty_frame_part_number_is_an_error
                (file_of "FRAME-0001" (Readable no_frame_matrix))) as [H _].
    apply (H no_frame_matrix CNaN eq_refl (le_n 2)).
    + repeat constructor.
    + reflexivity.
    + left. reflexivity.
  - destruct (@empty_frame_part_number_is_an_error (input_file sample_env))
      as [_ H].
    exact (H eq_refl).
Defined.

(* ================================================================== *)
(** * Further properties: conversions (utils.safe_str, utils.safe_int) *)
(* ================================================================== *)

Lemma rstrip_last (s : pystr) (d : N) :
  rstrip s <> [] -> isspace (last (rstrip s) d) = false.
Proof.
  induction s as [|c t IH]; [intros H; exfalso; apply H; reflexivity|].
  rewrite rstrip_cons. destruct (rstrip t) as [|x u] eqn:E.
  - destruct (isspace c) eqn:Ec; intros H.
    + exfalso; apply H; reflexivity.
    + exact Ec.
  - intros _. change (last (c :: x :: u) d) with (last (x :: u) d).
    apply IH. discriminate.
Qed.

Lemma lstrip_last (s : pystr) (d : N) :
  lstrip s <> [] -> last (lstrip s) d = last s d.
Proof.
  induction s as [|c t IH]; [reflexivity|].
  cbn [lstrip]. destruct (isspace c); [|reflexivity].
  intros H. rewrite (IH H).
  destruct t as [|x u]; [exfalso; apply H; reflexivity | reflexivity].
Qed.

Lemma strip_no_outer_whitespace (s : pystr) : no_outer_whitespace (strip s).
Proof.
  unfold no_outer_whitespace, strip.
  pose proof (lstrip_head (rstrip s)) as Hh.
  destruct (lstrip (rstrip s)) as [|c t] eqn:E; [exact I|].
  split; [exact Hh|].
  rewrite <- E. rewrite lstrip_last by (rewrite E; discriminate).
  apply rstrip_last. intros N. rewrite N in E. discriminate.
Qed.

(** X1. Whatever the cell, [safe_str] returns a string without leading
    or trailing whitespace, the empty string for a missing value, and
    applying it again to its own result changes nothing. *)
Theorem safe_str_is_trimmed (value : cell) :
  no_outer_whitespace (safe_str value)
  /\ safe_str (CStr (safe_str value)) = safe_str value
  /\ (value = CNaN -> safe_str value = lit "").
Proof.
  split; [|split].
  - destruct value; cbn [safe_str]; try apply strip_no_outer_whitespace.
    exact I.
  - cbn [safe_str]. apply safe_str_stripped.
  - intros ->. reflexivity.
Qed.

Lemma int_float_of_scaled (m e s : Z) :
  2 ^ 52 <= m < 2 ^ 53 -> 0 <= e -> s = 1 \/ s = -1 ->
  m * 2 ^ e < 2 ^ 1024 ->
  int_float_of_int (s * (m * 2 ^ e)) = Converted (s * (m * 2 ^ e)).
Proof.
  intros Hm He Hs Hv.
  assert (P : 0 < 2 ^ e) by (apply Z.pow_pos_nonneg; lia).
  assert (A : Z.abs (s * (m * 2 ^ e)) = m * 2 ^ e).
  { rewrite Z.abs_mul.
    replace (Z.abs s) with 1 by (destruct Hs; subst; reflexivity).
    rewrite Z.mul_1_l. apply Z.abs_eq. nia. }
  assert (L : Z.log2 (m * 2 ^ e) = 52 + e).
  { apply Z.log2_unique; [lia|].
    replace (Z.succ (52 + e)) with (53 + e) by lia.
    rewrite !Z.pow_add_r by lia. nia. }
  unfold int_float_of_int. rewrite A, L.
  replace (52 + e - 52) with e by lia.
  destruct (Z.leb_spec e 0) as [E0|E0]; [reflexivity|].
  rewrite (Z.shiftr_div_pow2 (m * 2 ^ e) e) by lia.
  rewrite Z.div_mul by lia.
  rewrite (Z.shiftl_mul_pow2 m e) by lia.
  rewrite Z.sub_diag.
  assert (H2 : 0 < Z.shiftl 1 (e - 1)).
  { rewrite Z.shiftl_mul_pow2 by lia. apply Z.mul_pos_pos; [lia|].
    apply Z.pow_pos_nonneg; lia. }
  destruct (Z.ltb_spec (Z.shiftl 1 (e - 1)) 0) as [X|_]; [lia|].
  destruct (Z.eqb_spec 0 (Z.shiftl 1 (e - 1))) as [X|_]; [lia|].
  cbn [orb andb]. rewrite (Z.shiftl_mul_pow2 m e) by lia.
  destruct (Z.leb_spec (2 ^ 1024) (m * 2 ^ e)) as [X|_]; [lia|].
  assert (Sg : Z.sgn (s * (m * 2 ^ e)) = s)
    by (destruct Hs; subst; [apply Z.sgn_pos_iff | apply Z.sgn_neg_iff]; nia).
  rewrite Sg. reflexivity.
Qed.

(** Converting to a double and back is a projection: a value it returns
    is returned unchanged the next time. *)
Lemma int_float_of_int_idem (n v : Z) :
  int_float_of_int n = Converted v -> int_float_of_int v = Converted v.
Proof.
  intros H. pose proof H as H0. unfold int_float_of_int in H.
  destruct (Z.leb_spec (Z.log2 (Z.abs n) - 52) 0) as [K|K].
  { injection H as <-. exact H0. }
  clear H0.
  set (a := Z.abs n) in *. set (k := Z.log2 a - 52) in *.
  assert (Ha : 0 < a).
  { destruct (Z.eq_dec a 0) as [E|E]; [|subst a; lia].
    subst k. rewrite E in K. cbn in K. lia. }
  pose proof (Z.log2_spec a Ha) as [Lo Hi].
  replace (Z.log2 a) with (k + 52) in Lo by (subst k; lia).
  replace (Z.succ (Z.log2 a)) with (k + 53) in Hi by (subst k; lia).
  rewrite Z.pow_add_r in Lo, Hi by lia.
  assert (P : 0 < 2 ^ k) by (apply Z.pow_pos_nonneg; lia).
  rewrite Z.shiftr_div_pow2 in H by lia.
  set (q := a / 2 ^ k) in *.
  assert (Q : 2 ^ 52 <= q < 2 ^ 53).
  { subst q. split.
    - apply Z.div_le_lower_bound; lia.
    - apply Z.div_lt_upper_bound; lia. }
  assert (S : Z.sgn n = 1 \/ Z.sgn n = -1).
  { subst a. destruct n; cbn in *; auto; lia. }
  set (q' := if (Z.shiftl 1 (k - 1) <? a - Z.shiftl q k)
                || ((a - Z.shiftl q k =? Z.shiftl 1 (k - 1)) && Z.odd q)
             then q + 1 else q) in *.
  assert (Q' : q' = q \/ q' = q + 1) by (subst q'; destruct (_ || _); auto).
  rewrite Z.shiftl_mul_pow2 in H by lia.
  destruct (Z.leb_spec (2 ^ 1024) (q' * 2 ^ k)) as [X|X]; [discriminate|].
  injection H as <-.
  destruct (Z.eq_dec q' (2 ^ 53)) as [E|E].
  - rewrite E in *.
    replace (2 ^ 53 * 2 ^ k) with (2 ^ 52 * 2 ^ (k + 1)) in *
      by (rewrite Z.pow_add_r by lia; lia).
    apply int_float_of_scaled; first [lia | exact S].
  - apply int_float_of_scaled; first [lia | exact S].
Qed.

Section SafeInt.
Context {rt : PyRuntime}.

(** X2. [safe_int] gives 0 for a missing value, returns an integer cell
    of magnitude below 2^53 unchanged, can raise nothing but
    OverflowError, and on an integer cell is a projection: a value it
    returned comes back unchanged when converted again. *)
Theorem safe_int_is_a_projection (value : cell) :
  (value = CNaN -> safe_int value = Ok 0)
  /\ (forall n, value = CInt n -> Z.abs n < 2 ^ 53 -> safe_int value = Ok n)
  /\ (forall e, safe_int value = Raise e -> exn_cls e = OverflowError)
  /\ (forall m n, value = CInt m -> safe_int value = Ok n ->
                  safe_int (CInt n) = Ok n).
Proof.
  split; [|split; [|split]].
  - intros ->. reflexivity.
  - intros n -> H. cbn [safe_int].
    rewrite int_float_of_int_exact by exact H. reflexivity.
  - intros e. unfold safe_int, of_conv.
    destruct value as [|s|n|t c];
      repeat match goal with
             | |- context [match ?x with _ => _ end] => destruct x
             end;
      try discriminate; intros H; injection H as <-; reflexivity.
  - intros m n -> H. cbn [safe_int] in *. unfold of_conv in H.
    destruct (int_float_of_int m) as [v| |msg] eqn:E; try discriminate.
    + injection H as <-. rewrite (@int_float_of_int_idem m v E). reflexivity.
    + unfold int_float_of_int in E.
      repeat match type of E with
             | context [if ?b then _ else _] => destruct b
             end; discriminate.
Qed.
End SafeInt.

(* ================================================================== *)
(** * Further properties: classification (utils.identify_part_type) *)
(* ================================================================== *)

Section Classification.
Context {rt : PyRuntime}.

Lemma re_match_length (pattern : regex) (s : pystr) :
  re_match pattern s = true -> (List.length pattern <= List.length s)%nat.
Proof.
  revert s; induction pattern as [|it p IH]; intros s; cbn [re_match];
    [cbn; lia|].
  destruct s as [|c s]; [discriminate|].
  intros H. apply andb_true_iff in H. destruct H as [_ H].
  apply IH in H. cbn [List.length]. lia.
Qed.

Lemma re_match_first (p0 : N) (pattern : regex) (s : pystr) :
  re_match (Lit p0 :: pattern) s = true ->
  exists c t, s = c :: t /\ literal_ignorecase p0 c = true.
Proof.
  cbn [re_match]. destruct s as [|c t]; [discriminate|].
  intros H. apply andb_true_iff in H. destruct H as [H _].
  exists c, t. split; [reflexivity | exact H].
Qed.

Lemma literal_ignorecase_C (c : N) :
  literal_ignorecase 67 c = true -> c = 67%N \/ c = 99%N.
Proof.
  unfold literal_ignorecase. cbn.
  rewrite !orb_false_r, orb_true_iff, !N.eqb_eq. tauto.
Qed.

Lemma literal_ignorecase_A (c : N) :
  literal_ignorecase 65 c = true -> c = 65%N \/ c = 97%N.
Proof.
  unfold literal_ignorecase. cbn.
  rewrite !orb_false_r, orb_true_iff, !N.eqb_eq. tauto.
Qed.

(** X3. A part number classified CM has, once trimmed, at least 8
    characters and starts with C or c; one classified A_PARTS has at
    least 7 and starts with A or a.  A part number that passes the
    validity screen is never classified FRAME, and a valid one of exactly
    6 characters is always OTHER, so it reaches no catalog. *)
Theorem classification_bounds (part_number : pystr) :
  (identify_part_type part_number = CM ->
   8 <= len (strip part_number)
   /\ exists c t, strip part_number = c :: t /\ (c = 67%N \/ c = 99%N))
  /\ (identify_part_type part_number = A_PARTS ->
      7 <= len (strip part_number)
      /\ exists c t, strip part_number = c :: t /\ (c = 65%N \/ c = 97%N))
  /\ (is_valid_part_number part_number = true ->
      identify_part_type part_number <> FRAME)
  /\ (is_valid_part_number part_number = true ->
      len (strip part_number) = 6 ->
      identify_part_type part_number = OTHER).
Proof.
  assert (CMb : identify_part_type part_number = CM ->
                8 <= len (strip part_number)
                /\ exists c t, strip part_number = c :: t
                               /\ (c = 67%N \/ c = 99%N)).
  { unfold identify_part_type.
    destruct (is_empty part_number); [discriminate|].
    unfold CM_PART_PATTERNS. cbn [existsb]. rewrite orb_false_r.
    destruct (re_match (lits "CM" ++ repeat Digit 6) (strip part_number))
      eqn:E1; cbn [orb].
    - intros _. split.
      + apply re_match_length in E1. cbn in E1. unfold len. lia.
      + destruct (@re_match_first _ _ _ E1) as (c & t & -> & Hc).
        exists c, t. split; [reflexivity | apply literal_ignorecase_C, Hc].
    - destruct (re_match (lits "C-" ++ repeat Digit 6) (strip part_number))
        eqn:E2.
      + intros _. split.
        * apply re_match_length in E2. cbn in E2. unfold len. lia.
        * destruct (@re_match_first _ _ _ E2) as (c & t & -> & Hc).
          exists c, t. split; [reflexivity | apply literal_ignorecase_C, Hc].
      + repeat match goal with
               | |- context [if ?b then _ else _] => destruct b
               end; discriminate. }
  assert (Ab : identify_part_type part_number = A_PARTS ->
               7 <= len (strip part_number)
               /\ exists c t, strip part_number = c :: t
                              /\ (c = 65%N \/ c = 97%N)).
  { unfold identify_part_type.
    destruct (is_empty part_number); [discriminate|].
    destruct (existsb _ CM_PART_PATTERNS); [discriminate|].
    unfold A_PARTS_PATTERNS. cbn [existsb]. rewrite orb_false_r.
    destruct (re_match (lits "A" ++ repeat Digit 6) (strip part_number))
      eqn:E1; cbn [orb].
    - intros _. split.
      + apply re_match_length in E1. cbn in E1. unfold len. lia.
      + destruct (@re_match_first _ _ _ E1) as (c & t & -> & Hc).
        exists c, t. split; [reflexivity | apply literal_ignorecase_A, Hc].
    - destruct (re_match (lits "AP-" ++ repeat Digit 6) (strip part_number))
        eqn:E2.
      + intros _. split.
        * apply re_match_length in E2. cbn in E2. unfold len. lia.
        * destruct (@re_match_first _ _ _ E2) as (c & t & -> & Hc).
          exists c, t. split; [reflexivity | apply literal_ignorecase_A, Hc].
      + destruct (re_match (lits "FRAME") (strip part_number)); discriminate. }
  assert (Fb : is_valid_part_number part_number = true ->
               identify_part_type part_number <> FRAME).
  { intros V. apply is_valid_part_number_iff in V.
    destruct V as (_ & _ & V). intros F. apply V. left.
    apply re_match_word.
    unfold identify_part_type in F.
    repeat match type of F with
           | context [if ?b then _ else _] => destruct b eqn:?
           end; try discriminate. reflexivity. }
  repeat split; try (apply CMb; assumption); try (apply Ab; assumption);
    try assumption.
  intros V L. pose proof (Fb V) as NF. clear Fb. revert CMb Ab NF.
  destruct (identify_part_type part_number); intros CMb Ab NF;
    try reflexivity.
  - destruct CMb as [X _]; [reflexivity | lia].
  - destruct Ab as [X _]; [reflexivity | lia].
  - exfalso. apply NF. reflexivity.
Qed.
End Classification.

(* ================================================================== *)
(** * Further properties: required boxes *)
(* ================================================================== *)

(** X4. With a positive box quantity, the required boxes are the least
    number of boxes that hold the quantity, and they grow with the
    quantity. *)
Theorem required_boxes_is_least (quantity quantity_per_box : Z) :
  0 < quantity_per_box ->
  (forall boxes,
      quantity <= boxes * quantity_per_box
      <-> calculate_required_boxes quantity quantity_per_box <= boxes)
  /\ (forall more,
        quantity <= more ->
        calculate_required_boxes quantity quantity_per_box
        <= calculate_required_boxes more quantity_per_box).
Proof.
  intros Hp.
  pose proof (@required_boxes_bounds quantity quantity_per_box Hp) as B.
  split.
  - intros boxes. split; intros H; nia.
  - intros more Hm.
    pose proof (@required_boxes_bounds more quantity_per_box Hp) as B'.
    nia.
Qed.

(* ================================================================== *)
(** * Further properties: catalog lookups (processors/reference_db.py) *)
(* ================================================================== *)


Lemma filter_nil_iff {A} (p : A -> bool) (l : list A) :
  filter p l = [] <-> Forall (fun x => p x = false) l.
Proof.
  induction l as [|x l IH]; cbn [filter].
  - split; [constructor | reflexivity].
  - destruct (p x) eqn:E.
    + split; [discriminate|]. intros H. inversion H; subst. congruence.
    + rewrite IH. split; intros H; [constructor; assumption|].
      inversion H; assumption.
Qed.

Lemma filter_skip {A} (p : A -> bool) (pre : list A) (r : A) (post : list A) :
  p r = false -> filter p (pre ++ r :: post) = filter p (pre ++ post).
Proof.
  intros Hr. rewrite !filter_app. cbn [filter]. rewrite Hr. reflexivity.
Qed.

Lemma untrimmed_key_differs (key value : cell) :
  ~ trimmed_string_cell key -> cell_eq_str key (safe_str value) = false.
Proof.
  intros H. destruct key as [|s|n|t c]; try reflexivity.
  cbn [cell_eq_str]. apply str_eqb_neq. intros E. apply H.
  cbn [trimmed_string_cell]. rewrite E. apply safe_str_stripped.
Qed.

Section CatalogLookup.
Context {rt : PyRuntime}.


(** X6. A CM catalog row whose part-number cell is not a string, or is a
    string with leading or trailing whitespace, is as good as absent:
    the CM reference table is the one built without that row. *)
Theorem untrimmed_catalog_key_is_invisible (df : DataFrame)
    (pre : list CMMasterRow) (r : CMMasterRow) (post : list CMMasterRow) :
  ~ trimmed_string_cell (cmm_part_number r) ->
  ReferenceDBCreator._create_cm_reference_db df (pre ++ r :: post)
  = ReferenceDBCreator._create_cm_reference_db df (pre ++ post).
Proof.
  intros H. unfold ReferenceDBCreator._create_cm_reference_db.
  apply for_each_ext. intros acc row.
  unfold ReferenceDBCreator.cm_reference_step.
  destruct (iloc row MATRIX_COLUMNS.PART_NUMBER) as [c|e]; cbn [bind];
    [|reflexivity].
  unfold ReferenceDBCreator._find_cm_master.
  rewrite filter_skip by (apply untrimmed_key_differs; exact H).
  reflexivity.
Qed.
End CatalogLookup.

(* ================================================================== *)
(** * Further properties: the reference tables *)
(* ================================================================== *)

Lemma PartType_eqb_eq (a b : PartType) : PartType_eqb a b = true -> a = b.
Proof. destruct a, b; cbn; congruence. Qed.

Lemma str_eqb_sym (a b : pystr) : str_eqb a b = str_eqb b a.
Proof.
  destruct (str_eqb a b) eqn:E.
  - apply str_eqb_eq in E. subst. symmetry. apply str_eqb_refl.
  - symmetry. apply str_eqb_neq. apply str_eqb_neq in E. congruence.
Qed.

Lemma int_float_of_int_not_rejected (n : Z) : int_float_of_int n <> Rejected.
Proof.
  unfold int_float_of_int.
  repeat match goal with
         | |- context [if ?b then _ else _] => destruct b
         end; discriminate.
Qed.

(** A loop whose steps leave the list alone or append one row related to
    the input row by [Q] builds a list of rows each related to some
    input row. *)
Lemma appending_loop {R} (Q : Series -> R -> Prop)
    (step : list R -> Series -> result (list R)) (all : list Series) :
  (forall acc row acc',
      step acc row = Ok acc' ->
      acc' = acc \/ exists r, acc' = acc ++ [r] /\ Q row r) ->
  forall rows acc t,
    (forall row, In row rows -> In row all) ->
    for_each step rows acc = Ok t ->
    Forall (fun r => exists row, In row all /\ Q row r) acc ->
    Forall (fun r => exists row, In row all /\ Q row r) t.
Proof.
  intros Hstep rows; induction rows as [|row rows IH]; intros acc t Hin;
    cbn [for_each].
  - intros H; injection H as <-. auto.
  - destruct (step acc row) as [acc'|e] eqn:E; cbn [bind]; [|discriminate].
    intros Ht Hacc. eapply IH; [|exact Ht|].
    + intros r Hr. apply Hin. right. exact Hr.
    + apply Hstep in E. destruct E as [->|(r & -> & HQ)]; [exact Hacc|].
      apply Forall_app. split; [exact Hacc|]. constructor; [|constructor].
      exists row. split; [apply Hin; left; reflexivity | exact HQ].
Qed.

Section ReferenceRows.
Context {rt : PyRuntime}.

Lemma safe_int_of_int_fixed (m n : Z) :
  safe_int (CInt m) = Ok n -> int_float_of_int n = Converted n.
Proof.
  cbn [safe_int]. unfold of_conv.
  destruct (int_float_of_int m) as [v| |msg] eqn:E; try discriminate.
  - intros H; injection H as <-. exact (@int_float_of_int_idem m v E).
  - exfalso. exact (@int_float_of_int_not_rejected m E).
Qed.

Lemma cm_reference_step_row cat acc row acc' :
  ReferenceDBCreator.cm_reference_step cat acc row = Ok acc' ->
  acc' = acc
  \/ exists r,
       acc' = acc ++ [r]
       /\ (cmr_part_number r = part_number_of row
           /\ cm_reference_row_ok cat r
           /\ cm_reference_row_trimmed r).
Proof.
  unfold ReferenceDBCreator.cm_reference_step, part_number_of.
  next_iloc.
  destruct (is_valid_part_number (safe_str c)) eqn:V; cbn [negb];
    [|intros H; injection H; auto].
  destruct (PartType_eqb (identify_part_type (safe_str c)) CM) eqn:T;
    cbn [negb]; [|intros H; injection H; auto].
  destruct (ReferenceDBCreator._find_cm_master cat (safe_str c))
    as [info|] eqn:F; [|intros H; injection H; auto].
  assert (Tr : strip (cmi_box_code info) = cmi_box_code info
               /\ strip (cmi_box_name info) = cmi_box_name info
               /\ strip (cmi_storage_location info)
                  = cmi_storage_location info).
  { unfold ReferenceDBCreator._find_cm_master in F.
    destruct (filter _ cat); [discriminate|]. injection F as <-.
    cbn. repeat split; apply safe_str_stripped. }
  destruct Tr as (T1 & T2 & T3).
  do 4 next_iloc.
  intros H; injection H as <-. right. eexists. split; [reflexivity|].
  split; [reflexivity|]. split.
  - unfold cm_reference_row_ok.
    cbn [cmr_part_number cmr_box_code cmr_box_name cmr_storage_location
         safe_str].
    split; [exact V|].
    split; [apply PartType_eqb_eq; exact T|].
    exists info. rewrite T1, T2, T3. auto.
  - unfold cm_reference_row_trimmed.
    cbn [cmr_start_part_number cmr_factory cmr_part_number cmr_part_name
         cmr_spec cmr_box_code cmr_box_name cmr_storage_location safe_str].
    rewrite T1, T2, T3, !safe_str_stripped. auto 10.
Qed.

Lemma a_parts_reference_step_row cat acc row acc' :
  ReferenceDBCreator.a_parts_reference_step cat acc row = Ok acc' ->
  acc' = acc
  \/ exists r,
       acc' = acc ++ [r]
       /\ (apr_part_number r = part_number_of row
           /\ a_parts_reference_row_ok cat r
           /\ a_parts_reference_row_trimmed r).
Proof.
  unfold ReferenceDBCreator.a_parts_reference_step, part_number_of.
  next_iloc.
  destruct (is_valid_part_number (safe_str c)) eqn:V; cbn [negb];
    [|intros H; injection H; auto].
  destruct (PartType_eqb (identify_part_type (safe_str c)) A_PARTS) eqn:T;
    cbn [negb]; [|intros H; injection H; auto].
  destruct (ReferenceDBCreator._find_a_parts_master cat (safe_str c))
    as [[info|]|e] eqn:F; cbn [bind];
    [|intros H; injection H; auto|discriminate].
  assert (Tr : strip (api_storage_location info) = api_storage_location info
               /\ strip (api_rack info) = api_rack info).
  { unfold ReferenceDBCreator._find_a_parts_master in F.
    destruct (filter _ cat) as [|x l]; [discriminate|].
    destruct (safe_int (apm_quantity_per_box x)); cbn [bind] in F;
      [|discriminate].
    injection F as <-. cbn. split; apply safe_str_stripped. }
  destruct Tr as (T1 & T2).
  do 3 next_iloc.
  destruct (safe_int (CInt (api_quantity_per_box info))) as [q|e] eqn:Q;
    cbn [bind]; [|discriminate].
  intros H; injection H as <-. right. eexists. split; [reflexivity|].
  split; [reflexivity|]. split.
  - unfold a_parts_reference_row_ok.
    cbn [apr_part_number apr_storage_location apr_rack safe_str].
    split; [exact V|].
    split; [apply PartType_eqb_eq; exact T|].
    exists info. rewrite T1, T2. auto.
  - unfold a_parts_reference_row_trimmed.
    cbn [apr_start_part_number apr_factory apr_part_number apr_part_name
         apr_storage_location apr_rack apr_quantity_per_box safe_str].
    rewrite T1, T2, !safe_str_stripped.
    repeat split; try reflexivity; try assumption.
    eapply safe_int_of_int_fixed. exact Q.
Qed.

Lemma cm_reference_rows_facts df cat t :
  ReferenceDBCreator._create_cm_reference_db df cat = Ok t ->
  Forall (fun r => exists row,
            In row (skipn 1 df)
            /\ (cmr_part_number r = part_number_of row
                /\ cm_reference_row_ok cat r
                /\ cm_reference_row_trimmed r)) t.
Proof.
  intros H. unfold ReferenceDBCreator._create_cm_reference_db in H.
  eapply appending_loop; [|intros row Hr; exact Hr|exact H|constructor].
  apply cm_reference_step_row.
Qed.

Lemma a_parts_reference_rows_facts df cat t :
  ReferenceDBCreator._create_a_parts_reference_db df cat = Ok t ->
  Forall (fun r => exists row,
            In row (skipn 1 df)
            /\ (apr_part_number r = part_number_of row
                /\ a_parts_reference_row_ok cat r
                /\ a_parts_reference_row_trimmed r)) t.
Proof.
  intros H. unfold ReferenceDBCreator._create_a_parts_reference_db in H.
  eapply appending_loop; [|intros row Hr; exact Hr|exact H|constructor].
  apply a_parts_reference_step_row.
Qed.

(** X7. Every row of the CM reference table has a valid part number
    classified CM and carries the box code, box name and storage location
    of the catalog entry found for it; every row of the A-parts table has
    a valid part number classified A_PARTS and the storage location and
    rack of its entry.  All their text fields are trimmed, and no part
    number appears in both tables. *)
Theorem reference_rows_are_classified (df : DataFrame)
    (df_cm_master : list CMMasterRow)
    (df_a_parts_master : list APartsMasterRow)
    (cm_table : list CMReferenceRow) (a_table : list APartsReferenceRow) :
  ReferenceDBCreator._create_cm_reference_db df df_cm_master = Ok cm_table ->
  ReferenceDBCreator._create_a_parts_reference_db df df_a_parts_master
    = Ok a_table ->
  Forall (fun r => cm_reference_row_ok df_cm_master r
                   /\ cm_reference_row_trimmed r) cm_table
  /\ Forall (fun r => a_parts_reference_row_ok df_a_parts_master r
                      /\ a_parts_reference_row_trimmed r) a_table
  /\ (forall rc ra,
        In rc cm_table -> In ra a_table ->
        cmr_part_number rc <> apr_part_number ra).
Proof.
  intros Hc Ha.
  apply cm_reference_rows_facts in Hc.
  apply a_parts_reference_rows_facts in Ha.
  split; [|split].
  - eapply Forall_impl; [|exact Hc]. cbn beta.
    intros r (row & _ & _ & H1 & H2). auto.
  - eapply Forall_impl; [|exact Ha]. cbn beta.
    intros r (row & _ & _ & H1 & H2). auto.
  - intros rc ra Hrc Hra E.
    rewrite Forall_forall in Hc, Ha.
    destruct (Hc rc Hrc) as (_ & _ & _ & (_ & Tc & _) & _).
    destruct (Ha ra Hra) as (_ & _ & _ & (_ & Ta & _) & _).
    rewrite E in Tc. congruence.
Qed.

Lemma cm_qualifies_without (pre : list CMMasterRow) (r : CMMasterRow)
    (post : list CMMasterRow) (key : pystr) (row : Series) :
  cmm_part_number r = CStr key ->
  Forall (fun x => cell_eq_str (cmm_part_number x) key = false)
         (pre ++ post) ->
  cm_qualifies (pre ++ post) row
  = cm_qualifies (pre ++ r :: post) row
    && negb (str_eqb (part_number_of row) key).
Proof.
  intros Hr Hu. unfold cm_qualifies.
  destruct (is_valid_part_number (part_number_of row)); [|reflexivity].
  destruct (PartType_eqb (identify_part_type (part_number_of row)) CM);
    [|reflexivity].
  cbn [andb].
  destruct (str_eqb (part_number_of row) key) eqn:E; cbn [negb].
  - apply str_eqb_eq in E. rewrite E, andb_false_r.
    unfold ReferenceDBCreator._find_cm_master.
    apply filter_nil_iff in Hu. rewrite Hu. reflexivity.
  - rewrite andb_true_r.
    unfold ReferenceDBCreator._find_cm_master.
    rewrite (@filter_skip _ _ pre r post); [reflexivity|].
    rewrite Hr. cbn [cell_eq_str]. rewrite str_eqb_sym. exact E.
Qed.

Lemma map_filter_through {A B} (f : A -> B) (q : A -> bool) (p : B -> bool)
    (l : list A) :
  map f (filter (fun x => q x && p (f x)) l) = filter p (map f (filter q l)).
Proof.
  induction l as [|x l IH]; [reflexivity|].
  cbn [filter]. destruct (q x); cbn [andb map filter].
  - destruct (p (f x)); cbn [map]; rewrite IH; reflexivity.
  - exact IH.
Qed.

(** X8. Dropping from the CM catalog a row whose key no other row shares
    removes exactly that part number from the CM reference table: the
    part numbers that remain are the old ones without it, in the same
    order, and they are numbered 1..k anew. *)
Theorem dropping_a_catalog_row (df : DataFrame)
    (pre : list CMMasterRow) (r : CMMasterRow) (post : list CMMasterRow)
    (key : pystr) (before after : list CMReferenceRow) :
  cmm_part_number r = CStr key ->
  Forall (fun x => cell_eq_str (cmm_part_number x) key = false)
         (pre ++ post) ->
  ReferenceDBCreator._create_cm_reference_db df (pre ++ r :: post)
    = Ok before ->
  ReferenceDBCreator._create_cm_reference_db df (pre ++ post) = Ok after ->
  map cmr_part_number after
  = filter (fun pn => negb (str_eqb pn key)) (map cmr_part_number before)
  /\ map cmr_No after = one_to (List.length after).
Proof.
  intros Hr Hu Hb Ha.
  destruct (@numbering_loop _ cmr_No cmr_part_number _ _
              (@cm_reference_step_shape _ (pre ++ r :: post))
              _ _ _ Hb eq_refl) as [_ Pb].
  destruct (@numbering_loop _ cmr_No cmr_part_number _ _
              (@cm_reference_step_shape _ (pre ++ post))
              _ _ _ Ha eq_refl) as [Na Pa].
  split; [|exact Na].
  cbn [map app] in Pa, Pb. rewrite Pa, Pb.
  rewrite <- map_filter_through. f_equal.
  apply filter_ext. intros row. apply cm_qualifies_without; assumption.
Qed.
End ReferenceRows.

(* ================================================================== *)
(** * Further properties: the picking tables *)
(* ================================================================== *)

Lemma format_extract_options (row : Series) :
  format_options (extract_options row OPTION_START_COL)
  = formatted_options_of_row row.
Proof. rewrite format_options_join, extract_options_filter. reflexivity. Qed.

Lemma scan_first (rows : list Series) (part_number : pystr) (row : Series) :
  scan_matrix_rows rows part_number = Ok (Some row) ->
  first_row_with rows part_number row.
Proof.
  induction rows as [|r rows IH]; cbn [scan_matrix_rows]; [discriminate|].
  unfold iloc.
  destruct (nth_error r MATRIX_COLUMNS.PART_NUMBER) as [c|] eqn:E;
    cbn [bind]; [|discriminate].
  destruct (str_eqb (safe_str c) part_number) eqn:S.
  - intros H; injection H as <-. exists [], rows.
    split; [reflexivity|]. split; [|constructor].
    unfold part_number_of. rewrite E. apply str_eqb_eq. exact S.
  - intros H. destruct (IH H) as (before & after & -> & Hp & Hb).
    exists (r :: before), after. split; [reflexivity|]. split; [exact Hp|].
    constructor; [|exact Hb].
    unfold part_number_of. rewrite E. apply str_eqb_neq. exact S.
Qed.

Lemma scan_none (rows : list Series) (part_number : pystr) :
  scan_matrix_rows rows part_number = Ok None ->
  Forall (fun r => part_number_of r <> part_number) rows.
Proof.
  induction rows as [|r rows IH]; cbn [scan_matrix_rows]; [constructor|].
  unfold iloc.
  destruct (nth_error r MATRIX_COLUMNS.PART_NUMBER) as [c|] eqn:E;
    cbn [bind]; [|discriminate].
  destruct (str_eqb (safe_str c) part_number) eqn:S; [discriminate|].
  intros H. constructor; [|exact (IH H)].
  unfold part_number_of. rewrite E. apply str_eqb_neq. exact S.
Qed.

Lemma scan_returns (rows : list Series) (part_number : pystr) :
  Forall (fun r => (MATRIX_COLUMNS.PART_NUMBER < List.length r)%nat) rows ->
  exists found, scan_matrix_rows rows part_number = Ok found.
Proof.
  induction 1 as [|r rows Hr _ IH]; cbn [scan_matrix_rows]; [eauto|].
  unfold iloc.
  destruct (nth_error r MATRIX_COLUMNS.PART_NUMBER) as [c|] eqn:E.
  - cbn [bind]. destruct (str_eqb (safe_str c) part_number); eauto.
  - apply nth_error_None in E. lia.
Qed.

Lemma first_row_in_matrix (df : DataFrame) (part_number : pystr)
    (row : Series) :
  first_row_with (skipn 1 df) part_number row ->
  in_matrix df part_number = true.
Proof.
  intros (before & after & E & Hp & _). unfold in_matrix.
  apply existsb_exists. exists row. split.
  - rewrite E. apply in_elt.
  - apply str_eqb_eq. exact Hp.
Qed.

Lemma no_row_not_in_matrix (df : DataFrame) (part_number : pystr) :
  Forall (fun r => part_number_of r <> part_number) (skipn 1 df) ->
  in_matrix df part_number = false.
Proof.
  intros H. unfold in_matrix.
  destruct (existsb _ (skipn 1 df)) eqn:E; [|reflexivity].
  apply existsb_exists in E. destruct E as (row & Hin & He).
  rewrite Forall_forall in H. apply str_eqb_eq in He.
  exfalso. exact (H row Hin He).
Qed.

(** A loop over reference rows that skips the rows [keep] rejects and
    appends, for each other row, one row numbered [len + 1]. *)
Lemma keeping_loop {Ref Row} (no : Row -> Z) (keep : Ref -> bool)
    (Q : Ref -> Row -> Prop) (step : list Row -> Ref -> result (list Row)) :
  (forall acc ref acc',
      step acc ref = Ok acc' ->
      if keep ref
      then exists p, acc' = acc ++ [p]
                     /\ no p = Z.of_nat (List.length acc) + 1
                     /\ Q ref p
      else acc' = acc) ->
  forall refs acc t,
    for_each step refs acc = Ok t ->
    exists new,
      t = acc ++ new
      /\ Forall2 Q (filter keep refs) new
      /\ (map no acc = one_to (List.length acc) ->
          map no t = one_to (List.length t)).
Proof.
  intros Hstep refs; induction refs as [|ref refs IH]; intros acc t;
    cbn [for_each filter].
  - intros H; injection H as <-. exists []. rewrite app_nil_r.
    split; [reflexivity|]. split; [constructor | auto].
  - destruct (step acc ref) as [acc'|e] eqn:E; cbn [bind]; [|discriminate].
    intros Ht. apply Hstep in E. destruct (keep ref).
    + destruct E as (p & -> & Hno & HQ).
      destruct (IH _ _ Ht) as (new & -> & F & N).
      exists (p :: new). rewrite <- app_assoc. split; [reflexivity|].
      split; [constructor; assumption|].
      intros Hacc. rewrite <- app_assoc in N. apply N.
      apply numbered_snoc; assumption.
    + subst acc'. exact (IH _ _ Ht).
Qed.

Lemma Forall2_with_left {A B} (P : A -> Prop) (Q : A -> B -> Prop)
    (l1 : list A) (l2 : list B) :
  Forall P l1 -> Forall2 Q l1 l2 -> Forall2 (fun a b => P a /\ Q a b) l1 l2.
Proof.
  intros HP HQ; induction HQ as [|a b l1 l2 H _ IH]; [constructor|].
  inversion HP; subst. constructor; auto.
Qed.

Lemma Forall2_with_maps {A B C} (f : A -> C) (g : B -> C)
    (Q : A -> B -> Prop) (l1 : list A) (l2 : list B) :
  Forall2 Q l1 l2 -> map g l2 = map f l1 ->
  Forall2 (fun a b => g b = f a /\ Q a b) l1 l2.
Proof.
  intros HQ; induction HQ as [|a b l1 l2 H _ IH]; [constructor|].
  cbn [map]. intros E. injection E as E1 E2. constructor; auto.
Qed.

Lemma filter_all {A} (p : A -> bool) (l : list A) :
  Forall (fun x => p x = true) l -> filter p l = l.
Proof.
  induction 1 as [|x l Hx _ IH]; [reflexivity|].
  cbn [filter]. rewrite Hx, IH. reflexivity.
Qed.

Section Picking.
Context {rt : PyRuntime}.

(** X9. The matrix lookup of the picking builders returns the first
    data row whose trimmed part-number cell equals the part number and
    nothing when no data row has it; it returns whenever every data row
    reaches the part-number column, and both builders look up alike. *)
Theorem find_matrix_row_first_match (df : DataFrame) (part_number : pystr) :
  (forall row,
      CMPickingProcessor._find_matrix_row df part_number = Ok (Some row) ->
      first_row_with (skipn 1 df) part_number row)
  /\ (CMPickingProcessor._find_matrix_row df part_number = Ok None ->
      Forall (fun r => part_number_of r <> part_number) (skipn 1 df))
  /\ (Forall (fun r => (MATRIX_COLUMNS.PART_NUMBER < List.length r)%nat)
             (skipn 1 df) ->
      exists found,
        CMPickingProcessor._find_matrix_row df part_number = Ok found)
  /\ APartsPickingProcessor._find_matrix_row df part_number
     = CMPickingProcessor._find_matrix_row df part_number.
Proof.
  unfold CMPickingProcessor._find_matrix_row,
    APartsPickingProcessor._find_matrix_row.
  split; [|split; [|split]].
  - intros row. apply scan_first.
  - apply scan_none.
  - apply scan_returns.
  - reflexivity.
Qed.

Lemma cm_picking_step_shape df acc ref acc' :
  CMPickingProcessor.picking_step df acc ref = Ok acc' ->
  if in_matrix df (strip (cmr_part_number ref))
  then exists p, acc' = acc ++ [p]
                 /\ cmp_no p = Z.of_nat (List.length acc) + 1
                 /\ cm_picking_row_from df ref p
  else acc' = acc.
Proof.
  unfold CMPickingProcessor.picking_step, CMPickingProcessor._find_matrix_row.
  cbn [safe_str].
  destruct (scan_matrix_rows (skipn 1 df) (strip (cmr_part_number ref)))
    as [[row|]|e] eqn:S; cbn [bind]; [| |discriminate].
  - apply scan_first in S. rewrite (@first_row_in_matrix _ _ _ S).
    unfold CMPickingProcessor._create_picking_row.
    next_iloc.
    destruct (safe_int c) as [q|e] eqn:Q; cbn [bind]; [|discriminate].
    intros H; injection H as <-. eexists. split; [reflexivity|].
    split; [reflexivity|].
    exists row, c. cbn [safe_str].
    split; [exact S|]. split; [exact E|]. split; [exact Q|].
    split; [apply format_extract_options|]. repeat split.
  - apply scan_none in S. rewrite (@no_row_not_in_matrix _ _ S).
    intros H; injection H; auto.
Qed.

Lemma a_parts_picking_step_shape df ps vs ref ps' vs' :
  APartsPickingProcessor.picking_step df (ps, vs) ref = Ok (ps', vs') ->
  if in_matrix df (strip (apr_part_number ref))
  then exists p, ps' = ps ++ [p]
                 /\ ap_no p = Z.of_nat (List.length ps) + 1
                 /\ a_parts_picking_row_from df ref p
  else ps' = ps.
Proof.
  unfold APartsPickingProcessor.picking_step,
    APartsPickingProcessor._find_matrix_row.
  cbn [safe_str].
  destruct (scan_matrix_rows (skipn 1 df) (strip (apr_part_number ref)))
    as [[row|]|e] eqn:S; cbn [bind]; [| |discriminate].
  - apply scan_first in S. rewrite (@first_row_in_matrix _ _ _ S).
    unfold APartsPickingProcessor._create_picking_row.
    destruct (safe_int (CInt (apr_quantity_per_box ref))) as [b|e] eqn:B;
      cbn [bind]; [|discriminate].
    next_iloc.
    destruct (safe_int c) as [q|e] eqn:Q; cbn [bind]; [|discriminate].
    intros H; injection H as <- _. eexists. split; [reflexivity|].
    split; [reflexivity|].
    exists row, c. cbn [safe_str].
    split; [exact S|]. split; [exact E|]. split; [exact Q|].
    split; [exact B|]. split; [reflexivity|].
    split; [apply format_extract_options|]. repeat split.
  - apply scan_none in S. rewrite (@no_row_not_in_matrix _ _ S).
    intros H; injection H; auto.
Qed.

Lemma a_parts_keeping_loop df refs :
  forall ps vs ps' vs',
    for_each (APartsPickingProcessor.picking_step df) refs (ps, vs)
      = Ok (ps', vs') ->
    exists new,
      ps' = ps ++ new
      /\ Forall2 (a_parts_picking_row_from df)
           (filter (fun r => in_matrix df (strip (apr_part_number r))) refs)
           new
      /\ (map ap_no ps = one_to (List.length ps) ->
          map ap_no ps' = one_to (List.length ps')).
Proof.
  induction refs as [|ref refs IH]; intros ps vs ps' vs';
    cbn [for_each filter].
  - intros H; injection H as <- <-. exists []. rewrite app_nil_r.
    split; [reflexivity|]. split; [constructor | auto].
  - destruct (APartsPickingProcessor.picking_step df (ps, vs) ref)
      as [[ps1 vs1]|e] eqn:E; cbn [bind]; [|discriminate].
    intros Ht. apply a_parts_picking_step_shape in E.
    destruct (in_matrix df (strip (apr_part_number ref))).
    + destruct E as (p & -> & Hno & HQ).
      destruct (IH _ _ _ _ Ht) as (new & -> & F & N).
      exists (p :: new). rewrite <- app_assoc. split; [reflexivity|].
      split; [constructor; assumption|].
      intros Hacc. rewrite <- app_assoc in N. apply N.
      apply numbered_snoc; assumption.
    + subst ps1. exact (IH _ _ _ _ Ht).
Qed.

(** X10. The CM picking table numbers its rows 1..k; it has one row for
    each reference row whose part number some data row of the matrix
    carries, in order, and skips the others.  Each row takes its text
    fields from the reference row and its quantity and options from the
    first data row with that part number.  The only error the builder
    lets out is a ProcessingError. *)
Theorem cm_picking_rows (df : DataFrame)
    (df_cm_reference : list CMReferenceRow) :
  (forall picking,
      CMPickingProcessor.create_cm_picking df df_cm_reference = Ok picking ->
      map cmp_no picking = one_to (List.length picking)
      /\ Forall2 (cm_picking_row_from df)
           (filter (fun r => in_matrix df (strip (cmr_part_number r)))
                   df_cm_reference)
           picking)
  /\ (forall e,
        CMPickingProcessor.create_cm_picking df df_cm_reference = Raise e ->
        exn_cls e = ProcessingError).
Proof.
  unfold CMPickingProcessor.create_cm_picking, try_except. split.
  - intros picking.
    destruct (for_each (CMPickingProcessor.picking_step df) df_cm_reference [])
      as [t|e] eqn:E; [|discriminate].
    intros H; injection H as <-.
    destruct (@keeping_loop _ _ cmp_no _ _ _
                (@cm_picking_step_shape df) _ _ _ E) as (new & -> & F & N).
    split; [apply N; reflexivity | exact F].
  - intros e.
    destruct (for_each (CMPickingProcessor.picking_step df) df_cm_reference []);
      [discriminate|].
    intros H; injection H as <-. reflexivity.
Qed.

(** X11. The A-parts picking table and its validation table have the
    same number of rows, both numbered 1..k; the picking table has one
    row for each reference row whose part number the matrix carries,
    with quantity and options from the first such data row and boxes
    computed from them.  The only error the builder lets out is a
    ProcessingError. *)
Theorem a_parts_picking_rows (df : DataFrame)
    (df_a_reference : list APartsReferenceRow) :
  (forall picking validation_rows,
      APartsPickingProcessor.create_a_parts_picking df df_a_reference
        = Ok (picking, validation_rows) ->
      map ap_no picking = one_to (List.length picking)
      /\ map v_No validation_rows = one_to (List.length validation_rows)
      /\ List.length validation_rows = List.length picking
      /\ Forall2 (a_parts_picking_row_from df)
           (filter (fun r => in_matrix df (strip (apr_part_number r)))
                   df_a_reference)
           picking)
  /\ (forall e,
        APartsPickingProcessor.create_a_parts_picking df df_a_reference
          = Raise e ->
        exn_cls e = ProcessingError).
Proof.
  unfold APartsPickingProcessor.create_a_parts_picking, try_except. split.
  - intros picking validation_rows.
    destruct (for_each (APartsPickingProcessor.picking_step df)
                df_a_reference ([], [])) as [[ps vs]|e] eqn:E; [|discriminate].
    intros H; injection H as <- <-.
    destruct (@a_parts_keeping_loop df _ _ _ _ _ E) as (new & -> & F & N).
    assert (P : Forall2 paired ([] ++ new) vs)
      by (eapply picking_loop_paired; [exact E | constructor]).
    assert (V : map v_No vs = map ap_no ([] ++ new)).
    { clear -P. induction P as [|p v ps vs [_ [row ->]] _ IH];
        [reflexivity|].
      cbn [map]. rewrite IH. reflexivity. }
    assert (L : List.length vs = List.length ([] ++ new))
      by (symmetry; eapply Forall2_length; exact P).
    split; [apply N; reflexivity|].
    split; [rewrite V, L; apply N; reflexivity|].
    split; [exact L | exact F].
  - intros e.
    destruct (for_each (APartsPickingProcessor.picking_step df)
                df_a_reference ([], [])); [discriminate|].
    intros H; injection H as <-. reflexivity.
Qed.

(** X12. In the A-parts validation table the verdict is NG exactly for
    the rows whose box quantity is zero or negative while the required
    quantity is positive; with a positive box quantity the verdict is
    always OK and the surplus is less than one box. *)
Theorem validation_ng_only_without_box_quantity (df : DataFrame)
    (df_a_reference : list APartsReferenceRow)
    (picking : list APartsPickingRow) (validation_rows : list ValidationRow) :
  APartsPickingProcessor.create_a_parts_picking df df_a_reference
    = Ok (picking, validation_rows) ->
  Forall2
    (fun p v =>
       (v_verdict v = lit "NG"
        <-> ap_quantity_per_box p <= 0 /\ 0 < ap_quantity p)
       /\ (0 < ap_quantity_per_box p ->
           v_verdict v = lit "OK"
           /\ 0 <= v_difference v < ap_quantity_per_box p))
    picking validation_rows.
Proof.
  unfold APartsPickingProcessor.create_a_parts_picking, try_except.
  destruct (for_each _ df_a_reference ([], [])) as [[ps vs]|e] eqn:E;
    [|discriminate].
  intros H; injection H as <- <-.
  assert (F : Forall2 paired ps vs)
    by (eapply picking_loop_paired; [exact E | constructor]).
  revert F. apply Forall2_impl. intros p v [Hb [row ->]].
  unfold APartsPickingProcessor._create_validation_row.
  cbn [v_verdict v_difference].
  set (d := ap_required_boxes p * ap_quantity_per_box p - ap_quantity p).
  assert (D1 : 0 < ap_quantity_per_box p -> 0 <= d < ap_quantity_per_box p).
  { intros Hp. subst d. rewrite Hb.
    pose proof (@required_boxes_bounds (ap_quantity p) _ Hp). lia. }
  assert (D2 : ap_quantity_per_box p <= 0 -> d = - ap_quantity p).
  { intros Hp. subst d. rewrite Hb. unfold calculate_required_boxes.
    destruct (Z.leb_spec (ap_quantity_per_box p) 0); lia. }
  destruct (Z.leb_spec 0 d) as [P|P].
  - split.
    + split; [intros X; discriminate X|].
      intros [A B]. specialize (D2 A). lia.
    + intros Hp. split; [reflexivity | exact (D1 Hp)].
  - split.
    + split; [|reflexivity]. intros _.
      destruct (Z.leb_spec (ap_quantity_per_box p) 0) as [A|A].
      * specialize (D2 A). lia.
      * specialize (D1 A). lia.
    + intros Hp. specialize (D1 Hp). lia.
Qed.

(** A builder that returns has run its loop to the end. *)
Lemma create_cm_picking_ok (df : DataFrame)
    (df_cm_reference : list CMReferenceRow) (picking : list CMPickingRow) :
  CMPickingProcessor.create_cm_picking df df_cm_reference = Ok picking ->
  for_each (CMPickingProcessor.picking_step df) df_cm_reference []
  = Ok picking.
Proof.
  unfold CMPickingProcessor.create_cm_picking, try_except.
  destruct (for_each _ df_cm_reference []); [trivial | discriminate].
Qed.

Lemma create_a_parts_picking_ok (df : DataFrame)
    (df_a_reference : list APartsReferenceRow)
    (tables : list APartsPickingRow * list ValidationRow) :
  APartsPickingProcessor.create_a_parts_picking df df_a_reference
    = Ok tables ->
  for_each (APartsPickingProcessor.picking_step df) df_a_reference ([], [])
  = Ok tables.
Proof.
  unfold APartsPickingProcessor.create_a_parts_picking, try_except.
  destruct (for_each _ df_a_reference ([], [])); [trivial | discriminate].
Qed.

(** The CM picking loop skips no CM reference row built from the same
    matrix. *)
Lemma cm_picking_loop_keeps_all (df : DataFrame)
    (df_cm_master : list CMMasterRow)
    (df_cm_reference : list CMReferenceRow) (picking : list CMPickingRow) :
  ReferenceDBCreator._create_cm_reference_db df df_cm_master
    = Ok df_cm_reference ->
  for_each (CMPickingProcessor.picking_step df) df_cm_reference []
    = Ok picking ->
  Forall2 cm_picking_mirrors df_cm_reference picking.
Proof.
  intros Hr E.
  pose proof (@cm_reference_rows_facts _ _ _ _ Hr) as Facts.
  destruct (@numbering_loop _ cmr_No cmr_part_number _ _
              (@cm_reference_step_shape _ df_cm_master)
              _ _ _ Hr eq_refl) as [Nr _].
  destruct (@keeping_loop _ _ cmp_no _ _ _
              (@cm_picking_step_shape df) _ _ _ E) as (new & -> & F & N).
  cbn [app] in *. specialize (N eq_refl).
  rewrite filter_all in F.
  2:{ eapply Forall_impl; [|exact Facts]. cbn beta.
      intros r (row & Hin & Hpn & _ & Tr).
      destruct Tr as (_ & _ & T & _). rewrite T.
      unfold in_matrix. apply existsb_exists. exists row.
      split; [exact Hin|]. apply str_eqb_eq. symmetry. exact Hpn. }
  assert (Tr : Forall cm_reference_row_trimmed df_cm_reference).
  { eapply Forall_impl; [|exact Facts]. cbn beta.
    intros r (row & _ & _ & _ & T). exact T. }
  assert (Nos : map cmp_no new = map cmr_No df_cm_reference).
  { rewrite N, Nr. f_equal. symmetry. eapply Forall2_length. exact F. }
  pose proof (@Forall2_with_left _ _ _ _ _ _ Tr
                (@Forall2_with_maps _ _ _ cmr_No cmp_no _ _ _ F Nos)) as G.
  revert G. apply Forall2_impl.
  intros r p ((T1 & T2 & T3 & T4 & T5 & T6 & T7 & T8) & Hno & row & c & Q).
  destruct Q as (_ & _ & _ & _ & Q1 & Q2 & Q3 & Q4 & Q5 & Q6 & Q7 & Q8).
  unfold cm_picking_mirrors.
  rewrite Hno, Q1, Q2, Q3, Q4, Q5, Q6, Q7, Q8, T1, T2, T3, T4, T5, T6, T7, T8.
  auto 10.
Qed.

(** The A-parts picking loop skips no A-parts reference row built from
    the same matrix. *)
Lemma a_parts_picking_loop_keeps_all (df : DataFrame)
    (df_a_parts_master : list APartsMasterRow)
    (df_a_reference : list APartsReferenceRow)
    (picking : list APartsPickingRow) (validation_rows : list ValidationRow) :
  ReferenceDBCreator._create_a_parts_reference_db df df_a_parts_master
    = Ok df_a_reference ->
  for_each (APartsPickingProcessor.picking_step df) df_a_reference ([], [])
    = Ok (picking, validation_rows) ->
  Forall2 a_parts_picking_mirrors df_a_reference picking.
Proof.
  intros Hr E.
  pose proof (@a_parts_reference_rows_facts _ _ _ _ Hr) as Facts.
  destruct (@numbering_loop _ apr_No apr_part_number _ _
              (@a_parts_reference_step_shape _ df_a_parts_master)
              _ _ _ Hr eq_refl) as [Nr _].
  destruct (@a_parts_keeping_loop df _ _ _ _ _ E) as (new & -> & F & N).
  cbn [app] in *. specialize (N eq_refl).
  rewrite filter_all in F.
  2:{ eapply Forall_impl; [|exact Facts]. cbn beta.
      intros r (row & Hin & Hpn & _ & Tr).
      destruct Tr as (_ & _ & T & _). rewrite T.
      unfold in_matrix. apply existsb_exists. exists row.
      split; [exact Hin|]. apply str_eqb_eq. symmetry. exact Hpn. }
  assert (Tr : Forall a_parts_reference_row_trimmed df_a_reference).
  { eapply Forall_impl; [|exact Facts]. cbn beta.
    intros r (row & _ & _ & _ & T). exact T. }
  assert (Nos : map ap_no new = map apr_No df_a_reference).
  { rewrite N, Nr. f_equal. symmetry. eapply Forall2_length. exact F. }
  pose proof (@Forall2_with_left _ _ _ _ _ _ Tr
                (@Forall2_with_maps _ _ _ apr_No ap_no _ _ _ F Nos)) as G.
  revert G. apply Forall2_impl.
  intros r p ((T1 & T2 & T3 & T4 & T5 & T6 & T7) & Hno & row & c & Q).
  destruct Q as (_ & _ & _ & B & _ & _ & Q1 & Q2 & Q3 & Q4 & Q5 & Q6).
  unfold a_parts_picking_mirrors.
  rewrite Hno, Q1, Q2, Q3, Q4, Q5, Q6, T1, T2, T3, T4, T5, T6.
  cbn [safe_int] in B. rewrite T7 in B. cbn [of_conv] in B.
  injection B as <-. auto 10.
Qed.
(** X13. When the CM reference table was built from the same matrix, no
    reference row is skipped: the CM picking table has as many rows, in
    the same order and with the same numbers, and each picking row
    carries the fields of its reference row unchanged. *)
Theorem cm_picking_mirrors_reference (df : DataFrame)
    (df_cm_master : list CMMasterRow)
    (df_cm_reference : list CMReferenceRow) (picking : list CMPickingRow) :
  ReferenceDBCreator._create_cm_reference_db df df_cm_master
    = Ok df_cm_reference ->
  CMPickingProcessor.create_cm_picking df df_cm_reference = Ok picking ->
  Forall2 cm_picking_mirrors df_cm_reference picking.
Proof.
  intros Hr Hp. apply create_cm_picking_ok in Hp.
  eapply cm_picking_loop_keeps_all; [exact Hr | exact Hp].
Qed.

(** X14. When the A-parts reference table was built from the same
    matrix, no reference row is skipped: the A-parts picking table has
    as many rows, in the same order and with the same numbers, and each
    picking row carries the fields of its reference row, the box
    quantity included, unchanged. *)
Theorem a_parts_picking_mirrors_reference (df : DataFrame)
    (df_a_parts_master : list APartsMasterRow)
    (df_a_reference : list APartsReferenceRow)
    (picking : list APartsPickingRow) (validation_rows : list ValidationRow) :
  ReferenceDBCreator._create_a_parts_reference_db df df_a_parts_master
    = Ok df_a_reference ->
  APartsPickingProcessor.create_a_parts_picking df df_a_reference
    = Ok (picking, validation_rows) ->
  Forall2 a_parts_picking_mirrors df_a_reference picking.
Proof.
  intros Hr Hp. apply create_a_parts_picking_ok in Hp.
  eapply a_parts_picking_loop_keeps_all; [exact Hr | exact Hp].
Qed.
End Picking.

(* ================================================================== *)
(** * Further properties: the legacy sheet *)
(* ================================================================== *)

Lemma for_each_invariant {A S} (I : S -> Prop) (step : S -> A -> result S) :
  (forall s x s', I s -> step s x = Ok s' -> I s') ->
  forall xs s t, for_each step xs s = Ok t -> I s -> I t.
Proof.
  intros Hstep xs; induction xs as [|x xs IH]; intros s t; cbn [for_each].
  - intros H; injection H as <-. auto.
  - destruct (step s x) as [s'|e] eqn:E; cbn [bind]; [|discriminate].
    intros Ht Hs. eapply IH; [exact Ht|]. eapply Hstep; eassumption.
Qed.

Section LegacySheet.
Context {rt : PyRuntime}.

Lemma collect_system_rows_shared clock cm a rows :
  System720Generator.collect_system_rows clock cm a = Ok rows ->
  Forall (shared_fields clock) rows.
Proof.
  unfold System720Generator.collect_system_rows.
  destruct (for_each (System720Generator.cm_step clock) cm ([], 1))
    as [st|e] eqn:E1; cbn [bind]; [|discriminate].
  assert (I1 : Forall (shared_fields clock) (fst st)).
  { eapply (@for_each_invariant _ _
              (fun st => Forall (shared_fields clock) (fst st)));
      [|exact E1|constructor].
    intros [acc n] row s'. cbn [fst]. intros Hacc.
    unfold System720Generator.cm_step.
    destruct (safe_int (CInt (cmp_quantity row))); cbn [bind];
      [|discriminate].
    intros H; injection H as <-. cbn [fst].
    apply Forall_app. split; [exact Hacc|]. constructor; [|constructor].
    repeat split. }
  assert (I2 : forall rows' st',
             for_each (System720Generator.a_parts_step clock) rows' st
               = Ok st' ->
             Forall (shared_fields clock) (fst st')).
  { intros rows' st' E2.
    eapply (@for_each_invariant _ _
              (fun st => Forall (shared_fields clock) (fst st)));
      [|exact E2|exact I1].
    intros [acc n] row s'. cbn [fst]. intros Hacc.
    unfold System720Generator.a_parts_step.
    destruct (safe_int (CInt (ap_quantity row))); cbn [bind];
      [|discriminate].
    intros H; injection H as <-. cbn [fst].
    apply Forall_app. split; [exact Hacc|]. constructor; [|constructor].
    repeat split. }
  destruct a as [[|r a]|]; cbn [bind].
  - intros H; injection H as <-. exact I1.
  - destruct (for_each (System720Generator.a_parts_step clock) (r :: a) st)
      as [st'|e] eqn:E2; cbn [bind]; [|discriminate].
    intros H; injection H as <-. exact (I2 _ _ E2).
  - intros H; injection H as <-. exact I1.
Qed.

(** X15. The sheet the generator returns is titled with the configured
    sheet name and starts with the seven configured column headers; it
    has one row per CM picking row and per A-parts picking row after the
    header, every row seven cells wide.  All lines share one document
    number, today's date followed by -001, one unit and one delivery
    date.  The only error the generator lets out is an OutputError. *)
Theorem legacy_sheet_shape (clock : Clock)
    (df_cm_picking : list CMPickingRow)
    (df_a_parts_picking : option (list APartsPickingRow)) :
  (forall wb,
      System720Generator.generate clock df_cm_picking df_a_parts_picking
        = Ok wb ->
      sheet_title wb = SHEET_720
      /\ hd [] (sheet_rows wb) = map WStr SYSTEM_720_columns
      /\ List.length (sheet_rows wb)
         = (1 + List.length df_cm_picking
            + List.length (rows_of df_a_parts_picking))%nat
      /\ Forall (fun r => List.length r = 7%nat) (sheet_rows wb)
      /\ Forall (fun r =>
                   nth 0 r (WInt 0)
                     = WStr (today_yyyymmdd clock ++ lit "-001")
                   /\ nth 4 r (WInt 0) = WStr UNIT_KO
                   /\ nth 5 r (WInt 0) = WStr (in_seven_days clock))
                (tl (sheet_rows wb)))
  /\ (forall e,
        System720Generator.generate clock df_cm_picking df_a_parts_picking
          = Raise e ->
        exn_cls e = OutputError).
Proof.
  unfold System720Generator.generate, try_except. split.
  - intros wb.
    destruct (System720Generator.collect_system_rows clock df_cm_picking
                df_a_parts_picking) as [rows|e] eqn:E; cbn [bind];
      [|discriminate].
    intros H; injection H as <-.
    pose proof (@collect_system_rows_shared _ _ _ _ E) as Sh.
    destruct (@collect_system_rows_numbers _ _ _ _ _ E) as [L _].
    apply (f_equal (@List.length Z)) in L.
    unfold one_to in L. rewrite !length_map, length_seq in L.
    cbn [System720Generator._create_workbook sheet_title sheet_rows hd tl].
    split; [reflexivity|]. split; [reflexivity|].
    split; [cbn [List.length]; rewrite length_map; lia|].
    split.
    + constructor; [reflexivity|].
      apply Forall_map. apply Forall_forall. reflexivity.
    + apply Forall_map. eapply Forall_impl; [|exact Sh].
      intros r (S1 & S2 & S3). cbn [System720Generator.to_list nth].
      rewrite S1, S2, S3. auto.
  - intros e.
    destruct (System720Generator.collect_system_rows clock df_cm_picking
                df_a_parts_picking); cbn [bind]; [discriminate|].
    intros H; injection H as <-. reflexivity.
Qed.
End LegacySheet.

(* ================================================================== *)
(** * Further properties: validation results and runs (main.py) *)
(* ================================================================== *)

Lemma snoc_not_nil {A} (l : list A) (x : A) : l ++ [x] <> [].
Proof. destruct l; discriminate. Qed.

Lemma valid_iff_no_errors (input : File DataFrame) :
  let v := validation (PickingSystemMain._validate_input_file input) in
  (is_valid v = true <-> errors v = [])
  /\ (is_valid v = false -> warnings v = [])
  /\ (List.length (warnings v) <= 1)%nat.
Proof.
  cbn zeta.
  unfold PickingSystemMain._validate_input_file,
    PickingSystemMain.validation_failed, file_exists, safe_read_excel.
  destruct (file_on_disk input) as [|err|df]; cbn [negb].
  - cbn. repeat split; try discriminate; auto.
  - cbn. repeat split; try discriminate; auto.
  - destruct (List.length df <? 2)%nat.
    { cbn. repeat split; try discriminate; auto. }
    destruct (PickingSystemMain.check_headers _ _ _) as [errs [e|]].
    { cbn [validation is_valid errors warnings List.length].
      repeat split; try discriminate; auto.
      intros H. exfalso. exact (@snoc_not_nil _ _ _ H). }
    destruct errs as [|e0 errs]; cbn [negb].
    2:{ cbn [validation is_valid errors warnings List.length].
        repeat split; try discriminate; auto. }
    destruct (iloc2 df 1 MATRIX_COLUMNS.PART_NUMBER) as [c|e].
    2:{ cbn. repeat split; try discriminate; auto. }
    destruct (is_empty (safe_str c)).
    { cbn. repeat split; try discriminate; auto. }
    cbn [validation is_valid errors warnings].
    repeat split; try discriminate; auto.
    destruct (negb _); cbn; lia.
Qed.

(** X16. Validation never raises and its result is consistent: it is
    valid exactly when it lists no error, an invalid result carries no
    warning, and there is at most one warning.  A missing input file is
    reported as one error naming the path, and an unreadable one as one
    error quoting the reader's message. *)
Theorem validation_result_is_consistent (input : File DataFrame) :
  let v := validation (PickingSystemMain._validate_input_file input) in
  (is_valid v = true <-> errors v = [])
  /\ (is_valid v = false -> warnings v = [])
  /\ (List.length (warnings v) <= 1)%nat
  /\ (file_on_disk input = Missing ->
      errors v = [MSG_FILE_MISSING ++ file_path input])
  /\ (forall err,
        file_on_disk input = Unreadable err ->
        errors v = [MSG_VALIDATE_ERROR ++ MSG_READ_ERROR ++ err]).
Proof.
  cbn zeta. destruct (valid_iff_no_errors input) as (H1 & H2 & H3).
  split; [exact H1|]. split; [exact H2|]. split; [exact H3|].
  unfold PickingSystemMain._validate_input_file,
    PickingSystemMain.validation_failed, file_exists, safe_read_excel.
  split.
  - intros ->. reflexivity.
  - intros err ->. reflexivity.
Qed.

(** X17. On a valid input the file name is cross-checked against the
    frame part number: the result carries a warning exactly when the
    first 10 characters of the file's base name differ from the first 10
    characters of the frame part number, and the warning never makes the
    result invalid. *)
Theorem file_name_warning (input : File DataFrame) :
  let v := PickingSystemMain._validate_input_file input in
  is_valid (validation v) = true ->
  exists frame,
    frame_part_number v = Some frame
    /\ (warnings (validation v) = []
        <-> firstn 10 (file_stem input) = firstn 10 frame).
Proof.
  cbn zeta.
  unfold PickingSystemMain._validate_input_file,
    PickingSystemMain.validation_failed, file_exists, safe_read_excel.
  destruct (file_on_disk input) as [|err|df]; cbn [negb]; try discriminate.
  destruct (List.length df <? 2)%nat; [discriminate|].
  destruct (PickingSystemMain.check_headers _ _ _) as [errs [e|]];
    [discriminate|].
  destruct (negb match errs with [] => true | _ => false end);
    [discriminate|].
  destruct (iloc2 df 1 MATRIX_COLUMNS.PART_NUMBER) as [c|e]; [|discriminate].
  destruct (is_empty (safe_str c)); [discriminate|].
  intros _. exists (safe_str c). split; [reflexivity|].
  cbn [validation warnings].
  assert (P : forall s : pystr,
             (if 10 <=? len s then prefix 10 s else s) = firstn 10 s).
  { intros s. unfold prefix, len.
    destruct (Z.leb_spec 10 (Z.of_nat (List.length s))); [reflexivity|].
    symmetry. apply firstn_all2. lia. }
  rewrite !P.
  destruct (str_eqb (firstn 10 (file_stem input)) (firstn 10 (safe_str c)))
    eqn:E; cbn [negb].
  - apply str_eqb_eq in E. split; auto.
  - apply str_eqb_neq in E. split; [intros H|intros H; contradiction].
    exfalso. exact (@snoc_not_nil _ _ _ H).
Qed.

Section Runs.
Context {rt : PyRuntime}.








(** What a successful run hands to the workbook writer. *)
Lemma stages_saved env process_line df res saved :
  PickingSystemMain.stages env process_line df = Ok (res, saved) ->
  saved_matrix saved = df
  /\ cm_picking_count res = Z.of_nat (List.length (saved_cm_picking saved))
  /\ a_parts_picking_count res
     = Z.of_nat (List.length (rows_of (saved_a_picking saved)))
  /\ saved_a_reference saved <> Some []
  /\ saved_a_picking saved <> Some []
  /\ saved_a_validation saved <> Some []
  /\ (process_line = C_LINE ->
      saved_a_reference saved = None /\ saved_a_picking saved = None
      /\ saved_a_validation saved = None /\ a_parts_picking_count res = 0)
  /\ exists sheet,
       saved_720 saved = Some sheet
       /\ List.length sheet
          = (1 + List.length (saved_cm_picking saved)
             + List.length (rows_of (saved_a_picking saved)))%nat.
Proof.
  unfold PickingSystemMain.stages.
  destruct (ReferenceDBCreator.create_reference_dbs df _ _)
    as [[cmr ar]|e0]; cbn [bind]; [|discriminate].
  destruct (CMPickingProcessor.create_cm_picking df cmr) as [cmp|e0];
    cbn [bind]; [|discriminate].
  assert (G : forall a wb,
             System720Generator.generate (clock env) cmp a = Ok wb ->
             exists sheet,
               PickingSystemMain.if_not_empty (Some (sheet_rows wb))
                 = Some sheet
               /\ List.length sheet
                  = (1 + List.length cmp + List.length (rows_of a))%nat).
  { intros a wb H.
    unfold System720Generator.generate, try_except in H.
    destruct (System720Generator.collect_system_rows (clock env) cmp a)
      as [rows|e] eqn:E; cbn [bind] in H; [|discriminate].
    injection H as <-.
    destruct (@collect_system_rows_numbers _ _ _ _ _ E) as [L _].
    apply (f_equal (@List.length Z)) in L.
    unfold one_to in L. rewrite !length_map, length_seq in L.
    cbn [System720Generator._create_workbook sheet_rows
           PickingSystemMain.if_not_empty].
    eexists. split; [reflexivity|].
    cbn [List.length]. rewrite length_map. lia. }
  destruct process_line.
  - destruct (APartsPickingProcessor.create_a_parts_picking df ar)
      as [[ps vs]|e0]; cbn [bind fst snd]; [|discriminate].
    destruct (System720Generator.generate (clock env) cmp (Some ps))
      as [wb|e0] eqn:W; cbn [bind]; [|discriminate].
    intros H; injection H as <- <-.
    cbn [PickingSystemMain._save_results saved_matrix saved_cm_picking
           saved_a_picking saved_a_reference saved_a_validation saved_720
           cm_picking_count a_parts_picking_count].
    destruct (G _ _ W) as (sheet & Hs & Hl). cbn [rows_of] in Hl.
    repeat split; try discriminate.
    + destruct ps; reflexivity.
    + destruct ar; discriminate.
    + destruct ps; discriminate.
    + destruct vs; discriminate.
    + exists sheet. split; [exact Hs|]. rewrite Hl. destruct ps; reflexivity.
  - cbn [bind].
    destruct (System720Generator.generate (clock env) cmp None)
      as [wb|e0] eqn:W; cbn [bind]; [|discriminate].
    intros H; injection H as <- <-.
    cbn [PickingSystemMain._save_results saved_matrix saved_cm_picking
           saved_a_picking saved_a_reference saved_a_validation saved_720
           cm_picking_count a_parts_picking_count rows_of].
    destruct (G _ _ W) as (sheet & Hs & Hl). cbn [rows_of] in Hl.
    repeat split; try discriminate.
    exists sheet. split; [exact Hs | exact Hl].
Qed.

(** X19. A successful run writes the input matrix unchanged, and the
    counts it reports are the row counts of the CM and A-parts picking
    sheets it writes.  No A-parts sheet is ever written empty, in
    CM-only mode none is written at all and the A-parts count is 0, and
    the legacy sheet has one header row and one line per picking row
    written. *)
Theorem run_writes_what_it_counts (env : Env) (process_line : ProcessLine)
    (res : PickingResult) (saved : SavedWorkbook) :
  PickingSystemMain.run env process_line = (res, Some saved) ->
  file_on_disk (input_file env) = Readable (saved_matrix saved)
  /\ cm_picking_count res = Z.of_nat (List.length (saved_cm_picking saved))
  /\ a_parts_picking_count res
     = Z.of_nat (List.length (rows_of (saved_a_picking saved)))
  /\ saved_a_reference saved <> Some []
  /\ saved_a_picking saved <> Some []
  /\ saved_a_validation saved <> Some []
  /\ (process_line = C_LINE ->
      saved_a_reference saved = None /\ saved_a_picking saved = None
      /\ saved_a_validation saved = None /\ a_parts_picking_count res = 0)
  /\ exists sheet,
       saved_720 saved = Some sheet
       /\ List.length sheet
          = (1 + List.length (saved_cm_picking saved)
             + List.length (rows_of (saved_a_picking saved)))%nat.
Proof.
  unfold PickingSystemMain.run.
  pose proof (@valid_has_matrix (input_file env)) as VM.
  destruct (is_valid (validation
              (PickingSystemMain._validate_input_file (input_file env))));
    cbn [negb]; [|discriminate].
  destruct (VM eq_refl) as (df & -> & Hd).
  destruct (PickingSystemMain.stages env process_line df)
    as [[res' saved']|e] eqn:S; [|discriminate].
  intros H; injection H as <- <-.
  destruct (@stages_saved _ _ _ _ _ S) as (M & Rest).
  split; [rewrite M; exact Hd | exact Rest].
Qed.
End Runs.

(* ================================================================== *)
(** * Further properties: tables with named columns *)
(* ================================================================== *)

Lemma frame_of_dicts_with_fixed_keys {R} (to_dict : R -> pydict)
    (columns : list pystr) (cells : R -> list cell) :
  (forall r, add_keys [] (to_dict r) = columns) ->
  (forall r, add_keys columns (to_dict r) = columns) ->
  (forall r, map (fun k => match dict_get (to_dict r) k with
                           | Some v => v
                           | None => CNaN
                           end) columns = cells r) ->
  forall r rows,
    DataFrame_of_dicts (map to_dict (r :: rows))
    = {| nf_columns := columns; nf_rows := map cells (r :: rows) |}.
Proof.
  intros H0 H1 H2 r rows. unfold DataFrame_of_dicts.
  assert (C : fold_left add_keys (map to_dict (r :: rows)) [] = columns).
  { cbn [map fold_left]. rewrite H0.
    induction rows as [|x rows IH]; [reflexivity|].
    cbn [map fold_left]. rewrite H1. exact IH. }
  rewrite C. f_equal. rewrite map_map. apply map_ext. exact H2.
Qed.

(** X20. The picking and validation frames have the same fixed columns
    whether they are empty or not, in the order of the empty frame's
    column list; row [i] of the frame holds the fields of picking row
    [i], so the part number, quantity and options the legacy generator
    reads by column name are those of the picking row. *)
Theorem frames_have_a_fixed_schema (cm_rows : list CMPickingRow)
    (a_rows : list APartsPickingRow) (v_rows : list ValidationRow) :
  nf_columns (CMPickingProcessor_rows_to_dataframe cm_rows)
    = CM_PICKING_COLUMNS
  /\ nf_columns (APartsPickingProcessor_rows_to_dataframe a_rows)
     = A_PARTS_PICKING_COLUMNS
  /\ nf_columns (APartsPickingProcessor_validation_to_dataframe v_rows)
     = VALIDATION_COLUMNS
  /\ List.length (nf_rows (CMPickingProcessor_rows_to_dataframe cm_rows))
     = List.length cm_rows
  /\ (forall i r,
        nth_error cm_rows i = Some r ->
        let f := CMPickingProcessor_rows_to_dataframe cm_rows in
        frame_get f i HDR_PART_NUMBER = Some (CStr (cmp_part_number r))
        /\ frame_get f i COL_QUANTITY = Some (CInt (cmp_quantity r))
        /\ frame_get f i COL_OPTIONS = Some (CStr (cmp_options r)))
  /\ (forall i r,
        nth_error a_rows i = Some r ->
        let f := APartsPickingProcessor_rows_to_dataframe a_rows in
        frame_get f i HDR_PART_NUMBER = Some (CStr (ap_part_number r))
        /\ frame_get f i COL_QUANTITY = Some (CInt (ap_quantity r))
        /\ frame_get f i COL_OPTIONS = Some (CStr (ap_options r))).
Proof.
  assert (CMf : forall r rows,
             CMPickingProcessor_rows_to_dataframe (r :: rows)
             = {| nf_columns := CM_PICKING_COLUMNS;
                  nf_rows :=
                    map (fun r => map snd (CMPickingRow_to_dict r))
                        (r :: rows) |}).
  { intros r rows.
    apply (@frame_of_dicts_with_fixed_keys _ CMPickingRow_to_dict
             CM_PICKING_COLUMNS
             (fun r => map snd (CMPickingRow_to_dict r)));
      intros; reflexivity. }
  assert (Af : forall r rows,
             APartsPickingProcessor_rows_to_dataframe (r :: rows)
             = {| nf_columns := A_PARTS_PICKING_COLUMNS;
                  nf_rows :=
                    map (fun r => map snd (APartsPickingRow_to_dict r))
                        (r :: rows) |}).
  { intros r rows.
    apply (@frame_of_dicts_with_fixed_keys _ APartsPickingRow_to_dict
             A_PARTS_PICKING_COLUMNS
             (fun r => map snd (APartsPickingRow_to_dict r)));
      intros; reflexivity. }
  assert (Vf : forall r rows,
             APartsPickingProcessor_validation_to_dataframe (r :: rows)
             = {| nf_columns := VALIDATION_COLUMNS;
                  nf_rows :=
                    map (fun r => map snd (validation_row_dict r))
                        (r :: rows) |}).
  { intros r rows.
    apply (@frame_of_dicts_with_fixed_keys _ validation_row_dict
             VALIDATION_COLUMNS
             (fun r => map snd (validation_row_dict r)));
      intros; reflexivity. }
  split; [destruct cm_rows; [reflexivity | rewrite CMf; reflexivity]|].
  split; [destruct a_rows; [reflexivity | rewrite Af; reflexivity]|].
  split; [destruct v_rows; [reflexivity | rewrite Vf; reflexivity]|].
  split.
  { destruct cm_rows; [reflexivity|]. rewrite CMf. cbn [nf_rows].
    apply length_map. }
  split.
  - intros i r Hi. cbn zeta.
    destruct cm_rows as [|r0 rows]; [destruct i; discriminate|].
    rewrite CMf. unfold frame_get. cbn [nf_rows nf_columns].
    rewrite (map_nth_error _ _ _ Hi). repeat split.
  - intros i r Hi. cbn zeta.
    destruct a_rows as [|r0 rows]; [destruct i; discriminate|].
    rewrite Af. unfold frame_get. cbn [nf_rows nf_columns].
    rewrite (map_nth_error _ _ _ Hi). repeat split.
Qed.

Lemma apply_reports (rs : list report) :
  forall v,
    errors (fold_left apply_report rs v) = errors v ++ reported_errors rs
    /\ warnings (fold_left apply_report rs v)
       = warnings v ++ reported_warnings rs
    /\ is_valid (fold_left apply_report rs v)
       = is_valid v && no_error_reported rs.
Proof.
  induction rs as [|r rs IH]; intros v; cbn [fold_left].
  - cbn. rewrite !app_nil_r, andb_true_r. auto.
  - destruct (IH (apply_report v r)) as (E & W & V).
    rewrite E, W, V.
    destruct r as [m|m];
      cbn [apply_report add_error add_warning errors warnings is_valid
             reported_errors reported_warnings flat_map app
             no_error_reported forallb andb];
      rewrite <- ?app_assoc; cbn [app]; rewrite ?andb_false_r; auto.
Qed.

(** X21. After any sequence of [add_error] and [add_warning] calls a
    validation result lists its old errors and warnings followed by the
    added ones, in call order; it is valid only if it was valid before
    and no error was added, so no call makes an invalid result valid
    again; and [has_errors] holds exactly when the error list is not
    empty. *)
Theorem validation_result_reports (v : ValidationResult)
    (rs : list report) :
  let v' := fold_left apply_report rs v in
  errors v' = errors v ++ reported_errors rs
  /\ warnings v' = warnings v ++ reported_warnings rs
  /\ is_valid v' = is_valid v && no_error_reported rs
  /\ (is_valid v = false -> is_valid v' = false)
  /\ (has_errors v' = true <-> errors v' <> [])
  /\ (has_warnings v' = true <-> warnings v' <> []).
Proof.
  cbn zeta. destruct (apply_reports rs v) as (E & W & V).
  split; [exact E|]. split; [exact W|]. split; [exact V|].
  split; [intros H; rewrite V, H; reflexivity|].
  unfold has_errors, has_warnings.
  split.
  - destruct (errors (fold_left apply_report rs v)); cbn;
      split; congruence.
  - destruct (warnings (fold_left apply_report rs v)); cbn;
      split; congruence.
Qed.

(* ================================================================== *)
(** * Further properties: whitespace and option cells *)
(* ================================================================== *)

Lemma safe_str_no_outer_whitespace (value : cell) :
  no_outer_whitespace (safe_str value).
Proof.
  destruct value; cbn [safe_str]; try apply strip_no_outer_whitespace.
  exact I.
Qed.

Lemma join_nil (sep : pystr) (parts : list pystr) :
  Forall (fun x => x <> []) parts -> join sep parts = [] -> parts = [].
Proof.
  intros H. destruct parts as [|x [|y l]]; [reflexivity| |].
  - cbn [join]. inversion H; subst. congruence.
  - cbn [join]. inversion H as [|? ? Hx _]; subst.
    destruct x; [congruence | discriminate].
Qed.

Section Whitespace.
Context {rt : PyRuntime}.

(** X22. The validity screen and the classification look at the trimmed
    part number only: surrounding whitespace changes neither. *)
Theorem screen_ignores_outer_whitespace (part_number : pystr) :
  is_valid_part_number (strip part_number)
    = is_valid_part_number part_number
  /\ identify_part_type (strip part_number)
     = identify_part_type part_number.
Proof.
  unfold is_valid_part_number, identify_part_type. rewrite strip_idem.
  destruct (is_empty part_number) eqn:E0.
  - apply is_empty_nil in E0. subst. split; reflexivity.
  - destruct (is_empty (strip part_number)) eqn:E1; [|split; reflexivity].
    apply is_empty_nil in E1. rewrite E1. split; reflexivity.
Qed.
End Whitespace.

(** X23. The options extracted from a row are trimmed and never empty,
    a hyphen or nan; there are at most as many as the row has cells from
    the start column on, none when the row does not reach that column,
    and the formatted string is empty exactly when there is no option. *)
Theorem extracted_options_are_clean (row : Series) (start : nat) :
  Forall (fun o => o <> lit "" /\ o <> lit "-" /\ o <> lit "nan"
                   /\ no_outer_whitespace o)
         (extract_options row start)
  /\ (List.length (extract_options row start)
      <= List.length row - start)%nat
  /\ ((List.length row <= start)%nat -> extract_options row start = [])
  /\ (format_options (extract_options row start) = lit ""
      <-> extract_options row start = []).
Proof.
  rewrite extract_options_filter.
  set (kept := filter (fun value => negb (is_placeholder value))
                      (map safe_str (skipn start row))).
  assert (F : Forall (fun o => o <> lit "" /\ o <> lit "-" /\ o <> lit "nan"
                               /\ no_outer_whitespace o) kept).
  { apply Forall_forall. intros o Ho. subst kept.
    apply filter_In in Ho. destruct Ho as [Hin Hk].
    apply in_map_iff in Hin. destruct Hin as (c & <- & _).
    apply negb_true_iff in Hk. unfold is_placeholder in Hk.
    cbn [existsb] in Hk. rewrite !orb_false_iff in Hk.
    destruct Hk as (K1 & K2 & K3 & _).
    apply str_eqb_neq in K1, K2, K3.
    repeat split; try assumption. apply safe_str_no_outer_whitespace. }
  split; [exact F|]. split; [|split].
  - subst kept. eapply Nat.le_trans; [apply filter_length_le|].
    rewrite length_map, length_skipn. lia.
  - intros H. subst kept. rewrite skipn_all2 by lia. reflexivity.
  - rewrite format_options_join. split.
    + apply join_nil. eapply Forall_impl; [|exact F].
      intros o (H & _). exact H.
    + intros ->. reflexivity.
Qed.

(* ================================================================== *)
(** * Further properties: a successful run, end to end *)
(* ================================================================== *)

Section EndToEnd.
Context {rt : PyRuntime}.

Lemma create_reference_dbs_ok df cm_file a_file cmr ar :
  ReferenceDBCreator.create_reference_dbs df cm_file a_file = Ok (cmr, ar) ->
  exists cat acat,
    file_on_disk cm_file = Readable cat
    /\ file_on_disk a_file = Readable acat
    /\ ReferenceDBCreator._create_cm_reference_db df cat = Ok cmr
    /\ ReferenceDBCreator._create_a_parts_reference_db df acat = Ok ar.
Proof.
  unfold ReferenceDBCreator.create_reference_dbs,
    ReferenceDBCreator._load_master_dbs, try_except, safe_read_excel.
  destruct (file_on_disk cm_file) as [|err|cat]; cbn [bind];
    try discriminate.
  destruct (file_on_disk a_file) as [|err|acat]; cbn [bind fst snd];
    try discriminate.
  destruct (ReferenceDBCreator._create_cm_reference_db df cat) as [t|e]
    eqn:Rc; cbn [bind]; [|discriminate].
  destruct (ReferenceDBCreator._create_a_parts_reference_db df acat)
    as [t'|e] eqn:Ra; cbn [bind]; [|discriminate].
  intros H; injection H as <- <-. exists cat, acat.
  repeat split; assumption.
Qed.

Lemma qualifying_count {R} (pn : R -> pystr) (t : list R)
    (rows : list Series) (q : Series -> bool) :
  map pn t = map part_number_of (filter q rows) ->
  List.length t = List.length (filter q rows).
Proof.
  intros H. apply (f_equal (@List.length pystr)) in H.
  rewrite !length_map in H. exact H.
Qed.

(** X24. In a successful run the sheets agree with one another: the CM
    reference sheet lists the part numbers of the matrix rows that are
    valid, classified CM and found in the CM catalog, in matrix order;
    the CM picking sheet mirrors it row for row; and the counts reported
    are the numbers of such rows, for CM and, in full mode, for
    A-parts. *)
Theorem successful_run_is_consistent (env : Env)
    (process_line : ProcessLine) (res : PickingResult)
    (saved : SavedWorkbook) :
  PickingSystemMain.run env process_line = (res, Some saved) ->
  exists cat acat,
    file_on_disk (cm_master_file env) = Readable cat
    /\ file_on_disk (a_parts_master_file env) = Readable acat
    /\ map cmr_part_number (saved_cm_reference saved)
       = map part_number_of
           (filter (cm_qualifies cat) (skipn 1 (saved_matrix saved)))
    /\ map cmr_No (saved_cm_reference saved)
       = one_to (List.length (saved_cm_reference saved))
    /\ Forall2 cm_picking_mirrors
         (saved_cm_reference saved) (saved_cm_picking saved)
    /\ cm_picking_count res
       = Z.of_nat (List.length
           (filter (cm_qualifies cat) (skipn 1 (saved_matrix saved))))
    /\ (process_line = A_LINE ->
        a_parts_picking_count res
        = Z.of_nat (List.length
            (filter (a_parts_qualifies acat)
                    (skipn 1 (saved_matrix saved))))).
Proof.
  unfold PickingSystemMain.run.
  pose proof (@valid_has_matrix (input_file env)) as VM.
  destruct (is_valid (validation
              (PickingSystemMain._validate_input_file (input_file env))));
    cbn [negb]; [|discriminate].
  destruct (VM eq_refl) as (df & -> & _).
  destruct (PickingSystemMain.stages env process_line df)
    as [[res' saved']|e] eqn:S; [|discriminate].
  intros H; injection H as <- <-.
  unfold PickingSystemMain.stages in S.
  destruct (ReferenceDBCreator.create_reference_dbs df _ _)
    as [[cmr ar]|e0] eqn:R; cbn [bind] in S; [|discriminate].
  destruct (create_reference_dbs_ok _ _ _ R)
    as (cat & acat & Hc & Ha & Rc & Ra).
  exists cat, acat. split; [exact Hc|]. split; [exact Ha|].
  destruct (CMPickingProcessor.create_cm_picking df cmr) as [cmp|e0] eqn:C;
    cbn [bind] in S; [|discriminate].
  destruct (@numbering_loop _ cmr_No cmr_part_number _ _
              (@cm_reference_step_shape _ cat) _ _ _ Rc eq_refl)
    as [Nc Pc].
  destruct (@numbering_loop _ apr_No apr_part_number _ _
              (@a_parts_reference_step_shape _ acat) _ _ _ Ra eq_refl)
    as [_ Pa].
  cbn [map app] in Pc, Pa.
  pose proof (@cm_picking_loop_keeps_all _ _ _ _ _ Rc
                (@create_cm_picking_ok _ _ _ _ C)) as M.
  pose proof (Forall2_length M) as Lc.
  pose proof (qualifying_count _ _ _ _ Pc) as Qc.
  destruct process_line.
  - destruct (APartsPickingProcessor.create_a_parts_picking df ar)
      as [[ps vs]|e0] eqn:A; cbn [bind fst snd] in S; [|discriminate].
    destruct (System720Generator.generate (clock env) cmp (Some ps))
      as [wb|e0]; cbn [bind] in S; [|discriminate].
    injection S as <- <-.
    cbn [PickingSystemMain._save_results saved_matrix saved_cm_reference
           saved_cm_picking cm_picking_count a_parts_picking_count].
    pose proof (@a_parts_picking_loop_keeps_all _ _ _ _ _ _ Ra
                  (@create_a_parts_picking_ok _ _ _ _ A)) as MA.
    pose proof (Forall2_length MA) as La.
    pose proof (qualifying_count _ _ _ _ Pa) as Qa.
    repeat split; try assumption; try congruence.
  - cbn [bind] in S.
    destruct (System720Generator.generate (clock env) cmp None)
      as [wb|e0]; cbn [bind] in S; [|discriminate].
    injection S as <- <-.
    cbn [PickingSystemMain._save_results saved_matrix saved_cm_reference
           saved_cm_picking cm_picking_count a_parts_picking_count].
    repeat split; try assumption; try congruence.
Qed.
End EndToEnd.

(* ================================================================== *)
(** * The further properties on the sample inputs *)
(* ================================================================== *)

Lemma safe_str_is_trimmed_witness :
  safe_str CNaN = lit ""
  /\ no_outer_whitespace (safe_str (CStr (lit " CM123456 "))).
Proof.
  split.
  - exact (proj2 (proj2 (safe_str_is_trimmed CNaN)) eq_refl).
  - exact (proj1 (safe_str_is_trimmed (CStr (lit " CM123456 ")))).
Defined.

Lemma safe_int_is_a_projection_witness :
  @safe_int ascii_runtime CNaN = Ok 0
  /\ @safe_int ascii_runtime (CInt 25) = Ok 25.
Proof.
  split.
  - exact (proj1 (@safe_int_is_a_projection ascii_runtime CNaN) eq_refl).
  - exact (proj1 (proj2 (@safe_int_is_a_projection ascii_runtime (CInt 25)))
             25 eq_refl eq_refl).
Defined.

Lemma classification_bounds_witness :
  8 <= len (strip (lit " CM123456 "))
  /\ @identify_part_type ascii_runtime (lit "A-1234") = OTHER.
Proof.
  split.
  - exact (proj1 (proj1 (@classification_bounds ascii_runtime
                           (lit " CM123456 ")) eq_refl)).
  - exact (proj2 (proj2 (proj2 (@classification_bounds ascii_runtime
                                  (lit "A-1234")))) eq_refl eq_refl).
Defined.

Lemma required_boxes_is_least_witness :
  calculate_required_boxes 25 10 <= 3
  /\ calculate_required_boxes 25 10 <= calculate_required_boxes 31 10.
Proof.
  destruct (@required_boxes_is_least 25 10 eq_refl) as [L M].
  split.
  - apply (proj1 (L 3)). discriminate.
  - apply (M 31). discriminate.
Defined.


Lemma untrimmed_catalog_key_is_invisible_witness :
  @ReferenceDBCreator._create_cm_reference_db ascii_runtime sample_matrix
    (sample_cm_master_padded :: sample_cm_master)
  = @ReferenceDBCreator._create_cm_reference_db ascii_runtime sample_matrix
      sample_cm_master.
Proof.
  apply (@untrimmed_catalog_key_is_invisible ascii_runtime sample_matrix
           [] sample_cm_master_padded sample_cm_master).
  intros H. vm_compute in H. discriminate H.
Defined.

Lemma reference_rows_are_classified_witness :
  Forall (fun r => @cm_reference_row_ok ascii_runtime sample_cm_master r
                   /\ cm_reference_row_trimmed r) sample_cm_reference
  /\ Forall (fun r => @a_parts_reference_row_ok ascii_runtime
                        sample_a_parts_master r
                      /\ a_parts_reference_row_trimmed r) sample_a_reference
  /\ (forall rc ra,
        In rc sample_cm_reference -> In ra sample_a_reference ->
        cmr_part_number rc <> apr_part_number ra).
Proof.
  exact (@reference_rows_are_classified ascii_runtime sample_matrix
           sample_cm_master sample_a_parts_master
           sample_cm_reference sample_a_reference eq_refl eq_refl).
Defined.

Lemma dropping_a_catalog_row_witness :
  map cmr_part_number sample_cm_reference
  = filter (fun pn => negb (str_eqb pn (lit "CM999999")))
           (map cmr_part_number sample_cm_reference_with_ghost)
  /\ map cmr_No sample_cm_reference
     = one_to (List.length sample_cm_reference).
Proof.
  apply (@dropping_a_catalog_row ascii_runtime sample_matrix
           sample_cm_master sample_cm_master_ghost []
           (lit "CM999999") sample_cm_reference_with_ghost
           sample_cm_reference eq_refl).
  - repeat constructor.
  - reflexivity.
  - reflexivity.
Defined.

Lemma find_matrix_row_first_match_witness :
  first_row_with (skipn 1 sample_matrix) (lit "A123456")
    (nth 4 sample_matrix [])
  /\ exists found,
       CMPickingProcessor._find_matrix_row sample_matrix (lit "CM000000")
       = Ok found.
Proof.
  destruct (find_matrix_row_first_match sample_matrix (lit "A123456"))
    as (F & _).
  destruct (find_matrix_row_first_match sample_matrix (lit "CM000000"))
    as (_ & _ & T & _).
  split.
  - exact (F (nth 4 sample_matrix []) eq_refl).
  - apply T. repeat constructor.
Defined.

Lemma cm_picking_rows_witness :
  map cmp_no sample_cm_picking = one_to (List.length sample_cm_picking)
  /\ Forall2 (@cm_picking_row_from ascii_runtime sample_matrix)
       (filter (fun r => in_matrix sample_matrix (strip (cmr_part_number r)))
               sample_cm_reference)
       sample_cm_picking.
Proof.
  exact (proj1 (@cm_picking_rows ascii_runtime sample_matrix
                  sample_cm_reference) sample_cm_picking eq_refl).
Defined.

Lemma a_parts_picking_rows_witness :
  map ap_no (fst sample_a_picking)
    = one_to (List.length (fst sample_a_picking))
  /\ map v_No (snd sample_a_picking)
     = one_to (List.length (snd sample_a_picking))
  /\ List.length (snd sample_a_picking) = List.length (fst sample_a_picking)
  /\ Forall2 (@a_parts_picking_row_from ascii_runtime sample_matrix)
       (filter (fun r => in_matrix sample_matrix (strip (apr_part_number r)))
               sample_a_reference)
       (fst sample_a_picking).
Proof.
  exact (proj1 (@a_parts_picking_rows ascii_runtime sample_matrix
                  sample_a_reference)
           (fst sample_a_picking) (snd sample_a_picking) eq_refl).
Defined.

Lemma validation_ng_only_without_box_quantity_witness :
  Forall2
    (fun p v =>
       (v_verdict v = lit "NG"
        <-> ap_quantity_per_box p <= 0 /\ 0 < ap_quantity p)
       /\ (0 < ap_quantity_per_box p ->
           v_verdict v = lit "OK"
           /\ 0 <= v_difference v < ap_quantity_per_box p))
    (fst sample_a_picking) (snd sample_a_picking).
Proof.
  exact (@validation_ng_only_without_box_quantity ascii_runtime
           sample_matrix sample_a_reference
           (fst sample_a_picking) (snd sample_a_picking) eq_refl).
Defined.

Lemma cm_picking_mirrors_reference_witness :
  Forall2 cm_picking_mirrors sample_cm_reference sample_cm_picking.
Proof.
  exact (@cm_picking_mirrors_reference ascii_runtime sample_matrix
           sample_cm_master sample_cm_reference sample_cm_picking
           eq_refl eq_refl).
Defined.

Lemma a_parts_picking_mirrors_reference_witness :
  Forall2 a_parts_picking_mirrors sample_a_reference (fst sample_a_picking).
Proof.
  exact (@a_parts_picking_mirrors_reference ascii_runtime sample_matrix
           sample_a_parts_master sample_a_reference
           (fst sample_a_picking) (snd sample_a_picking) eq_refl eq_refl).
Defined.

Lemma legacy_sheet_shape_witness :
  match @System720Generator.generate ascii_runtime sample_clock
          sample_cm_picking (Some (fst sample_a_picking)) with
  | Ok wb =>
      sheet_title wb = SHEET_720
      /\ hd [] (sheet_rows wb) = map WStr SYSTEM_720_columns
      /\ List.length (sheet_rows wb) = 4%nat
  | Raise e => exn_cls e = OutputError
  end.
Proof.
  destruct (@legacy_sheet_shape ascii_runtime sample_clock sample_cm_picking
              (Some (fst sample_a_picking))) as [H R].
  destruct (@System720Generator.generate ascii_runtime sample_clock
              sample_cm_picking (Some (fst sample_a_picking))) as [wb|e].
  - destruct (H wb eq_refl) as (A & B & C & _).
    split; [exact A|]. split; [exact B | exact C].
  - exact (R e eq_refl).
Defined.

Lemma validation_result_is_consistent_witness :
  errors (validation (PickingSystemMain._validate_input_file
                        (file_of "gone" (@Missing DataFrame))))
  = [MSG_FILE_MISSING ++ lit "gone.xlsx"]
  /\ errors (validation (PickingSystemMain._validate_input_file
                           (input_file sample_env))) = [].
Proof.
  split.
  - pose proof (validation_result_is_consistent
                  (file_of "gone" (@Missing DataFrame))) as H.
    cbv zeta in H. destruct H as (_ & _ & _ & H & _).
    exact (H eq_refl).
  - pose proof (validation_result_is_consistent (input_file sample_env))
      as H.
    cbv zeta in H. destruct H as (H & _).
    exact (proj1 H eq_refl).
Defined.

Lemma file_name_warning_witness :
  exists frame,
    frame_part_number
      (PickingSystemMain._validate_input_file (input_file sample_env))
    = Some frame
    /\ (warnings (validation (PickingSystemMain._validate_input_file
                                (input_file sample_env))) = []
        <-> firstn 10 (file_stem (input_file sample_env))
            = firstn 10 frame).
Proof.
  exact (file_name_warning (input_file sample_env) eq_refl).
Defined.


Lemma run_writes_what_it_counts_witness :
  exists saved,
    snd (@PickingSystemMain.run ascii_runtime sample_env A_LINE) = Some saved
    /\ file_on_disk (input_file sample_env) = Readable (saved_matrix saved)
    /\ cm_picking_count
         (fst (@PickingSystemMain.run ascii_runtime sample_env A_LINE))
       = Z.of_nat (List.length (saved_cm_picking saved))
    /\ a_parts_picking_count
         (fst (@PickingSystemMain.run ascii_runtime sample_env A_LINE))
       = Z.of_nat (List.length (rows_of (saved_a_picking saved))).
Proof.
  let r := eval vm_compute in
             (@PickingSystemMain.run ascii_runtime sample_env A_LINE) in
  match r with
  | (?res, Some ?saved) =>
      exists saved;
      destruct (@run_writes_what_it_counts ascii_runtime sample_env A_LINE
                  res saved eq_refl) as (M & C & A & _);
      split; [reflexivity|]; split; [exact M|]; split; [exact C | exact A]
  end.
Defined.

Lemma frames_have_a_fixed_schema_witness :
  frame_get (CMPickingProcessor_rows_to_dataframe sample_cm_picking) 0
    HDR_PART_NUMBER = Some (CStr (lit "CM123456"))
  /\ frame_get (CMPickingProcessor_rows_to_dataframe sample_cm_picking) 0
       COL_QUANTITY = Some (CInt 3)
  /\ frame_get (CMPickingProcessor_rows_to_dataframe sample_cm_picking) 0
       COL_OPTIONS = Some (CStr (lit "red / wide")).
Proof.
  destruct (frames_have_a_fixed_schema sample_cm_picking [] [])
    as (_ & _ & _ & _ & H & _).
  let r := eval vm_compute in (nth_error sample_cm_picking 0) in
  match r with
  | Some ?x => exact (H 0%nat x eq_refl)
  end.
Defined.

Lemma validation_result_reports_witness :
  is_valid
    (fold_left apply_report
       [AddWarning (lit "w"); AddError (lit "e"); AddWarning (lit "x")]
       {| is_valid := true; errors := []; warnings := [] |}) = false
  /\ is_valid
       (fold_left apply_report [AddWarning (lit "w")]
          {| is_valid := false; errors := [lit "e"]; warnings := [] |})
     = false.
Proof.
  split.
  - pose proof (validation_result_reports
                  {| is_valid := true; errors := []; warnings := [] |}
                  [AddWarning (lit "w"); AddError (lit "e");
                   AddWarning (lit "x")]) as H.
    cbv zeta in H. destruct H as (_ & _ & H & _). exact H.
  - pose proof (validation_result_reports
                  {| is_valid := false; errors := [lit "e"];
                     warnings := [] |}
                  [AddWarning (lit "w")]) as H.
    cbv zeta in H. destruct H as (_ & _ & _ & H & _). exact (H eq_refl).
Defined.

Lemma extracted_options_are_clean_witness :
  extract_options (firstn 11 (nth 2 sample_matrix [])) OPTION_START_COL = []
  /\ (List.length (extract_options (nth 2 sample_matrix []) OPTION_START_COL)
      <= 5)%nat.
Proof.
  split.
  - exact (proj1 (proj2 (proj2 (extracted_options_are_clean
                                  (firstn 11 (nth 2 sample_matrix []))
                                  OPTION_START_COL))) (le_n 11)).
  - exact (proj1 (proj2 (extracted_options_are_clean
                           (nth 2 sample_matrix []) OPTION_START_COL))).
Defined.

Lemma successful_run_is_consistent_witness :
  exists saved,
    snd (@PickingSystemMain.run ascii_runtime sample_env A_LINE) = Some saved
    /\ map cmr_part_number (saved_cm_reference saved)
       = map part_number_of
           (filter (@cm_qualifies ascii_runtime sample_cm_master)
                   (skipn 1 sample_matrix))
    /\ Forall2 cm_picking_mirrors
         (saved_cm_reference saved) (saved_cm_picking saved)
    /\ a_parts_picking_count
         (fst (@PickingSystemMain.run ascii_runtime sample_env A_LINE))
       = Z.of_nat (List.length
           (filter (@a_parts_qualifies ascii_runtime sample_a_parts_master)
                   (skipn 1 sample_matrix))).
Proof.
  let r := eval vm_compute in
             (@PickingSystemMain.run ascii_runtime sample_env A_LINE) in
  match r with
  | (?res, Some ?saved) =>
      exists saved;
      destruct (@successful_run_is_consistent ascii_runtime sample_env
                  A_LINE res saved eq_refl)
        as (cat & acat & Hc & Ha & P & _ & M & _ & A)
  end.
  change (Readable sample_cm_master = Readable cat) in Hc.
  change (Readable sample_a_parts_master = Readable acat) in Ha.
  injection Hc as <-. injection Ha as <-.
  split; [reflexivity|]. split; [exact P|]. split; [exact M|].
  exact (A eq_refl).
Defined.
